(** * Pointer-acceleration curve tools: decoder and curve editor

    A shallow embedding of
      - [gemini_research_windows/mouse.py]  (fixed-point curve decoder),
      - [simulator.py]                      (first curve editor),
      - [simulator2.py]                     (curve editor with selection,
                                             locking and device listing),
    followed by the properties proved about them.

    Numbers.  Python floats are modelled by exact rationals [Q]; numeric
    results are compared with [==] ([Qeq]).  The decoder's arithmetic is
    exact in binary64 as well (a 16.16 fixed-point value has 32 significant
    bits), and the editor's clamping only compares and copies values.
    The editors' coordinate transforms and the 0.1 steps of the two buttons
    do round in binary64; what is stated of them over [Q] is order,
    bounds and clamping, which rounding keeps.  Where the last bits of a
    result decide, the functions are given a second time in [Binary64],
    on IEEE 754 binary64 numbers (Rocq's primitive floats), and evaluated
    there.

    Exceptions.  A Python call either returns or raises; [outcome] records
    which.  Index errors inside the editor are modelled with [option].
    An exception other than [CalledProcessError] that leaves
    [subprocess.run] is caught nowhere; [Shell] records it as [escaped],
    and [callback] carries it out of the handler whose redraw ran the
    command.

    Surroundings.  A canvas is the list of items created on it.  What the
    scripts use without defining it is an argument of the function that
    uses it: [fmt2f] for [format(v, ".2f")], [run] for the external
    [xinput] program, [platform_system] for [platform.system()]. *)

From Stdlib Require Import PrimFloat.
From Stdlib Require Import QArith Qminmax ZArith Lia Reals Qreals Psatz.
From Stdlib Require Import Strings.Byte Strings.Ascii Strings.String.
From stdpp Require Import base option list gmap pretty.

(* ===================================================================== *)
(** * Python primitives used by the three scripts *)
(* ===================================================================== *)

(** Exceptions: the built-in ones the code could raise, and the two error
    kinds named in the specification of the decoder. *)
Inductive exn : Type :=
  | IndexError
  | ValueError
  | TypeError
  | DecodeError
  | MismatchedLengthError.

Inductive outcome (A : Type) : Type :=
  | Returned (a : A)
  | Raised (e : exn).
Arguments Returned {A} a.
Arguments Raised {A} e.

(** [l[i:j]] for non-negative [i], [j]: out-of-range bounds are clipped. *)
Definition slice {A : Type} (l : list A) (i j : nat) : list A :=
  firstn (j - i) (skipn i l).

(** [range(0, stop, step)] for a positive [step]. *)
Definition range0 (stop step : nat) : list nat :=
  List.map (fun k => (k * step)%nat) (seq 0 ((stop + step - 1) / step)).

Definition byte_val (b : byte) : Z := Z.of_N (Byte.to_N b).

(** [int.from_bytes(bs, byteorder='little', signed=False)]. *)
Fixpoint from_bytes_little_unsigned (bs : list byte) : Z :=
  match bs with
  | [] => 0
  | b :: rest => byte_val b + 256 * from_bytes_little_unsigned rest
  end%Z.

(** [int.from_bytes(bs, byteorder='little', signed=...)]: two's complement
    over the [8 * len(bs)] bits actually present; the empty string is 0. *)
Definition from_bytes_little (bs : list byte) (signed : bool) : Z :=
  let u := from_bytes_little_unsigned bs in
  let bits := (8 * Z.of_nat (length bs))%Z in
  if signed && negb (Nat.eqb (length bs) 0) && (2 ^ (bits - 1) <=? u)%Z
  then (u - 2 ^ bits)%Z
  else u.

(** [min(a, b)] and [max(a, b)] on two arguments: the first argument is
    kept unless the second is strictly smaller (resp. larger). *)
Definition Qltb (a b : Q) : bool :=
  match Qcompare a b with Lt => true | _ => false end.

Definition py_min (a b : Q) : Q := if Qltb b a then b else a.
Definition py_max (a b : Q) : Q := if Qltb a b then b else a.

(** [for idx, v in enumerate(l): if test(v): return idx] / [return None]. *)
Fixpoint first_index_from {A : Type} (test : A -> bool) (l : list A)
    (idx : nat) : option nat :=
  match l with
  | [] => None
  | v :: rest => if test v then Some idx
                 else first_index_from test rest (S idx)
  end.

(** [zip(xs, ys)]: stops at the end of the shorter argument. *)
Fixpoint zip {A B : Type} (xs : list A) (ys : list B) : list (A * B) :=
  match xs, ys with
  | x :: xs', y :: ys' => (x, y) :: zip xs' ys'
  | _, _ => []
  end.

(** The one-character string ["\n"]. *)
Definition newline : string := String (ascii_of_nat 10) EmptyString.

(** Items created on a Tk canvas, with the options the scripts pass
    ([None] for an option that a call leaves out). *)
Inductive CanvasItem : Type :=
  | create_line (x1 y1 x2 y2 : Q) (fill : string) (width : option Z)
                (tags : list string)
  | create_oval (x1 y1 x2 y2 : Q) (fill outline : string) (width : option Z)
                (tags : list string)
  | create_text (x y : Q) (text : string) (anchor : string)
                (fill : option string) (font : option (string * Z))
                (angle : option Z) (tags : list string).

Definition item_tags (item : CanvasItem) : list string :=
  match item with
  | create_line _ _ _ _ _ _ tags => tags
  | create_oval _ _ _ _ _ _ _ tags => tags
  | create_text _ _ _ _ _ _ _ tags => tags
  end.

Definition has_tag (tag : string) (item : CanvasItem) : bool :=
  existsb (String.eqb tag) (item_tags item).

(** [canvas.delete(tag)] on the list of items a canvas holds. *)
Definition canvas_delete (tag : string) (canvas : list CanvasItem)
  : list CanvasItem :=
  List.filter (fun item => negb (has_tag tag item)) canvas.

(** The end points of the lines, the centres of the texts and the corner
    boxes of the ovals among some canvas items, in creation order. *)
Definition line_ends (items : list CanvasItem) : list ((Q * Q) * (Q * Q)) :=
  flat_map (fun item =>
              match item with
              | create_line x1 y1 x2 y2 _ _ _ => [((x1, y1), (x2, y2))]
              | _ => []
              end) items.

Definition text_positions (items : list CanvasItem) : list (Q * Q) :=
  flat_map (fun item =>
              match item with
              | create_text x y _ _ _ _ _ _ => [(x, y)]
              | _ => []
              end) items.

Definition oval_boxes (items : list CanvasItem) : list ((Q * Q) * (Q * Q)) :=
  flat_map (fun item =>
              match item with
              | create_oval x1 y1 x2 y2 _ _ _ _ => [((x1, y1), (x2, y2))]
              | _ => []
              end) items.

Definition oval_outlines (items : list CanvasItem)
  : list (string * option Z) :=
  flat_map (fun item =>
              match item with
              | create_oval _ _ _ _ _ outline width _ => [(outline, width)]
              | _ => []
              end) items.

(** What [subprocess.run(cmd, check=True, ...)] can do: complete with the
    captured standard output, raise [CalledProcessError] (non-zero exit
    status), or raise something else (the program cannot be started). *)
Inductive run_result : Type :=
  | Completed (stdout : string)
  | CalledProcessError
  | OtherError.

(** The commands run so far, the lines printed, and whether an exception
    left the function. *)
Record Shell : Type := mkShell {
  issued : list (list string);
  printed : list string;
  escaped : bool
}.

(** No command run, nothing printed, no exception. *)
Definition quiet : Shell := mkShell [] [] false.

(** A run of [subprocess.run(cmd, check=True)] calls inside one [try]:
    each command is run after the ones before it completed; [run] answers
    a command given the commands already issued. *)
Fixpoint run_checked (run : list (list string) -> list string -> run_result)
    (history : list (list string)) (cmds : list (list string))
  : list (list string) * run_result :=
  match cmds with
  | [] => (history, Completed EmptyString)
  | cmd :: rest =>
      match run history cmd with
      | Completed _ => run_checked run (history ++ [cmd]) rest
      | failure => (history ++ [cmd], failure)
      end
  end.

(* ===================================================================== *)
(** * gemini_research_windows/mouse.py *)
(* ===================================================================== *)

Module Mouse.

(** [hex_to_decimal(hex_values)]: one value per started 8-byte chunk. *)
Definition decode_chunk (hex_chunk : list byte) : Q :=
  let integer_part := from_bytes_little (slice hex_chunk 2 4) true in
  let fractional_part :=
    (inject_Z (from_bytes_little (slice hex_chunk 0 2) false) / 65536)%Q in
  (inject_Z integer_part + fractional_part)%Q.

Definition hex_to_decimal (hex_values : list byte) : list Q :=
  List.map (fun i => decode_chunk (slice hex_values i (i + 8)))
           (range0 (length hex_values) 8).

(** The call as Python sees it: no statement of the function raises on a
    list of byte values. *)
Definition call_hex_to_decimal (hex_values : list byte)
  : outcome (list Q) :=
  Returned (hex_to_decimal hex_values).

Definition smooth_mouse_x_curve : list byte :=
  [x00; x00; x00; x00; x00; x00; x00; x00;
   x15; x6e; x00; x00; x00; x00; x00; x00;
   x00; x40; x01; x00; x00; x00; x00; x00;
   x29; xdc; x03; x00; x00; x00; x00; x00;
   x00; x00; x28; x00; x00; x00; x00; x00].

Definition smooth_mouse_y_curve : list byte :=
  [x00; x00; x00; x00; x00; x00; x00; x00;
   xfd; x11; x01; x00; x00; x00; x00; x00;
   x00; x24; x04; x00; x00; x00; x00; x00;
   x00; xfc; x12; x00; x00; x00; x00; x00;
   xc0; xbb; x01; x00; x00; x00; x00; x00].

(** [coordinates = list(zip(x_points, y_points))] for two byte tables. *)
Definition coordinates_of (x_points y_points : list Q) : list (Q * Q) :=
  zip x_points y_points.

Definition call_coordinates_of (x_points y_points : list Q)
  : outcome (list (Q * Q)) :=
  Returned (coordinates_of x_points y_points).

Definition x_points : list Q := hex_to_decimal smooth_mouse_x_curve.
Definition y_points : list Q := hex_to_decimal smooth_mouse_y_curve.
Definition coordinates : list (Q * Q) := coordinates_of x_points y_points.

(** The record layout in the specification's words: an unsigned and a
    signed little-endian 16-bit number read from two bytes. *)
Definition uint16_le (b0 b1 : byte) : Z :=
  (byte_val b0 + 256 * byte_val b1)%Z.

Definition int16_le (b0 b1 : byte) : Z :=
  let u := uint16_le b0 b1 in
  if (u <? 32768)%Z then u else (u - 65536)%Z.

Definition record_value (b0 b1 b2 b3 : byte) : Q :=
  (inject_Z (int16_le b2 b3) + inject_Z (uint16_le b0 b1) / 65536)%Q.

(** [draw_graph(points)]: the items put on the canvas, or the exception
    that ends the script.  [fmt2f] stands for Python's [format(v, ".2f")]. *)
Definition scale_x : Q := 10.
Definition scale_y : Q := 10.
Definition offset_x : Q := 50.
Definition offset_y : Q := 450.

Definition graph_label (fmt2f : Q -> string) (pt : Q * Q) : CanvasItem :=
  create_text (offset_x + fst pt * scale_x)%Q (offset_y - snd pt * scale_y)%Q
              ("(" ++ fmt2f (fst pt) ++ ", " ++ fmt2f (snd pt) ++ ")")%string
              "se" (Some "black"%string) None None [].

(** [for i in range(len(points) - 1): ...] *)
Fixpoint graph_segments (fmt2f : Q -> string) (points : list (Q * Q))
  : list CanvasItem :=
  match points with
  | p1 :: ((p2 :: _) as rest) =>
      create_line (offset_x + fst p1 * scale_x)%Q
                  (offset_y - snd p1 * scale_y)%Q
                  (offset_x + fst p2 * scale_x)%Q
                  (offset_y - snd p2 * scale_y)%Q
                  "blue" (Some 2%Z) []
      :: graph_label fmt2f p1
      :: graph_segments fmt2f rest
  | _ => []
  end.

Definition draw_graph (fmt2f : Q -> string) (points : list (Q * Q))
  : outcome (list CanvasItem) :=
  let segments := graph_segments fmt2f points in
  match last points with
  | None => Raised IndexError
  | Some p_last => Returned (segments ++ [graph_label fmt2f p_last])
  end.

(** The script's last four statements, for any two byte tables. *)
Definition plot (fmt2f : Q -> string) (x_curve y_curve : list byte)
  : outcome (list CanvasItem) :=
  let x_points := hex_to_decimal x_curve in
  let y_points := hex_to_decimal y_curve in
  let coordinates := zip x_points y_points in
  draw_graph fmt2f coordinates.

(** Where [draw_graph] puts a point on its canvas. *)
Definition graph_position (pt : Q * Q) : Q * Q :=
  (offset_x + fst pt * scale_x, offset_y - snd pt * scale_y)%Q.

End Mouse.

(* ===================================================================== *)
(** * Data shared by the two editors *)
(* ===================================================================== *)

(** A control point [[x, y]]. *)
Abbreviation point := (Q * Q)%type.

(** The part of a Tk mouse event the handlers read. *)
Record Event : Type := mkEvent {
  ev_x : Q;
  ev_y : Q;
  ev_state : Z
}.

(** [self.drag_data]. *)
Record DragData : Type := mkDragData {
  point_index : option nat;
  offset_x : Q;
  offset_y : Q
}.

(** [l[i] = v]: raises [IndexError] (here [None]) outside the list. *)
Definition set_item {A : Type} (l : list A) (i : nat) (v : A)
  : option (list A) :=
  if (i <? length l)%nat then Some (<[i := v]> l) else None.

(** [new_x, new_y] of [on_drag] after the four clamping steps; [None] when
    a neighbour that is read does not exist. *)
Definition clamp_to_neighbours (X_MIN X_MAX Y_MIN Y_MAX : Q)
    (points : list point) (idx : nat) (new_xy : Q * Q) : option point :=
  let new_x := py_max X_MIN (py_min X_MAX (fst new_xy)) in
  let new_y := py_max Y_MIN (py_min Y_MAX (snd new_xy)) in
  new_x ← (if (0 <? idx)%nat
            then prev ← points !! (idx - 1)%nat;
                 Some (if Qltb new_x (fst prev) then fst prev else new_x)
            else Some new_x);
  new_x ← (if (idx <? length points - 1)%nat
            then next ← points !! (idx + 1)%nat;
                 Some (if Qltb (fst next) new_x then fst next else new_x)
            else Some new_x);
  Some (new_x, new_y).

(* ===================================================================== *)
(** * simulator.py *)
(* ===================================================================== *)

Module Simulator.

Local Open Scope Q_scope.

Definition CANVAS_WIDTH : Q := 500.
Definition CANVAS_HEIGHT : Q := 500.
Definition X_MIN : Q := 0.0.
Definition X_MAX : Q := 1.0.
Definition Y_MIN : Q := 0.0.
Definition Y_MAX : Q := 3.0.
Definition POINT_RADIUS : Q := 6.

Definition WINDOWS_CURVE : list point :=
  [(0.0, 0.0); (0.3, 0.3); (0.6, 1.2); (1.0, 2.5)].

Definition to_canvas_coords (x y : Q) : Q * Q :=
  let canvas_x := (x - X_MIN) / (X_MAX - X_MIN) * CANVAS_WIDTH in
  let canvas_y :=
    CANVAS_HEIGHT - (y - Y_MIN) / (Y_MAX - Y_MIN) * CANVAS_HEIGHT in
  (canvas_x, canvas_y).

Definition to_function_coords (canvas_x canvas_y : Q) : Q * Q :=
  let x := canvas_x / CANVAS_WIDTH * (X_MAX - X_MIN) + X_MIN in
  let y :=
    (CANVAS_HEIGHT - canvas_y) / CANVAS_HEIGHT * (Y_MAX - Y_MIN) + Y_MIN in
  (x, y).

Record CurveEditor : Type := mkCurveEditor {
  use_windows_curve : bool;
  enable_nonlinear_boost : bool;
  enable_acceleration_cap : bool;
  points : list point;
  drag_data : DragData
}.

Definition with_points (self : CurveEditor) (pts : list point)
  : CurveEditor :=
  mkCurveEditor (use_windows_curve self) (enable_nonlinear_boost self)
                (enable_acceleration_cap self) pts (drag_data self).

Definition with_drag_data (self : CurveEditor) (d : DragData)
  : CurveEditor :=
  mkCurveEditor (use_windows_curve self) (enable_nonlinear_boost self)
                (enable_acceleration_cap self) (points self) d.

Definition update_curve_from_options (self : CurveEditor) : CurveEditor :=
  if use_windows_curve self
  then with_points self WINDOWS_CURVE
  else
    let low : point := (0.0, 0.0) in
    let mid : point :=
      if enable_nonlinear_boost self then (0.5, 1.5) else (0.5, 0.5) in
    let high : point :=
      if enable_acceleration_cap self then (1.0, 2.5) else (1.0, 1.0) in
    with_points self [low; mid; high].

Definition near (x y : Q) (pt : point) : bool :=
  let '(cx, cy) := to_canvas_coords (fst pt) (snd pt) in
  Qle_bool ((cx - x) ^ 2 + (cy - y) ^ 2) (POINT_RADIUS ^ 2).

Definition find_nearby_point (self : CurveEditor) (x y : Q) : option nat :=
  first_index_from (near x y) (points self) 0.

(** The handlers, as functions of the editor's state; which of them go
    on to redraw is [redraws] below. *)
Definition on_press (self : CurveEditor) (event : Event)
  : option CurveEditor :=
  match find_nearby_point self (ev_x event) (ev_y event) with
  | Some idx =>
      pt ← points self !! idx;
      let '(cx, cy) := to_canvas_coords (fst pt) (snd pt) in
      Some (with_drag_data self
              (mkDragData (Some idx) (cx - ev_x event) (cy - ev_y event)))
  | None => Some self
  end.

Definition on_drag (self : CurveEditor) (event : Event)
  : option CurveEditor :=
  match point_index (drag_data self) with
  | None => Some self
  | Some idx =>
      let new_cx := ev_x event + offset_x (drag_data self) in
      let new_cy := ev_y event + offset_y (drag_data self) in
      new_pt ← clamp_to_neighbours X_MIN X_MAX Y_MIN Y_MAX (points self)
                 idx (to_function_coords new_cx new_cy);
      pts ← set_item (points self) idx new_pt;
      Some (with_points self pts)
  end.

Definition on_release (self : CurveEditor) (event : Event) : CurveEditor :=
  with_drag_data self
    (mkDragData None (offset_x (drag_data self))
                (offset_y (drag_data self))).

(** The editor state built by [__init__]. *)
Definition init : CurveEditor :=
  update_curve_from_options
    (mkCurveEditor false false false
                   [(0.0, 0.0); (0.5, 0.5); (1.0, 1.0)]
                   (mkDragData None 0 0)).

(** [draw_grid]: the items added to the canvas. *)
Definition draw_grid (canvas : list CanvasItem) : list CanvasItem :=
  canvas
  ++ flat_map
       (fun i : nat =>
          let x := inject_Z (Z.of_nat i) / 10 * CANVAS_WIDTH in
          let y := inject_Z (Z.of_nat i) / 10 * CANVAS_HEIGHT in
          [create_line x 0 x CANVAS_HEIGHT "#ddd" None [];
           create_line 0 y CANVAS_WIDTH y "#ddd" None []])
       (seq 0 11).

(** The canvas part of [draw_curve]; the method then calls
    [update_values_label] and [auto_apply_xinput]. *)
Fixpoint curve_lines (points : list point) : list CanvasItem :=
  match points with
  | p1 :: ((p2 :: _) as rest) =>
      let '(x1, y1) := to_canvas_coords (fst p1) (snd p1) in
      let '(x2, y2) := to_canvas_coords (fst p2) (snd p2) in
      create_line x1 y1 x2 y2 "blue" (Some 2%Z) ["curve"%string]
      :: curve_lines rest
  | _ => []
  end.

Definition curve_oval (idx : nat) (pt : point) : CanvasItem :=
  let '(cx, cy) := to_canvas_coords (fst pt) (snd pt) in
  create_oval (cx - POINT_RADIUS) (cy - POINT_RADIUS)
              (cx + POINT_RADIUS) (cy + POINT_RADIUS)
              "red" "black" None
              ["curve"; "pt" ++ pretty idx]%string.

Definition draw_curve (self : CurveEditor) (canvas : list CanvasItem)
  : list CanvasItem :=
  canvas_delete "curve" canvas
  ++ curve_lines (points self)
  ++ imap curve_oval (points self).

(** [update_values_label]: the names given to the points and the text
    put into the label; [fmt2f] is Python's [format(v, ".2f")]. *)
Definition point_names (points : list point) : list string :=
  if (length points =? 3)%nat
  then ["Low speed (min)"; "Mid speed"; "High speed (max)"]%string
  else if (length points =? 4)%nat
  then ["Low speed (min)"; "Early accel"; "Advanced accel";
        "High speed (max)"]%string
  else List.map (fun i : nat => ("Point " ++ pretty i)%string)
                (seq 0 (length points)).

Definition values_rows (fmt2f : Q -> string) (points : list point)
  : list string :=
  List.map (fun row : string * point =>
              (fst row ++ ": (Input: " ++ fmt2f (fst (snd row))
               ++ ", Output: " ++ fmt2f (snd (snd row)) ++ ")")%string)
           (zip (point_names points) points).

Definition update_values_label (fmt2f : Q -> string) (self : CurveEditor)
  : string :=
  ("Control Points:" ++ newline
   ++ String.concat newline (values_rows fmt2f (points self)))%string.

(** [auto_apply_xinput]: the commands run and the lines printed.
    [platform_system] is the value of [platform.system()], [run] the
    behaviour of the external program, [fmt2f] Python's
    [format(v, ".2f")]. *)
Definition DEVICE_NAME : string := "YOUR_DEVICE_NAME_HERE".

Definition auto_apply_xinput (platform_system : string)
    (run : list (list string) -> list string -> run_result)
    (fmt2f : Q -> string) (self : CurveEditor) : Shell :=
  if negb (String.eqb platform_system "Linux") then mkShell [] [] false
  else
    let y_values := List.map (fun pt : point => fmt2f (snd pt))
                             (points self) in
    match
      run_checked run []
        [["xinput"; "set-prop"; DEVICE_NAME;
          "libinput Accel Custom Motion Points"]%string ++ y_values;
         ["xinput"; "set-prop"; DEVICE_NAME;
          "libinput Accel Custom Motion Points"; "1.0"]%string;
         ["xinput"; "set-prop"; DEVICE_NAME;
          "libinput Accel Profile Enabled"; "0"; "0"; "1"]%string]
    with
    | (cmds, Completed _) => mkShell cmds [] false
    | (cmds, CalledProcessError) =>
        mkShell cmds
          ["Error: Could not apply xinput settings. Check your device name and property support."%string]
          false
    | (cmds, OtherError) => mkShell cmds [] true
    end.

(** The three commands of [auto_apply_xinput], in the order of the
    source. *)
Definition xinput_commands (fmt2f : Q -> string) (self : CurveEditor)
  : list (list string) :=
  [["xinput"; "set-prop"; DEVICE_NAME;
    "libinput Accel Custom Motion Points"]%string
   ++ List.map (fun pt : point => fmt2f (snd pt)) (points self);
   ["xinput"; "set-prop"; DEVICE_NAME;
    "libinput Accel Custom Motion Points"; "1.0"]%string;
   ["xinput"; "set-prop"; DEVICE_NAME;
    "libinput Accel Profile Enabled"; "0"; "0"; "1"]%string].

(** What the user can do: the three check boxes (each runs
    [update_curve_from_options] after flipping its variable) and the
    three mouse bindings of the canvas. *)
Inductive UIEvent : Type :=
  | ToggleWindowsCurve
  | ToggleNonlinearBoost
  | ToggleAccelerationCap
  | ButtonPress1 (event : Event)
  | B1Motion (event : Event)
  | ButtonRelease1 (event : Event).

(** The state a callback leaves behind, [None] when its handler raised
    [IndexError]; what the redraw at the end of a handler runs is in
    [callback] below. *)
Definition dispatch (self : CurveEditor) (u : UIEvent)
  : option CurveEditor :=
  match u with
  | ToggleWindowsCurve =>
      Some (update_curve_from_options
              (mkCurveEditor (negb (use_windows_curve self))
                             (enable_nonlinear_boost self)
                             (enable_acceleration_cap self)
                             (points self) (drag_data self)))
  | ToggleNonlinearBoost =>
      Some (update_curve_from_options
              (mkCurveEditor (use_windows_curve self)
                             (negb (enable_nonlinear_boost self))
                             (enable_acceleration_cap self)
                             (points self) (drag_data self)))
  | ToggleAccelerationCap =>
      Some (update_curve_from_options
              (mkCurveEditor (use_windows_curve self)
                             (enable_nonlinear_boost self)
                             (negb (enable_acceleration_cap self))
                             (points self) (drag_data self)))
  | ButtonPress1 event => on_press self event
  | B1Motion event => on_drag self event
  | ButtonRelease1 event => Some (on_release self event)
  end.

(** The states the editor can be in once [__init__] has completed.
    [dispatch] gives the state a handler leaves behind: [on_drag] raises
    [IndexError] before it assigns, so a failed drag leaves the state as
    it was, and every handler has updated the state by the time it
    redraws, so an exception that escapes the redraw does not undo the
    step. *)
Inductive reachable : CurveEditor -> Prop :=
  | reachable_init : reachable init
  | reachable_step (self self' : CurveEditor) (u : UIEvent) :
      reachable self -> dispatch self u = Some self' -> reachable self'.

(** The handlers as Tk runs them.  [update_curve_from_options] and
    [on_drag] (once it has passed its early [return]) end in
    [self.draw_curve()], whose last statement is
    [self.auto_apply_xinput()]; [on_press] and [on_release] do not
    redraw. *)
Definition redraws (self : CurveEditor) (u : UIEvent) : bool :=
  match u with
  | ToggleWindowsCurve | ToggleNonlinearBoost | ToggleAccelerationCap =>
      true
  | ButtonPress1 _ | ButtonRelease1 _ => false
  | B1Motion _ =>
      match point_index (drag_data self) with
      | None => false
      | Some _ => true
      end
  end.

(** One callback: [None] when the handler raised [IndexError]; otherwise
    the state it left and what the [auto_apply_xinput] of its redraw did
    ([quiet] without a redraw).  When that [Shell] is [escaped], the
    exception leaves the handler. *)
Definition callback (platform_system : string)
    (run : list (list string) -> list string -> run_result)
    (fmt2f : Q -> string) (self : CurveEditor) (u : UIEvent)
  : option (CurveEditor * Shell) :=
  self' ← dispatch self u;
  Some (self',
        if redraws self u
        then auto_apply_xinput platform_system run fmt2f self'
        else quiet).

End Simulator.

(* ===================================================================== *)
(** * simulator2.py *)
(* ===================================================================== *)

(** [s.lower()] on names held as byte strings: the letters A-Z are folded
    to a-z, every other byte (digits, punctuation, the bytes of non-ASCII
    characters) is left as it is. *)
Definition ascii_lower (c : ascii) : ascii :=
  let n := nat_of_ascii c in
  if (65 <=? n)%nat && (n <=? 90)%nat then ascii_of_nat (n + 32) else c.

Fixpoint lower (s : string) : string :=
  match s with
  | EmptyString => EmptyString
  | String c rest => String (ascii_lower c) (lower rest)
  end.

(** [sub in s] for strings. *)
Fixpoint contains (sub s : string) : bool :=
  String.prefix sub s
  || match s with
     | EmptyString => false
     | String _ rest => contains sub rest
     end.

(** [l.sort(key=key)]: a stable sort, here by insertion from the right. *)
Fixpoint insert_by_key {A : Type} (key : A -> nat) (x : A) (l : list A)
  : list A :=
  match l with
  | [] => [x]
  | y :: rest => if (key x <=? key y)%nat then x :: y :: rest
                 else y :: insert_by_key key x rest
  end.

Definition sort_by_key {A : Type} (key : A -> nat) (l : list A) : list A :=
  foldr (insert_by_key key) [] l.

Module Simulator2.

Local Open Scope Q_scope.

Definition CANVAS_WIDTH : Q := 500.
Definition CANVAS_HEIGHT : Q := 500.
Definition MARGIN : Q := 20.
Definition X_MIN : Q := 0.0.
Definition X_MAX : Q := 1.0.
Definition Y_MIN : Q := 0.0.
Definition Y_MAX : Q := 3.0.
Definition POINT_RADIUS : Q := 6.
Definition DELTA_Y : Q := 0.1.

Definition WINDOWS_CURVE : list point :=
  [(0.0, 0.0); (0.3, 0.3); (0.6, 1.2); (1.0, 2.5)].

Definition to_canvas_coords (x y : Q) : Q * Q :=
  let drawable_width := CANVAS_WIDTH - 2 * MARGIN in
  let drawable_height := CANVAS_HEIGHT - 2 * MARGIN in
  let canvas_x := MARGIN + (x - X_MIN) / (X_MAX - X_MIN) * drawable_width in
  let canvas_y :=
    CANVAS_HEIGHT - MARGIN
    - (y - Y_MIN) / (Y_MAX - Y_MIN) * drawable_height in
  (canvas_x, canvas_y).

Definition to_function_coords (canvas_x canvas_y : Q) : Q * Q :=
  let drawable_width := CANVAS_WIDTH - 2 * MARGIN in
  let drawable_height := CANVAS_HEIGHT - 2 * MARGIN in
  let x := (canvas_x - MARGIN) / drawable_width * (X_MAX - X_MIN) + X_MIN in
  let y :=
    (CANVAS_HEIGHT - MARGIN - canvas_y) / drawable_height
    * (Y_MAX - Y_MIN) + Y_MIN in
  (x, y).

Record CurveEditor : Type := mkCurveEditor {
  use_windows_curve : bool;
  enable_nonlinear_boost : bool;
  enable_acceleration_cap : bool;
  human_labels : bool;
  lock_low_speed : bool;
  selected_indices : gset nat;
  points : list point;
  drag_data : DragData
}.

Definition with_points (self : CurveEditor) (pts : list point)
  : CurveEditor :=
  mkCurveEditor (use_windows_curve self) (enable_nonlinear_boost self)
                (enable_acceleration_cap self) (human_labels self)
                (lock_low_speed self) (selected_indices self) pts
                (drag_data self).

Definition with_selected_indices (self : CurveEditor) (sel : gset nat)
  : CurveEditor :=
  mkCurveEditor (use_windows_curve self) (enable_nonlinear_boost self)
                (enable_acceleration_cap self) (human_labels self)
                (lock_low_speed self) sel (points self) (drag_data self).

Definition with_drag_data (self : CurveEditor) (d : DragData)
  : CurveEditor :=
  mkCurveEditor (use_windows_curve self) (enable_nonlinear_boost self)
                (enable_acceleration_cap self) (human_labels self)
                (lock_low_speed self) (selected_indices self)
                (points self) d.

(** [get_pointer_devices], from the lines printed by the listing
    command. *)
Definition device_priority (name : string) : nat :=
  let n := lower name in
  if contains "usb" n then 1
  else if contains "mouse" n then 2
  else if contains "optical" n then 3
  else 100.

Definition is_pointer_name (d : string) : bool :=
  contains "mouse" (lower d) || contains "touchpad" (lower d).

Definition get_pointer_devices (devices : list string) : list string :=
  let pointer_devices := List.filter is_pointer_name devices in
  sort_by_key device_priority pointer_devices.

(** The names of one priority class, in their original order. *)
Definition with_priority (k : nat) (names : list string) : list string :=
  List.filter (fun d => (device_priority d =? k)%nat) names.

Definition update_curve_from_options (self : CurveEditor) : CurveEditor :=
  let self := with_selected_indices self ∅ in
  if use_windows_curve self
  then with_points self WINDOWS_CURVE
  else
    let low : point := (0.0, 0.0) in
    let mid : point :=
      if enable_nonlinear_boost self then (0.5, 1.5) else (0.5, 0.5) in
    let high : point :=
      if enable_acceleration_cap self then (1.0, 2.5) else (1.0, 1.0) in
    with_points self [low; mid; high].

(** [self.points[i][1] = f(self.points[i][1])]. *)
Definition update_output (f : Q -> Q) (pts : list point) (i : nat)
  : option (list point) :=
  pt ← pts !! i;
  Some (<[i := (fst pt, f (snd pt))]> pts).

(** One iteration of the loop shared by the two buttons: index 0 is
    skipped when the lock is on. *)
Definition adjust_step (lock : bool) (f : Q -> Q)
    (acc : option (list point)) (i : nat) : option (list point) :=
  pts ← acc;
  if (i =? 0)%nat && lock then Some pts else update_output f pts i.

(** [for i in self.selected_indices: ...]. *)
Definition adjust_loop (lock : bool) (f : Q -> Q) (sel : list nat)
    (pts : list point) : option (list point) :=
  foldl (adjust_step lock f) (Some pts) sel.

Definition increase_all_points (self : CurveEditor) : option CurveEditor :=
  pts ← adjust_loop (lock_low_speed self)
           (fun y => py_min Y_MAX (y + DELTA_Y))
           (elements (selected_indices self)) (points self);
  Some (with_points self pts).

Definition decrease_all_points (self : CurveEditor) : option CurveEditor :=
  pts ← adjust_loop (lock_low_speed self)
           (fun y => py_max Y_MIN (y - DELTA_Y))
           (elements (selected_indices self)) (points self);
  Some (with_points self pts).

Definition near (x y : Q) (pt : point) : bool :=
  let '(cx, cy) := to_canvas_coords (fst pt) (snd pt) in
  Qle_bool ((cx - x) ^ 2 + (cy - y) ^ 2) (POINT_RADIUS ^ 2).

Definition find_nearby_point (self : CurveEditor) (x y : Q) : option nat :=
  first_index_from (near x y) (points self) 0.

(** The handlers, as functions of the editor's state; which of them go
    on to redraw is [redraws] below. *)
Definition on_press (self : CurveEditor) (event : Event)
  : option CurveEditor :=
  let idx := find_nearby_point self (ev_x event) (ev_y event) in
  let shift_pressed := negb (Z.land (ev_state event) 1 =? 0)%Z in
  if bool_decide (idx = Some 0%nat) && lock_low_speed self then Some self
  else
  match idx with
  | Some idx =>
      let sel :=
        if shift_pressed
        then if decide (idx ∈ selected_indices self)
             then selected_indices self ∖ {[idx]}
             else selected_indices self ∪ {[idx]}
        else {[idx]} in
      pt ← points self !! idx;
      let '(cx, cy) := to_canvas_coords (fst pt) (snd pt) in
      Some (with_drag_data (with_selected_indices self sel)
              (mkDragData (Some idx) (cx - ev_x event) (cy - ev_y event)))
  | None => Some (with_selected_indices self ∅)
  end.

Definition on_drag (self : CurveEditor) (event : Event)
  : option CurveEditor :=
  match point_index (drag_data self) with
  | None => Some self
  | Some idx =>
      if (idx =? 0)%nat && lock_low_speed self then Some self else
      let new_cx := ev_x event + offset_x (drag_data self) in
      let new_cy := ev_y event + offset_y (drag_data self) in
      new_pt ← clamp_to_neighbours X_MIN X_MAX Y_MIN Y_MAX (points self)
                 idx (to_function_coords new_cx new_cy);
      pts ← set_item (points self) idx new_pt;
      Some (with_points self pts)
  end.

Definition on_release (self : CurveEditor) (event : Event) : CurveEditor :=
  with_drag_data self
    (mkDragData None (offset_x (drag_data self))
                (offset_y (drag_data self))).

(** The editor state built by [__init__]. *)
Definition init : CurveEditor :=
  update_curve_from_options
    (mkCurveEditor false false false true true ∅
                   [(0.0, 0.0); (0.5, 0.5); (1.0, 1.0)]
                   (mkDragData None 0 0)).

(** [adjustSelected(delta, selection)] in the specification's words:
    every selected index not excluded by the lock ([adjusted]) has
    [delta] added to its output, clamped to [[Y_MIN, Y_MAX]]. *)
Definition clamp_output (y : Q) : Q := Qmax Y_MIN (Qmin Y_MAX y).

Definition adjusted (lock : bool) (sel : gset nat) (i : nat) : bool :=
  bool_decide (i ∈ sel) && negb ((i =? 0)%nat && lock).

(** [get_pointer_devices] as the method returns: [listing] is [None]
    when the listing command or the decoding of its output raised, which
    the method catches ([except Exception]) and answers with the empty
    list. *)
Definition available_devices (listing : option (list string))
  : list string :=
  match listing with
  | Some devices => get_pointer_devices devices
  | None => []
  end.

(** The value [__init__] gives [device_name_var], from the lines of the
    device listing. *)
Definition initial_device_name (devices : list string) : string :=
  match get_pointer_devices devices with
  | d :: _ => d
  | [] => "No pointer device found"
  end.

(** [tk.OptionMenu(options_frame, self.device_name_var,
    *available_devices)]: the entries of the menu.  The constructor's
    signature is [(master, variable, value, *values)], so the call
    raises [TypeError] when the list is empty. *)
Definition device_menu (available_devices : list string)
  : outcome (list string) :=
  match available_devices with
  | [] => Raised TypeError
  | value :: values => Returned (value :: values)
  end.

(** [draw_grid]: the canvas after the call. *)
Definition draw_grid (self : CurveEditor) (canvas : list CanvasItem)
  : list CanvasItem :=
  let drawable_width := CANVAS_WIDTH - 2 * MARGIN in
  let drawable_height := CANVAS_HEIGHT - 2 * MARGIN in
  let x_label : string :=
    if human_labels self then "Input effort" else "Input Speed" in
  canvas_delete "grid" canvas
  ++ List.map
       (fun i : nat =>
          let x := MARGIN + inject_Z (Z.of_nat i) / 10 * drawable_width in
          create_line x MARGIN x (CANVAS_HEIGHT - MARGIN) "#ddd" None
                      ["grid"%string])
       (seq 0 11)
  ++ List.map
       (fun i : nat =>
          let y := MARGIN + inject_Z (Z.of_nat i) / 10 * drawable_height in
          create_line MARGIN y (CANVAS_WIDTH - MARGIN) y "#ddd" None
                      ["grid"%string])
       (seq 0 11)
  ++ [create_text (CANVAS_WIDTH / 2) (CANVAS_HEIGHT - MARGIN + 5)
                  x_label "n" None (Some ("Arial"%string, 12%Z)) None
                  ["grid"%string];
      create_text (MARGIN - 5) (CANVAS_HEIGHT / 2)
                  "Output Speed" "e" None (Some ("Arial"%string, 12%Z))
                  (Some 90%Z) ["grid"%string]].

(** The canvas part of [draw_curve]; the method then calls
    [update_values_label] and [auto_apply_xinput]. *)
Fixpoint curve_lines (points : list point) : list CanvasItem :=
  match points with
  | p1 :: ((p2 :: _) as rest) =>
      let '(x1, y1) := to_canvas_coords (fst p1) (snd p1) in
      let '(x2, y2) := to_canvas_coords (fst p2) (snd p2) in
      create_line x1 y1 x2 y2 "blue" (Some 2%Z) ["curve"%string]
      :: curve_lines rest
  | _ => []
  end.

Definition curve_oval (selected : gset nat) (idx : nat) (pt : point)
  : CanvasItem :=
  let '(cx, cy) := to_canvas_coords (fst pt) (snd pt) in
  let '(outline_color, outline_width) :=
    if decide (idx ∈ selected) then ("green"%string, 3%Z)
    else ("black"%string, 1%Z) in
  create_oval (cx - POINT_RADIUS) (cy - POINT_RADIUS)
              (cx + POINT_RADIUS) (cy + POINT_RADIUS)
              "red" outline_color (Some outline_width)
              ["curve"; "pt" ++ pretty idx]%string.

Definition draw_curve (self : CurveEditor) (canvas : list CanvasItem)
  : list CanvasItem :=
  canvas_delete "curve" canvas
  ++ curve_lines (points self)
  ++ imap (curve_oval (selected_indices self)) (points self).

(** [update_values_label]: the names given to the points and the text
    put into the label; [fmt2f] is Python's [format(v, ".2f")]. *)
Definition point_names (points : list point) : list string :=
  if (length points =? 3)%nat
  then ["Low speed (min)"; "Mid speed"; "High speed (max)"]%string
  else if (length points =? 4)%nat
  then ["Low speed (min)"; "Early accel"; "Advanced accel";
        "High speed (max)"]%string
  else List.map (fun i : nat => ("Point " ++ pretty i)%string)
                (seq 0 (length points)).

Definition values_rows (fmt2f : Q -> string) (points : list point)
  : list string :=
  List.map (fun row : string * point =>
              (fst row ++ ": (Input: " ++ fmt2f (fst (snd row))
               ++ ", Output: " ++ fmt2f (snd (snd row)) ++ ")")%string)
           (zip (point_names points) points).

Definition update_values_label (fmt2f : Q -> string) (self : CurveEditor)
  : string :=
  ("Control Points:" ++ newline
   ++ String.concat newline (values_rows fmt2f (points self)))%string.

(** What [draw_curve] computes for one point: its position on the
    canvas, the corners given to [create_oval], and the outline colour
    and width chosen for index [i]. *)
Definition rendered (pt : point) : Q * Q :=
  to_canvas_coords (fst pt) (snd pt).

Definition oval_box (pt : point) : (Q * Q) * (Q * Q) :=
  ((fst (rendered pt) - POINT_RADIUS, snd (rendered pt) - POINT_RADIUS),
   (fst (rendered pt) + POINT_RADIUS, snd (rendered pt) + POINT_RADIUS)).

Definition oval_outline (sel : gset nat) (i : nat) : string * option Z :=
  if decide (i ∈ sel) then ("green"%string, Some 3%Z)
  else ("black"%string, Some 1%Z).

(** [auto_apply_xinput]: the commands run and the lines printed.
    [platform_system] is the value of [platform.system()], [run] the
    behaviour of the external program, [fmt2f] Python's
    [format(v, ".2f")], [str_e] the text of a [CalledProcessError] for
    the command that failed, [device_name] the menu's current value. *)
Definition auto_apply_xinput (platform_system : string)
    (run : list (list string) -> list string -> run_result)
    (fmt2f : Q -> string) (str_e : list string -> string)
    (device_name : string) (self : CurveEditor) : Shell :=
  if negb (String.eqb platform_system "Linux") then mkShell [] [] false
  else
    let y_values := List.map (fun pt : point => fmt2f (snd pt))
                             (points self) in
    let list_props := ["xinput"; "list-props"; device_name]%string in
    let could_not_apply (cmds : list (list string)) : string :=
      ("Error: Could not apply xinput settings. "
       ++ str_e (List.last cmds []))%string in
    match run [] list_props with
    | Completed props =>
        if negb (contains "libinput Accel Custom Motion Points" props)
           || negb (contains "libinput Accel Profile Enabled" props)
        then mkShell [list_props]
               ["Error: The required properties are not supported by the device."%string]
               false
        else
          match
            run_checked run [list_props]
              [["xinput"; "set-prop"; device_name;
                "libinput Accel Custom Motion Points"]%string ++ y_values;
               ["xinput"; "set-prop"; device_name;
                "libinput Accel Custom Motion Step"; "1.0"]%string;
               ["xinput"; "set-prop"; device_name;
                "libinput Accel Profile Enabled"; "0"; "0"; "1"]%string]
          with
          | (cmds, Completed _) => mkShell cmds [] false
          | (cmds, CalledProcessError) =>
              mkShell cmds [could_not_apply cmds] false
          | (cmds, OtherError) => mkShell cmds [] true
          end
    | CalledProcessError =>
        mkShell [list_props] [could_not_apply [list_props]] false
    | OtherError => mkShell [list_props] [] true
    end.

(** The query and the three commands of [auto_apply_xinput], in the
    order of the source. *)
Definition xinput_commands (fmt2f : Q -> string) (device_name : string)
    (self : CurveEditor) : list (list string) :=
  [["xinput"; "list-props"; device_name]%string;
   ["xinput"; "set-prop"; device_name;
    "libinput Accel Custom Motion Points"]%string
   ++ List.map (fun pt : point => fmt2f (snd pt)) (points self);
   ["xinput"; "set-prop"; device_name;
    "libinput Accel Custom Motion Step"; "1.0"]%string;
   ["xinput"; "set-prop"; device_name;
    "libinput Accel Profile Enabled"; "0"; "0"; "1"]%string].

(** What the user can do: the five check boxes (the first three run
    [update_curve_from_options] after flipping their variable, the fourth
    runs [draw_grid], the fifth runs nothing), the two buttons and the
    three mouse bindings of the canvas. *)
Inductive UIEvent : Type :=
  | ToggleWindowsCurve
  | ToggleNonlinearBoost
  | ToggleAccelerationCap
  | ToggleHumanLabels
  | ToggleLockLowSpeed
  | ClickIncreaseAll
  | ClickDecreaseAll
  | ButtonPress1 (event : Event)
  | B1Motion (event : Event)
  | ButtonRelease1 (event : Event).

(** The state a callback leaves behind, [None] when its handler raised
    [IndexError]; what the redraw at the end of a handler runs is in
    [callback] below. *)
Definition dispatch (self : CurveEditor) (u : UIEvent)
  : option CurveEditor :=
  match u with
  | ToggleWindowsCurve =>
      Some (update_curve_from_options
              (mkCurveEditor (negb (use_windows_curve self))
                             (enable_nonlinear_boost self)
                             (enable_acceleration_cap self)
                             (human_labels self) (lock_low_speed self)
                             (selected_indices self) (points self)
                             (drag_data self)))
  | ToggleNonlinearBoost =>
      Some (update_curve_from_options
              (mkCurveEditor (use_windows_curve self)
                             (negb (enable_nonlinear_boost self))
                             (enable_acceleration_cap self)
                             (human_labels self) (lock_low_speed self)
                             (selected_indices self) (points self)
                             (drag_data self)))
  | ToggleAccelerationCap =>
      Some (update_curve_from_options
              (mkCurveEditor (use_windows_curve self)
                             (enable_nonlinear_boost self)
                             (negb (enable_acceleration_cap self))
                             (human_labels self) (lock_low_speed self)
                             (selected_indices self) (points self)
                             (drag_data self)))
  | ToggleHumanLabels =>
      Some (mkCurveEditor (use_windows_curve self)
                          (enable_nonlinear_boost self)
                          (enable_acceleration_cap self)
                          (negb (human_labels self)) (lock_low_speed self)
                          (selected_indices self) (points self)
                          (drag_data self))
  | ToggleLockLowSpeed =>
      Some (mkCurveEditor (use_windows_curve self)
                          (enable_nonlinear_boost self)
                          (enable_acceleration_cap self)
                          (human_labels self) (negb (lock_low_speed self))
                          (selected_indices self) (points self)
                          (drag_data self))
  | ClickIncreaseAll => increase_all_points self
  | ClickDecreaseAll => decrease_all_points self
  | ButtonPress1 event => on_press self event
  | B1Motion event => on_drag self event
  | ButtonRelease1 event => Some (on_release self event)
  end.

(** The states the editor can be in once [__init__] has completed.
    [dispatch] gives the state a handler leaves behind: [on_drag] raises
    [IndexError] before it assigns, so a failed drag leaves the state as
    it was (the loops of the two buttons never raise in a state reached
    this way, as proved below), and every handler has updated the state
    by the time it redraws, so an exception that escapes the redraw
    does not undo the step. *)
Inductive reachable : CurveEditor -> Prop :=
  | reachable_init : reachable init
  | reachable_step (self self' : CurveEditor) (u : UIEvent) :
      reachable self -> dispatch self u = Some self' -> reachable self'.

(** The handlers as Tk runs them.  [update_curve_from_options], the two
    buttons, [on_press] and [on_drag] end in [self.draw_curve()], whose
    last statement is [self.auto_apply_xinput()]; [on_press] and
    [on_drag] return before it at the locked point 0, and [on_drag] also
    when no drag is in progress.  The other handlers do not redraw the
    curve. *)
Definition redraws (self : CurveEditor) (u : UIEvent) : bool :=
  match u with
  | ToggleWindowsCurve | ToggleNonlinearBoost | ToggleAccelerationCap
  | ClickIncreaseAll | ClickDecreaseAll => true
  | ToggleHumanLabels | ToggleLockLowSpeed | ButtonRelease1 _ => false
  | ButtonPress1 event =>
      negb (bool_decide (find_nearby_point self (ev_x event) (ev_y event)
                         = Some 0%nat)
            && lock_low_speed self)
  | B1Motion _ =>
      match point_index (drag_data self) with
      | None => false
      | Some idx => negb ((idx =? 0)%nat && lock_low_speed self)
      end
  end.

(** One callback: [None] when the handler raised [IndexError]; otherwise
    the state it left and what the [auto_apply_xinput] of its redraw did
    ([quiet] without a redraw).  When that [Shell] is [escaped], the
    exception leaves the handler. *)
Definition callback (platform_system : string)
    (run : list (list string) -> list string -> run_result)
    (fmt2f : Q -> string) (str_e : list string -> string)
    (device_name : string) (self : CurveEditor) (u : UIEvent)
  : option (CurveEditor * Shell) :=
  self' ← dispatch self u;
  Some (self',
        if redraws self u
        then auto_apply_xinput platform_system run fmt2f str_e
               device_name self'
        else quiet).

End Simulator2.

(* ===================================================================== *)
(** * The curve invariant of the specification *)
(* ===================================================================== *)

(** Both editors declare [[X_MIN, X_MAX] = [0, 1]] and
    [[Y_MIN, Y_MAX] = [0, 3]]. *)
Definition in_bounds (pt : point) : Prop :=
  ((0 <= fst pt /\ fst pt <= 1) /\ (0 <= snd pt /\ snd pt <= 3))%Q.

(** Inputs are non-decreasing across every adjacent pair. *)
Definition inputs_non_decreasing (pts : list point) : Prop :=
  forall (i : nat) (p q : point),
    pts !! i = Some p -> pts !! S i = Some q -> (fst p <= fst q)%Q.

Definition curve_ok (pts : list point) : Prop :=
  Forall in_bounds pts /\ inputs_non_decreasing pts.

(** Two points with equal coordinates. *)
Definition point_eq (p q : point) : Prop :=
  (fst p == fst q /\ snd p == snd q)%Q.

(** The index stored in [drag_data], when there is one, is an index of the
    point list (it was returned by [find_nearby_point]). *)
Definition drag_index_valid (d : DragData) (pts : list point) : Prop :=
  forall idx, point_index d = Some idx -> (idx < length pts)%nat.

(** Every selected index is an index of the point list. *)
Definition selection_valid (sel : gset nat) (pts : list point) : Prop :=
  forall i, i ∈ sel -> (i < length pts)%nat.

(** The interval a dragged point's input is confined to: from the input of
    the point before it (0 for the first point) to the input of the point
    after it (1 for the last point). *)
Definition lower_neighbour (pts : list point) (idx : nat) : Q :=
  if (0 <? idx)%nat then from_option fst 0%Q (pts !! (idx - 1)%nat) else 0%Q.

Definition upper_neighbour (pts : list point) (idx : nat) : Q :=
  from_option fst 1%Q (pts !! (idx + 1)%nat).




(** "The name contains [w], case-insensitively": [w] is a contiguous part
    of the lower-cased name. *)
Definition name_contains (w d : string) : Prop :=
  exists pre post : string, lower d = (pre ++ w ++ post)%string.

(** What holds of every state the editors reach: the curve is well formed,
    it has four points under the Windows-like preset and three otherwise,
    and (in [simulator2.py]) every selected index is an index of the
    curve. *)
Definition well_formed_1 (self : Simulator.CurveEditor) : Prop :=
  curve_ok (Simulator.points self)
  /\ length (Simulator.points self)
     = (if Simulator.use_windows_curve self then 4 else 3)%nat.

Definition well_formed_2 (self : Simulator2.CurveEditor) : Prop :=
  curve_ok (Simulator2.points self)
  /\ selection_valid (Simulator2.selected_indices self)
                     (Simulator2.points self)
  /\ length (Simulator2.points self)
     = (if Simulator2.use_windows_curve self then 4 else 3)%nat.

(* ===================================================================== *)
(** * The editors' arithmetic in binary64 *)
(* ===================================================================== *)

(** Python's [float] is IEEE 754 binary64 with round-to-nearest-even, which
    is what Rocq's primitive [float] computes with.  The functions below are
    the source's once more, on that type, for the results whose last bits
    matter.  The coordinates of a Tk event are integers; Python converts
    them exactly when they meet a float.  [v ** 2] is written [v * v]. *)
Module Binary64.

Local Open Scope float_scope.

Abbreviation point := (float * float)%type.

Record Event : Type := mkEvent {
  ev_x : float;
  ev_y : float;
  ev_state : Z
}.

Record DragData : Type := mkDragData {
  point_index : option nat;
  offset_x : float;
  offset_y : float
}.

Definition py_min (a b : float) : float := if b <? a then b else a.
Definition py_max (a b : float) : float := if a <? b then b else a.

(** The float of the integer [n], as Python converts a pixel coordinate
    (exact far beyond the size of the canvas). *)
Fixpoint pixel (n : nat) : float :=
  match n with
  | O => 0
  | S k => pixel k + 1
  end.

Module Simulator.

Definition CANVAS_WIDTH : float := 500.
Definition CANVAS_HEIGHT : float := 500.
Definition X_MIN : float := 0.0.
Definition X_MAX : float := 1.0.
Definition Y_MIN : float := 0.0.
Definition Y_MAX : float := 3.0.

Definition to_canvas_coords (x y : float) : float * float :=
  let canvas_x := (x - X_MIN) / (X_MAX - X_MIN) * CANVAS_WIDTH in
  let canvas_y :=
    CANVAS_HEIGHT - (y - Y_MIN) / (Y_MAX - Y_MIN) * CANVAS_HEIGHT in
  (canvas_x, canvas_y).

Definition to_function_coords (canvas_x canvas_y : float)
  : float * float :=
  let x := canvas_x / CANVAS_WIDTH * (X_MAX - X_MIN) + X_MIN in
  let y :=
    (CANVAS_HEIGHT - canvas_y) / CANVAS_HEIGHT * (Y_MAX - Y_MIN)
    + Y_MIN in
  (x, y).

(** [to_canvas_coords] of what [to_function_coords] returns. *)
Definition canvas_round_trip (canvas_x canvas_y : float)
  : float * float :=
  let '(x, y) := to_function_coords canvas_x canvas_y in
  to_canvas_coords x y.

End Simulator.

Module Simulator2.

Definition CANVAS_WIDTH : float := 500.
Definition CANVAS_HEIGHT : float := 500.
Definition MARGIN : float := 20.
Definition X_MIN : float := 0.0.
Definition X_MAX : float := 1.0.
Definition Y_MIN : float := 0.0.
Definition Y_MAX : float := 3.0.
Definition POINT_RADIUS : float := 6.

Definition to_canvas_coords (x y : float) : float * float :=
  let drawable_width := CANVAS_WIDTH - 2 * MARGIN in
  let drawable_height := CANVAS_HEIGHT - 2 * MARGIN in
  let canvas_x :=
    MARGIN + (x - X_MIN) / (X_MAX - X_MIN) * drawable_width in
  let canvas_y :=
    CANVAS_HEIGHT - MARGIN
    - (y - Y_MIN) / (Y_MAX - Y_MIN) * drawable_height in
  (canvas_x, canvas_y).

Definition to_function_coords (canvas_x canvas_y : float)
  : float * float :=
  let drawable_width := CANVAS_WIDTH - 2 * MARGIN in
  let drawable_height := CANVAS_HEIGHT - 2 * MARGIN in
  let x :=
    (canvas_x - MARGIN) / drawable_width * (X_MAX - X_MIN) + X_MIN in
  let y :=
    (CANVAS_HEIGHT - MARGIN - canvas_y) / drawable_height
    * (Y_MAX - Y_MIN) + Y_MIN in
  (x, y).

(** [to_canvas_coords] of what [to_function_coords] returns. *)
Definition canvas_round_trip (canvas_x canvas_y : float)
  : float * float :=
  let '(x, y) := to_function_coords canvas_x canvas_y in
  to_canvas_coords x y.

(** The part of the editor that [on_press] and [on_drag] read or
    write. *)
Record CurveEditor : Type := mkCurveEditor {
  lock_low_speed : bool;
  selected_indices : gset nat;
  points : list point;
  drag_data : DragData
}.

Definition near (x y : float) (pt : point) : bool :=
  let '(cx, cy) := to_canvas_coords (fst pt) (snd pt) in
  (cx - x) * (cx - x) + (cy - y) * (cy - y)
  <=? POINT_RADIUS * POINT_RADIUS.

Definition find_nearby_point (self : CurveEditor) (x y : float)
  : option nat :=
  first_index_from (near x y) (points self) 0.

Definition on_press (self : CurveEditor) (event : Event)
  : option CurveEditor :=
  let idx := find_nearby_point self (ev_x event) (ev_y event) in
  let shift_pressed := negb (Z.land (ev_state event) 1 =? 0)%Z in
  if bool_decide (idx = Some 0%nat) && lock_low_speed self
  then Some self
  else
  match idx with
  | Some idx =>
      let sel :=
        if shift_pressed
        then if decide (idx ∈ selected_indices self)
             then selected_indices self ∖ {[idx]}
             else selected_indices self ∪ {[idx]}
        else {[idx]} in
      pt ← points self !! idx;
      let '(cx, cy) := to_canvas_coords (fst pt) (snd pt) in
      Some (mkCurveEditor (lock_low_speed self) sel (points self)
              (mkDragData (Some idx) (cx - ev_x event)
                          (cy - ev_y event)))
  | None =>
      Some (mkCurveEditor (lock_low_speed self) ∅ (points self)
              (drag_data self))
  end.

Definition on_drag (self : CurveEditor) (event : Event)
  : option CurveEditor :=
  match point_index (drag_data self) with
  | None => Some self
  | Some idx =>
      if (idx =? 0)%nat && lock_low_speed self then Some self else
      let new_cx := ev_x event + offset_x (drag_data self) in
      let new_cy := ev_y event + offset_y (drag_data self) in
      let '(new_x, new_y) := to_function_coords new_cx new_cy in
      let new_x := py_max X_MIN (py_min X_MAX new_x) in
      let new_y := py_max Y_MIN (py_min Y_MAX new_y) in
      new_x ← (if (0 <? idx)%nat
                then prev ← points self !! (idx - 1)%nat;
                     Some (if new_x <? fst prev then fst prev
                           else new_x)
                else Some new_x);
      new_x ← (if (idx <? length (points self) - 1)%nat
                then next ← points self !! (idx + 1)%nat;
                     Some (if fst next <? new_x then fst next
                           else new_x)
                else Some new_x);
      pts ← set_item (points self) idx (new_x, new_y);
      Some (mkCurveEditor (lock_low_speed self) (selected_indices self)
              pts (drag_data self))
  end.

(** The state [__init__] leaves: the lock is on, nothing is selected,
    no drag is in progress, and with the three curve check boxes off
    [update_curve_from_options] has built the 3-point curve. *)
Definition init : CurveEditor :=
  mkCurveEditor true ∅ [(0.0, 0.0); (0.5, 0.5); (1.0, 1.0)]
                (mkDragData None 0 0).

End Simulator2.

(** How far the round trip moves pixel [n] of either axis, in both
    editors: not at all along x in [simulator.py], and by at most 2^-44
    otherwise. *)
Definition pixel_kept (n : nat) : bool :=
  let c := pixel n in
  (fst (Simulator.canvas_round_trip c 0) =? c)
  && (abs (snd (Simulator.canvas_round_trip 0 c) - c) <=? 0x1p-44)
  && (abs (fst (Simulator2.canvas_round_trip c 0) - c) <=? 0x1p-44)
  && (abs (snd (Simulator2.canvas_round_trip 0 c) - c) <=? 0x1p-44).

End Binary64.

(* ===================================================================== *)
(** * Properties of the decoder *)
(* ===================================================================== *)

Section Decoder.

Import Mouse.

Lemma range0_whole (n : nat) :
  range0 (8 * n) 8 = List.map (fun k => (k * 8)%nat) (seq 0 n).
Proof.
  unfold range0. f_equal. f_equal.
  replace (8 * n + 8 - 1)%nat with (7 + n * 8)%nat by lia.
  rewrite Nat.div_add by lia. reflexivity.
Qed.

Lemma hex_to_decimal_length (T : list byte) (n : nat) :
  length T = (8 * n)%nat -> length (hex_to_decimal T) = n.
Proof.
  intros HT. unfold hex_to_decimal.
  rewrite HT, range0_whole, !length_map, length_seq. reflexivity.
Qed.

Lemma hex_to_decimal_lookup (T : list byte) (n i : nat) :
  length T = (8 * n)%nat -> (i < n)%nat ->
  hex_to_decimal T !! i
  = Some (decode_chunk (slice T (i * 8) (i * 8 + 8))).
Proof.
  intros HT Hi. unfold hex_to_decimal.
  rewrite HT, range0_whole, !list_lookup_fmap.
  rewrite lookup_seq_lt by assumption. reflexivity.
Qed.

(** A whole record is a slice of exactly eight bytes. *)
Lemma slice_record (T : list byte) (n i : nat) :
  length T = (8 * n)%nat -> (i < n)%nat ->
  exists b0 b1 b2 b3 b4 b5 b6 b7,
    slice T (i * 8) (i * 8 + 8) = [b0; b1; b2; b3; b4; b5; b6; b7]
    /\ T !! (8 * i)%nat = Some b0 /\ T !! (8 * i + 1)%nat = Some b1
    /\ T !! (8 * i + 2)%nat = Some b2 /\ T !! (8 * i + 3)%nat = Some b3.
Proof.
  intros HT Hi. unfold slice.
  replace (i * 8 + 8 - i * 8)%nat with 8%nat by lia.
  assert (Hlen : (8 <= length (drop (i * 8) T))%nat)
    by (rewrite length_drop; lia).
  assert (Hk : forall k, drop (i * 8) T !! k = T !! (8 * i + k)%nat).
  { intros k. rewrite lookup_drop. f_equal. lia. }
  destruct (drop (i * 8) T) as [|b0 [|b1 [|b2 [|b3 [|b4 [|b5 [|b6 [|b7 r]]]]]]]];
    simpl in Hlen; try lia.
  exists b0, b1, b2, b3, b4, b5, b6, b7.
  pose proof (Hk 0%nat) as K0. rewrite Nat.add_0_r in K0.
  rewrite <- K0, <- (Hk 1%nat), <- (Hk 2%nat), <- (Hk 3%nat).
  repeat split; reflexivity.
Qed.

Lemma byte_val_range (b : byte) : (0 <= byte_val b < 256)%Z.
Proof.
  unfold byte_val. pose proof (Byte.to_N_bounded b) as H. lia.
Qed.

(** On two bytes the general conversion is the 16-bit reading. *)
Lemma from_bytes_little_uint16 (b0 b1 : byte) :
  from_bytes_little [b0; b1] false = uint16_le b0 b1.
Proof.
  unfold from_bytes_little, uint16_le. simpl. lia.
Qed.

Lemma from_bytes_little_int16 (b0 b1 : byte) :
  from_bytes_little [b0; b1] true = int16_le b0 b1.
Proof.
  unfold from_bytes_little, int16_le, uint16_le.
  cbn [from_bytes_little_unsigned length Nat.eqb negb andb].
  change (8 * Z.of_nat 2)%Z with 16%Z.
  change (2 ^ (16 - 1))%Z with 32768%Z. change (2 ^ 16)%Z with 65536%Z.
  replace (byte_val b0 + 256 * (byte_val b1 + 256 * 0))%Z
    with (byte_val b0 + 256 * byte_val b1)%Z by lia.
  destruct (Z.leb_spec 32768 (byte_val b0 + 256 * byte_val b1));
    destruct (Z.ltb_spec (byte_val b0 + 256 * byte_val b1) 32768);
    try lia; reflexivity.
Qed.

Lemma decode_chunk_record (b0 b1 b2 b3 b4 b5 b6 b7 : byte) :
  decode_chunk [b0; b1; b2; b3; b4; b5; b6; b7] = record_value b0 b1 b2 b3.
Proof.
  unfold decode_chunk, record_value, slice.
  cbn [firstn skipn Nat.sub drop take].
  rewrite from_bytes_little_uint16, from_bytes_little_int16. reflexivity.
Qed.

Lemma hex_to_decimal_record (T : list byte) (n i : nat) :
  length T = (8 * n)%nat -> (i < n)%nat ->
  exists b0 b1 b2 b3,
    T !! (8 * i)%nat = Some b0 /\ T !! (8 * i + 1)%nat = Some b1
    /\ T !! (8 * i + 2)%nat = Some b2 /\ T !! (8 * i + 3)%nat = Some b3
    /\ hex_to_decimal T !! i = Some (record_value b0 b1 b2 b3).
Proof.
  intros HT Hi.
  destruct (slice_record T n i HT Hi)
    as (b0 & b1 & b2 & b3 & b4 & b5 & b6 & b7 & Hs & H0 & H1 & H2 & H3).
  exists b0, b1, b2, b3. repeat (split; [assumption|]).
  rewrite (hex_to_decimal_lookup T n i HT Hi), Hs.
  f_equal. apply decode_chunk_record.
Qed.

(** C1.  A table of [8 * n] bytes decodes to [n] values in record order;
    value [i] is the signed 16-bit little-endian integer in bytes
    [8i+2, 8i+3] plus the unsigned 16-bit little-endian number in bytes
    [8i, 8i+1] divided by 65536; it is the same for any other whole table
    that agrees on bytes [8i .. 8i+3]; and the two known records decode
    to 0x6e15/65536 and to 1.25. *)
Theorem hex_to_decimal_whole_records (T : list byte) (n : nat) :
  length T = (8 * n)%nat ->
  length (hex_to_decimal T) = n
  /\ (forall i, (i < n)%nat ->
        exists b0 b1 b2 b3,
          T !! (8 * i)%nat = Some b0 /\ T !! (8 * i + 1)%nat = Some b1
          /\ T !! (8 * i + 2)%nat = Some b2
          /\ T !! (8 * i + 3)%nat = Some b3
          /\ hex_to_decimal T !! i
             = Some (inject_Z (int16_le b2 b3)
                     + inject_Z (uint16_le b0 b1) / 65536)%Q)
  /\ (forall (T' : list byte) (m i : nat),
        length T' = (8 * m)%nat -> (i < n)%nat -> (i < m)%nat ->
        (forall k, (k < 4)%nat ->
           T' !! (8 * i + k)%nat = T !! (8 * i + k)%nat) ->
        hex_to_decimal T' !! i = hex_to_decimal T !! i)
  /\ (exists v, hex_to_decimal [x15; x6e; x00; x00; x00; x00; x00; x00] = [v]
                /\ (v == 0x6e15 # 65536)%Q)
  /\ (exists v, hex_to_decimal [x00; x40; x01; x00; x00; x00; x00; x00] = [v]
                /\ (v == 1.25)%Q).
Proof.
  intros HT. split; [|split; [|split; [|split]]].
  - apply hex_to_decimal_length, HT.
  - intros i Hi. apply (hex_to_decimal_record T n i HT Hi).
  - intros T' m i HT' Hi Him Hagree.
    destruct (hex_to_decimal_record T n i HT Hi)
      as (b0 & b1 & b2 & b3 & H0 & H1 & H2 & H3 & Hv).
    destruct (hex_to_decimal_record T' m i HT' Him)
      as (c0 & c1 & c2 & c3 & G0 & G1 & G2 & G3 & Hv').
    pose proof (Hagree 0%nat ltac:(lia)) as A0. rewrite Nat.add_0_r in A0.
    pose proof (Hagree 1%nat ltac:(lia)) as A1.
    pose proof (Hagree 2%nat ltac:(lia)) as A2.
    pose proof (Hagree 3%nat ltac:(lia)) as A3.
    rewrite Hv, Hv'. congruence.
  - eexists. split; reflexivity.
  - eexists. split; reflexivity.
Qed.

Lemma hex_to_decimal_whole_records_witness :
  length smooth_mouse_x_curve = (8 * 5)%nat
  /\ length (hex_to_decimal smooth_mouse_x_curve) = 5%nat.
Proof.
  split; [reflexivity|].
  apply (hex_to_decimal_whole_records smooth_mouse_x_curve 5).
  reflexivity.
Defined.

Lemma range0_partial (q r : nat) :
  (0 < r < 8)%nat ->
  range0 (8 * q + r) 8
  = List.map (fun k => (k * 8)%nat) (seq 0 q) ++ [(q * 8)%nat].
Proof.
  intros Hr. unfold range0.
  replace ((8 * q + r + 8 - 1) / 8)%nat with (q + 1)%nat.
  - rewrite seq_app, map_app. reflexivity.
  - apply (Nat.div_unique _ 8 (q + 1) (r - 1)); lia.
Qed.

Lemma slice_take_whole (T : list byte) (q i : nat) :
  (i < q)%nat ->
  slice (take (8 * q) T) (i * 8) (i * 8 + 8) = slice T (i * 8) (i * 8 + 8).
Proof.
  intros Hi. unfold slice.
  replace (i * 8 + 8 - i * 8)%nat with 8%nat by lia.
  rewrite skipn_firstn_comm, firstn_firstn.
  f_equal. lia.
Qed.

(** What the decoder does on a table with a trailing partial record. *)
Lemma hex_to_decimal_partial (T : list byte) :
  (length T mod 8 <> 0)%nat ->
  hex_to_decimal T
  = hex_to_decimal (take (8 * (length T / 8)) T)
    ++ [decode_chunk (drop (8 * (length T / 8)) T)].
Proof.
  intros Hr.
  set (q := (length T / 8)%nat).
  assert (Hlen : length T = (8 * q + length T mod 8)%nat)
    by (apply Nat.div_mod_eq).
  assert (Hlt : (length T mod 8 < 8)%nat) by (apply Nat.mod_upper_bound; lia).
  unfold hex_to_decimal at 1.
  rewrite Hlen at 1.
  rewrite range0_partial by lia.
  rewrite map_app. f_equal.
  - unfold hex_to_decimal.
    rewrite length_take, Nat.min_l by lia.
    rewrite range0_whole, !List.map_map.
    apply map_ext_in. intros i Hi. apply in_seq in Hi.
    rewrite slice_take_whole by lia. reflexivity.
  - simpl. f_equal. f_equal. unfold slice.
    replace (q * 8 + 8 - q * 8)%nat with 8%nat by lia.
    replace (q * 8)%nat with (8 * q)%nat by lia.
    apply firstn_all2. rewrite length_drop. lia.
Qed.

(** C3, as the code behaves.  A table whose length is not a multiple of 8
    is decoded without any error: the call returns [len / 8 + 1] values,
    the decodings of the whole records followed by one value read from
    the trailing partial record. *)
Theorem hex_to_decimal_partial_record_returns (T : list byte) :
  (length T mod 8 <> 0)%nat ->
  call_hex_to_decimal T = Returned (hex_to_decimal T)
  /\ length (hex_to_decimal T) = (length T / 8 + 1)%nat
  /\ hex_to_decimal T
     = hex_to_decimal (take (8 * (length T / 8)) T)
       ++ [decode_chunk (drop (8 * (length T / 8)) T)].
Proof.
  intros Hr. split; [reflexivity|].
  pose proof (hex_to_decimal_partial T Hr) as Hp.
  split; [|exact Hp].
  rewrite Hp, length_app. cbn [length]. f_equal.
  apply hex_to_decimal_length.
  rewrite length_take. apply Nat.min_l.
  apply Nat.Div0.mul_div_le.
Qed.

Lemma hex_to_decimal_partial_record_returns_witness :
  (length [x00; x40; x01] mod 8 <> 0)%nat
  /\ length (hex_to_decimal [x00; x40; x01]) = 1%nat.
Proof.
  assert (H : (length [x00; x40; x01] mod 8 <> 0)%nat)
    by (vm_compute; discriminate).
  split; [exact H|].
  exact (proj1 (proj2 (hex_to_decimal_partial_record_returns _ H))).
Defined.

(** C3 as stated fails: a three-byte table is decoded to one value
    instead of raising [DecodeError]. *)
Lemma hex_to_decimal_no_DecodeError :
  (length [x00; x40; x01] mod 8 <> 0)%nat
  /\ call_hex_to_decimal [x00; x40; x01]
     = Returned [(inject_Z 1 + inject_Z 16384 / 65536)%Q]
  /\ call_hex_to_decimal [x00; x40; x01] <> Raised DecodeError.
Proof.
  split; [vm_compute; discriminate|].
  split; [reflexivity|discriminate].
Qed.

Lemma zip_length {A B : Type} (xs : list A) (ys : list B) :
  length (zip xs ys) = Nat.min (length xs) (length ys).
Proof.
  revert ys. induction xs as [|x xs IH]; intros [|y ys]; simpl; auto.
Qed.

Lemma zip_lookup {A B : Type} (xs : list A) (ys : list B) (i : nat) :
  zip xs ys !! i
  = match xs !! i, ys !! i with
    | Some x, Some y => Some (x, y)
    | _, _ => None
    end.
Proof.
  revert ys i. induction xs as [|x xs IH]; intros [|y ys] [|i]; simpl;
    try reflexivity.
  - destruct (xs !! i); reflexivity.
  - apply IH.
Qed.

(** C4, as the code behaves.  Pairing the two decoded sequences never
    fails: it returns [min] of the two lengths many pairs, pair [i] made
    of the two values at index [i]; for sequences of equal length [n]
    these are exactly [n] pairs. *)
Theorem coordinates_zip_truncates (xs ys : list Q) :
  call_coordinates_of xs ys = Returned (coordinates_of xs ys)
  /\ length (coordinates_of xs ys) = Nat.min (length xs) (length ys)
  /\ (forall i x y, xs !! i = Some x -> ys !! i = Some y ->
        coordinates_of xs ys !! i = Some (x, y))
  /\ (forall n, length xs = n -> length ys = n ->
        length (coordinates_of xs ys) = n).
Proof.
  unfold coordinates_of. split; [reflexivity|].
  split; [apply zip_length|]. split.
  - intros i x y Hx Hy. rewrite zip_lookup, Hx, Hy. reflexivity.
  - intros n Hx Hy. rewrite zip_length, Hx, Hy. apply Nat.min_id.
Qed.

(** C4 as stated fails: tables of one and of two records decode to
    sequences of different lengths, and pairing them returns one pair
    instead of raising [MismatchedLengthError]. *)
Lemma coordinates_no_MismatchedLengthError :
  let xs := hex_to_decimal [x00; x40; x01; x00; x00; x00; x00; x00] in
  let ys := hex_to_decimal (smooth_mouse_y_curve) in
  length xs <> length ys
  /\ length (coordinates_of xs ys) = 1%nat
  /\ call_coordinates_of xs ys <> Raised MismatchedLengthError.
Proof.
  split; [vm_compute; discriminate|].
  split; [reflexivity|discriminate].
Qed.

End Decoder.

(* ===================================================================== *)
(** * Properties of the clamping primitives *)
(* ===================================================================== *)

Section Clamping.

Local Open Scope Q_scope.

Lemma Qltb_true (a b : Q) : Qltb a b = true -> a < b.
Proof.
  unfold Qltb. destruct (Qcompare a b) eqn:E; try discriminate.
  intros _. apply Qlt_alt, E.
Qed.

Lemma Qltb_false (a b : Q) : Qltb a b = false -> b <= a.
Proof.
  unfold Qltb. destruct (Qcompare a b) eqn:E; try discriminate; intros _.
  - apply Qeq_alt in E. rewrite E. apply Qle_refl.
  - apply Qgt_alt in E. apply Qlt_le_weak, E.
Qed.

Lemma py_min_cases (a b : Q) :
  (b < a /\ py_min a b = b) \/ (a <= b /\ py_min a b = a).
Proof.
  unfold py_min. destruct (Qltb b a) eqn:E.
  - left. split; [apply Qltb_true, E|reflexivity].
  - right. split; [apply Qltb_false, E|reflexivity].
Qed.

Lemma py_max_cases (a b : Q) :
  (a < b /\ py_max a b = b) \/ (b <= a /\ py_max a b = a).
Proof.
  unfold py_max. destruct (Qltb a b) eqn:E.
  - left. split; [apply Qltb_true, E|reflexivity].
  - right. split; [apply Qltb_false, E|reflexivity].
Qed.

(** [max(lo, min(hi, v))] lies in [[lo, hi]]. *)
Lemma py_clamp_range (lo hi v : Q) :
  lo <= hi -> lo <= py_max lo (py_min hi v) <= hi.
Proof.
  intros Hlh.
  destruct (py_max_cases lo (py_min hi v)) as [[H1 ->]|[H1 ->]];
    destruct (py_min_cases hi v) as [[H2 E]|[H2 E]];
    rewrite ?E in *; split; lra.
Qed.

(** A value already inside [[lo, hi]] is returned up to [==]. *)
Lemma py_clamp_inside (lo hi v : Q) :
  lo <= v <= hi -> py_max lo (py_min hi v) == v.
Proof.
  intros [Hl Hh].
  destruct (py_max_cases lo (py_min hi v)) as [[H1 ->]|[H1 ->]];
    destruct (py_min_cases hi v) as [[H2 E]|[H2 E]];
    rewrite ?E in *; lra.
Qed.

Lemma py_min_upper_is_clamp (lo hi v : Q) :
  lo <= hi -> lo <= v -> py_min hi v == Qmax lo (Qmin hi v).
Proof.
  intros Hlh Hv.
  destruct (py_min_cases hi v) as [[H E]|[H E]]; rewrite E.
  - rewrite (Q.min_r hi v) by lra. rewrite Q.max_r by lra. reflexivity.
  - rewrite (Q.min_l hi v) by lra. rewrite Q.max_r by lra. reflexivity.
Qed.

Lemma py_max_lower_is_clamp (lo hi v : Q) :
  lo <= hi -> v <= hi -> py_max lo v == Qmax lo (Qmin hi v).
Proof.
  intros Hlh Hv. rewrite (Q.min_r hi v) by lra.
  destruct (py_max_cases lo v) as [[H E]|[H E]]; rewrite E.
  - rewrite Q.max_r by lra. reflexivity.
  - rewrite Q.max_l by lra. reflexivity.
Qed.

End Clamping.

(* ===================================================================== *)
(** * Dragging keeps the curve well formed *)
(* ===================================================================== *)

Section Drag.

Local Open Scope Q_scope.

Lemma insert_keeps_curve (pts : list point) (idx : nat) (pt : point) :
  curve_ok pts -> (idx < length pts)%nat -> in_bounds pt ->
  (forall p, (0 < idx)%nat -> pts !! (idx - 1)%nat = Some p ->
             fst p <= fst pt) ->
  (forall q, pts !! (idx + 1)%nat = Some q -> fst pt <= fst q) ->
  curve_ok (<[idx := pt]> pts).
Proof.
  intros [Hb Hm] Hidx Hpt Hprev Hnext. split.
  - apply Forall_insert; assumption.
  - intros i p q Hp Hq.
    destruct (decide (i = idx)) as [->|Hne1].
    + rewrite list_lookup_insert_eq in Hp by assumption.
      rewrite list_lookup_insert_ne in Hq by lia.
      injection Hp as <-. apply Hnext.
      rewrite Nat.add_1_r. exact Hq.
    + rewrite list_lookup_insert_ne in Hp by lia.
      destruct (decide (S i = idx)) as [<-|Hne2].
      * rewrite list_lookup_insert_eq in Hq by assumption.
        injection Hq as <-. apply Hprev; [lia|].
        replace (S i - 1)%nat with i by lia. exact Hp.
      * rewrite list_lookup_insert_ne in Hq by lia.
        apply (Hm i p q Hp Hq).
Qed.

(** The four clamping steps of [on_drag] produce a point that fits
    between its neighbours and inside the declared bounds. *)
Lemma clamp_to_neighbours_fits (xmin xmax ymin ymax : Q)
    (pts : list point) (idx : nat) (v : Q * Q) :
  xmin == 0 -> xmax == 1 -> ymin == 0 -> ymax == 3 ->
  curve_ok pts -> (idx < length pts)%nat ->
  exists pt,
    clamp_to_neighbours xmin xmax ymin ymax pts idx v = Some pt
    /\ in_bounds pt
    /\ (forall p, (0 < idx)%nat -> pts !! (idx - 1)%nat = Some p ->
                  fst p <= fst pt)
    /\ (forall q, pts !! (idx + 1)%nat = Some q -> fst pt <= fst q).
Proof.
  intros Exmin Exmax Eymin Eymax [Hb Hm] Hidx.
  destruct (lookup_lt_is_Some_2 pts idx Hidx) as [cur Hcur].
  unfold clamp_to_neighbours.
  pose proof (py_clamp_range xmin xmax (fst v) ltac:(lra)) as Hx.
  pose proof (py_clamp_range ymin ymax (snd v) ltac:(lra)) as Hy.
  set (x0 := py_max xmin (py_min xmax (fst v))) in *.
  set (y0 := py_max ymin (py_min ymax (snd v))) in *.
  (* first neighbour *)
  assert (H1 : exists x1,
             (if (0 <? idx)%nat
              then prev ← pts !! (idx - 1)%nat;
                   Some (if Qltb x0 (fst prev) then fst prev else x0)
              else Some x0) = Some x1
             /\ 0 <= x1 <= 1
             /\ (forall p, (0 < idx)%nat -> pts !! (idx - 1)%nat = Some p ->
                           fst p <= x1)).
  { destruct (Nat.ltb_spec 0 idx) as [Hpos|Hz].
    - destruct (lookup_lt_is_Some_2 pts (idx - 1)%nat ltac:(lia))
        as [prev Hprev].
      rewrite Hprev. cbn [mbind option_bind].
      pose proof (proj1 (Forall_lookup _ _) Hb _ _ Hprev) as [[? ?] _].
      eexists. split; [reflexivity|].
      destruct (Qltb x0 (fst prev)) eqn:E.
      + apply Qltb_true in E. split; [lra|].
        intros p _ Hp. rewrite ?Hprev in Hp. injection Hp as <-. lra.
      + apply Qltb_false in E. split; [lra|].
        intros p _ Hp. rewrite ?Hprev in Hp. injection Hp as <-. lra.
    - exists x0. split; [reflexivity|]. split; [lra|]. intros; lia. }
  destruct H1 as (x1 & -> & Hx1 & Hprev1). cbn [mbind option_bind].
  (* second neighbour *)
  destruct (Nat.ltb_spec idx (length pts - 1)) as [Hlast|Hlast].
  - destruct (lookup_lt_is_Some_2 pts (idx + 1)%nat ltac:(lia))
      as [next Hnext].
    rewrite Hnext. cbn [mbind option_bind].
    pose proof (proj1 (Forall_lookup _ _) Hb _ _ Hnext) as [[? ?] _].
    assert (Hcn : fst cur <= fst next).
    { apply (Hm idx cur next Hcur). rewrite <- Nat.add_1_r. exact Hnext. }
    eexists. split; [reflexivity|].
    destruct (Qltb (fst next) x1) eqn:E.
    + apply Qltb_true in E. split; [|split].
      * repeat split; cbn [fst snd]; lra.
      * intros p Hpos Hp. cbn [fst].
        destruct (lookup_lt_is_Some_2 pts (idx - 1)%nat ltac:(lia))
          as [p' Hp'].
        assert (p' = p) by congruence. subst p'.
        assert (fst p <= fst cur).
        { apply (Hm (idx - 1)%nat p cur Hp).
          replace (S (idx - 1)) with idx by lia. exact Hcur. }
        lra.
      * intros q Hq. assert (q = next) by congruence. subst q.
        cbn [fst]. lra.
    + apply Qltb_false in E. split; [|split].
      * repeat split; cbn [fst snd]; lra.
      * intros p Hpos Hp. cbn [fst]. apply (Hprev1 p Hpos Hp).
      * intros q Hq. assert (q = next) by congruence. subst q.
        cbn [fst]. lra.
  - exists (x1, y0). split; [reflexivity|]. split; [|split].
    + repeat split; cbn [fst snd]; lra.
    + intros p Hpos Hp. cbn [fst]. apply (Hprev1 p Hpos Hp).
    + intros q Hq. apply lookup_lt_Some in Hq. lia.
Qed.

Lemma set_item_in_range {A : Type} (l : list A) (i : nat) (v : A) :
  (i < length l)%nat -> set_item l i v = Some (<[i := v]> l).
Proof.
  intros Hi. unfold set_item.
  destruct (Nat.ltb_spec i (length l)); [reflexivity|lia].
Qed.

(** The shared body of the two [on_drag] handlers. *)
Lemma drag_body_keeps_curve (xmin xmax ymin ymax : Q)
    (pts : list point) (idx : nat) (v : Q * Q) :
  xmin == 0 -> xmax == 1 -> ymin == 0 -> ymax == 3 ->
  curve_ok pts -> (idx < length pts)%nat ->
  exists pts',
    (new_pt ← clamp_to_neighbours xmin xmax ymin ymax pts idx v;
     set_item pts idx new_pt) = Some pts'
    /\ curve_ok pts' /\ length pts' = length pts.
Proof.
  intros Exmin Exmax Eymin Eymax Hok Hidx.
  destruct (clamp_to_neighbours_fits xmin xmax ymin ymax pts idx v
              Exmin Exmax Eymin Eymax Hok Hidx)
    as (pt & -> & Hb & Hp & Hn).
  cbn [mbind option_bind]. rewrite set_item_in_range by assumption.
  eexists. split; [reflexivity|]. split.
  - apply insert_keeps_curve; assumption.
  - apply length_insert.
Qed.

(** C2.  In both editors, a drag on a curve whose inputs are
    non-decreasing and whose points lie in [0,1] x [0,3] returns, for any
    event coordinates and any drag offsets, a curve with the same two
    properties. *)
Theorem on_drag_keeps_curve :
  (forall (self : Simulator.CurveEditor) (event : Event),
      curve_ok (Simulator.points self) ->
      drag_index_valid (Simulator.drag_data self) (Simulator.points self) ->
      exists self',
        Simulator.on_drag self event = Some self'
        /\ curve_ok (Simulator.points self'))
  /\ (forall (self : Simulator2.CurveEditor) (event : Event),
        curve_ok (Simulator2.points self) ->
        drag_index_valid (Simulator2.drag_data self)
                         (Simulator2.points self) ->
        exists self',
          Simulator2.on_drag self event = Some self'
          /\ curve_ok (Simulator2.points self')).
Proof.
  split; intros self event Hok Hvalid.
  - unfold Simulator.on_drag.
    destruct (point_index (Simulator.drag_data self)) as [idx|] eqn:Hidx;
      [|exists self; split; [reflexivity|assumption]].
    specialize (Hvalid idx Hidx).
    destruct (drag_body_keeps_curve Simulator.X_MIN Simulator.X_MAX
                Simulator.Y_MIN Simulator.Y_MAX (Simulator.points self) idx
                (Simulator.to_function_coords
                   (ev_x event + offset_x (Simulator.drag_data self))
                   (ev_y event + offset_y (Simulator.drag_data self)))
                ltac:(reflexivity) ltac:(reflexivity) ltac:(reflexivity)
                ltac:(reflexivity) Hok Hvalid) as (pts' & Hbody & Hok' & _).
    destruct (clamp_to_neighbours _ _ _ _ _ idx _) as [new_pt|];
      [|discriminate].
    cbn [mbind option_bind] in *. rewrite Hbody. cbn [mbind option_bind].
    eexists. split; [reflexivity|exact Hok'].
  - unfold Simulator2.on_drag.
    destruct (point_index (Simulator2.drag_data self)) as [idx|] eqn:Hidx;
      [|exists self; split; [reflexivity|assumption]].
    destruct ((idx =? 0)%nat && Simulator2.lock_low_speed self);
      [exists self; split; [reflexivity|assumption]|].
    specialize (Hvalid idx Hidx).
    destruct (drag_body_keeps_curve Simulator2.X_MIN Simulator2.X_MAX
                Simulator2.Y_MIN Simulator2.Y_MAX (Simulator2.points self) idx
                (Simulator2.to_function_coords
                   (ev_x event + offset_x (Simulator2.drag_data self))
                   (ev_y event + offset_y (Simulator2.drag_data self)))
                ltac:(reflexivity) ltac:(reflexivity) ltac:(reflexivity)
                ltac:(reflexivity) Hok Hvalid) as (pts' & Hbody & Hok' & _).
    destruct (clamp_to_neighbours _ _ _ _ _ idx _) as [new_pt|];
      [|discriminate].
    cbn [mbind option_bind] in *. rewrite Hbody. cbn [mbind option_bind].
    eexists. split; [reflexivity|exact Hok'].
Qed.

End Drag.

(* ===================================================================== *)
(** * Presets *)
(* ===================================================================== *)

Section Presets.

Local Open Scope Q_scope.

(** C5.  In both editors the Windows-like preset gives the four literal
    points whatever the boost and cap flags are; with the Windows flag
    off, the curve has three points whose middle output is 1.5 or 0.5
    according to the boost flag alone and whose last output is 2.5 or 1
    according to the cap flag alone: (0,0),(0.5,0.5),(1,1) with both
    off and (0,0),(0.5,1.5),(1,2.5) with both on. *)
Theorem update_curve_from_options_presets :
  (forall self : Simulator.CurveEditor,
      let pts := Simulator.points (Simulator.update_curve_from_options self) in
      (Simulator.use_windows_curve self = true ->
         Forall2 point_eq pts [(0, 0); (0.3, 0.3); (0.6, 1.2); (1, 2.5)])
      /\ (Simulator.use_windows_curve self = false ->
            Forall2 point_eq pts
              [(0, 0);
               (0.5, if Simulator.enable_nonlinear_boost self
                     then 1.5 else 0.5);
               (1, if Simulator.enable_acceleration_cap self
                   then 2.5 else 1)])
      /\ (Simulator.use_windows_curve self = false ->
          Simulator.enable_nonlinear_boost self = false ->
          Simulator.enable_acceleration_cap self = false ->
            Forall2 point_eq pts [(0, 0); (0.5, 0.5); (1, 1)])
      /\ (Simulator.use_windows_curve self = false ->
          Simulator.enable_nonlinear_boost self = true ->
          Simulator.enable_acceleration_cap self = true ->
            Forall2 point_eq pts [(0, 0); (0.5, 1.5); (1, 2.5)]))
  /\ (forall self : Simulator2.CurveEditor,
      let pts :=
        Simulator2.points (Simulator2.update_curve_from_options self) in
      (Simulator2.use_windows_curve self = true ->
         Forall2 point_eq pts [(0, 0); (0.3, 0.3); (0.6, 1.2); (1, 2.5)])
      /\ (Simulator2.use_windows_curve self = false ->
            Forall2 point_eq pts
              [(0, 0);
               (0.5, if Simulator2.enable_nonlinear_boost self
                     then 1.5 else 0.5);
               (1, if Simulator2.enable_acceleration_cap self
                   then 2.5 else 1)])
      /\ (Simulator2.use_windows_curve self = false ->
          Simulator2.enable_nonlinear_boost self = false ->
          Simulator2.enable_acceleration_cap self = false ->
            Forall2 point_eq pts [(0, 0); (0.5, 0.5); (1, 1)])
      /\ (Simulator2.use_windows_curve self = false ->
          Simulator2.enable_nonlinear_boost self = true ->
          Simulator2.enable_acceleration_cap self = true ->
            Forall2 point_eq pts [(0, 0); (0.5, 1.5); (1, 2.5)])).
Proof.
  split; intros [w b c ? ?]; cbv zeta;
    (unfold Simulator.update_curve_from_options
     || unfold Simulator2.update_curve_from_options);
    cbn -[Qeq]; repeat split; intros; subst;
    try discriminate;
    try (destruct b); try (destruct c);
    cbn -[Qeq]; repeat constructor; reflexivity.
Qed.

End Presets.

(* ===================================================================== *)
(** * The Increase / Decrease buttons *)
(* ===================================================================== *)

Section Adjust.

Local Open Scope Q_scope.
Import Simulator2.

Variable lock : bool.
Variable f : Q -> Q.

Lemma adjust_loop_unfold (sel : list nat) (pts : list point) :
  adjust_loop lock f sel pts = foldl (adjust_step lock f) (Some pts) sel.
Proof. reflexivity. Qed.

Lemma adjust_step_in_range (pts : list point) (i : nat) :
  (i < length pts)%nat ->
  exists pts',
    adjust_step lock f (Some pts) i = Some pts'
    /\ length pts' = length pts
    /\ (forall j, j <> i -> pts' !! j = pts !! j)
    /\ (forall pt, pts !! i = Some pt ->
          pts' !! i
          = Some (if (i =? 0)%nat && lock then pt else (fst pt, f (snd pt)))).
Proof.
  intros Hi. unfold adjust_step. cbn [mbind option_bind].
  destruct ((i =? 0)%nat && lock).
  - exists pts. repeat split; auto.
  - unfold update_output.
    destruct (lookup_lt_is_Some_2 pts i Hi) as [pt Hpt].
    rewrite Hpt. cbn [mbind option_bind].
    eexists. split; [reflexivity|]. split; [apply length_insert|]. split.
    + intros j Hj. apply list_lookup_insert_ne; auto.
    + intros pt' Hpt'. injection Hpt' as <-.
      apply list_lookup_insert_eq, Hi.
Qed.

(** The loop over a duplicate-free list of valid indices terminates
    normally and changes exactly the selected, unlocked points. *)
Lemma adjust_loop_valid (sel : list nat) :
  NoDup sel ->
  forall pts : list point,
    (forall i, i ∈ sel -> (i < length pts)%nat) ->
    exists pts',
      adjust_loop lock f sel pts = Some pts'
      /\ length pts' = length pts
      /\ (forall i pt, pts !! i = Some pt ->
            pts' !! i
            = Some (if bool_decide (i ∈ sel) && negb ((i =? 0)%nat && lock)
                    then (fst pt, f (snd pt)) else pt)).
Proof.
  induction 1 as [|i sel Hnotin Hnd IH]; intros pts Hvalid.
  - exists pts. repeat split; auto.
  - rewrite adjust_loop_unfold. cbn [foldl].
    destruct (adjust_step_in_range pts i) as (pts1 & -> & Hlen1 & Hne & Heq).
    { apply Hvalid. left. }
    destruct (IH pts1) as (pts' & Hloop & Hlen & Hlook).
    { intros j Hj. rewrite Hlen1. apply Hvalid. right. exact Hj. }
    rewrite adjust_loop_unfold in Hloop.
    exists pts'. split; [exact Hloop|]. split; [congruence|].
    intros j pt Hpt.
    destruct (decide (j = i)) as [->|Hji].
    + rewrite (Hlook i _ (Heq pt Hpt)).
      rewrite (bool_decide_eq_false_2 (i ∈ sel)) by assumption.
      rewrite (bool_decide_eq_true_2 (i ∈ i :: sel)) by left.
      cbn [andb]. destruct ((i =? 0)%nat && lock); reflexivity.
    + rewrite (Hlook j pt) by (rewrite Hne; assumption).
      destruct (decide (j ∈ sel)) as [Hin|Hnin].
      * rewrite !bool_decide_eq_true_2; [reflexivity|right|]; assumption.
      * rewrite !bool_decide_eq_false_2; [reflexivity| |assumption].
        intros Hin. apply elem_of_cons in Hin as [?|?]; tauto.
Qed.

End Adjust.

Section Lock.

Local Open Scope Q_scope.
Import Simulator2.

Lemma adjust_loop_error (lock : bool) (f : Q -> Q) (sel : list nat) :
  foldl (adjust_step lock f) None sel = None.
Proof. induction sel as [|i sel IH]; [reflexivity|exact IH]. Qed.

(** Whenever the loop terminates normally, a locked point 0 is the same
    before and after, whatever the selection holds. *)
Lemma adjust_loop_locked_frame (f : Q -> Q) (sel : list nat) :
  forall pts pts' : list point,
    adjust_loop true f sel pts = Some pts' -> pts' !! 0%nat = pts !! 0%nat.
Proof.
  induction sel as [|i sel IH]; intros pts pts'.
  - intros [= ->]. reflexivity.
  - unfold adjust_loop. cbn [foldl].
    unfold adjust_step at 2. cbn [mbind option_bind].
    destruct i as [|i]; cbn [Nat.eqb andb].
    + apply IH.
    + unfold update_output.
      destruct (pts !! S i) as [pt|] eqn:Hpt; cbn [mbind option_bind].
      * intros H. apply IH in H. rewrite H.
        apply list_lookup_insert_ne. discriminate.
      * rewrite adjust_loop_error. discriminate.
Qed.

End Lock.

Section Buttons.

Local Open Scope Q_scope.
Import Simulator2.

Lemma adjusted_elements (lock : bool) (sel : gset nat) (i : nat) :
  bool_decide (i ∈ elements sel) && negb ((i =? 0)%nat && lock)
  = adjusted lock sel i.
Proof.
  unfold adjusted. f_equal. apply bool_decide_ext, elem_of_elements.
Qed.

Lemma buttons_loop (self : CurveEditor) (f : Q -> Q) :
  selection_valid (selected_indices self) (points self) ->
  exists pts',
    adjust_loop (lock_low_speed self) f
      (elements (selected_indices self)) (points self) = Some pts'
    /\ length pts' = length (points self)
    /\ (forall i pt, points self !! i = Some pt ->
          pts' !! i
          = Some (if adjusted (lock_low_speed self) (selected_indices self) i
                  then (fst pt, f (snd pt)) else pt)).
Proof.
  intros Hvalid.
  destruct (adjust_loop_valid (lock_low_speed self) f
              (elements (selected_indices self))
              (NoDup_elements _) (points self))
    as (pts' & Hloop & Hlen & Hlook).
  { intros i Hi. apply Hvalid, elem_of_elements, Hi. }
  exists pts'. split; [exact Hloop|]. split; [exact Hlen|].
  intros i pt Hpt. rewrite (Hlook i pt Hpt), adjusted_elements. reflexivity.
Qed.

Lemma increase_is_clamp (y : Q) :
  0 <= y -> py_min Y_MAX (y + DELTA_Y) == clamp_output (y + DELTA_Y).
Proof.
  intros Hy. unfold clamp_output.
  apply py_min_upper_is_clamp; unfold Y_MIN, Y_MAX, DELTA_Y; lra.
Qed.

Lemma decrease_is_clamp (y : Q) :
  y <= 3 -> py_max Y_MIN (y - DELTA_Y) == clamp_output (y - DELTA_Y).
Proof.
  intros Hy. unfold clamp_output.
  apply py_max_lower_is_clamp; unfold Y_MIN, Y_MAX, DELTA_Y; lra.
Qed.

Lemma increase_saturates (y : Q) :
  3 <= y -> py_min Y_MAX (y + DELTA_Y) = Y_MAX.
Proof.
  intros Hy.
  destruct (py_min_cases Y_MAX (y + DELTA_Y)) as [[H _]|[_ E]];
    [|exact E].
  unfold Y_MAX, DELTA_Y in H. lra.
Qed.

(** C6.  On a curve inside the declared bounds and a selection of
    existing indices, the Increase button adds 0.1 and the Decrease
    button subtracts 0.1 to the output of exactly the selected points
    that the lock does not exclude, the result being clamped to [0, 3];
    all other points and all inputs are left as they are.  A selected
    output that has reached 3 stays at 3 under Increase, and Increase
    with selection {1} on (0,0),(0.5,0.5),(1,1) gives point 1 the
    output 0.6. *)
Theorem adjust_selected_outputs (self : CurveEditor) :
  selection_valid (selected_indices self) (points self) ->
  Forall in_bounds (points self) ->
  (exists self',
      increase_all_points self = Some self'
      /\ length (points self') = length (points self)
      /\ (forall i pt, points self !! i = Some pt ->
            if adjusted (lock_low_speed self) (selected_indices self) i
            then exists y',
                   points self' !! i = Some (fst pt, y')
                   /\ y' == clamp_output (snd pt + DELTA_Y)
                   /\ (snd pt == 3 -> y' == 3)
            else points self' !! i = Some pt))
  /\ (exists self',
        decrease_all_points self = Some self'
        /\ length (points self') = length (points self)
        /\ (forall i pt, points self !! i = Some pt ->
              if adjusted (lock_low_speed self) (selected_indices self) i
              then exists y',
                     points self' !! i = Some (fst pt, y')
                     /\ y' == clamp_output (snd pt - DELTA_Y)
              else points self' !! i = Some pt))
  /\ (Forall2 point_eq (points self) [(0, 0); (0.5, 0.5); (1, 1)] ->
      selected_indices self = {[1%nat]} ->
      exists self' x' y',
        increase_all_points self = Some self'
        /\ points self' !! 1%nat = Some (x', y')
        /\ x' == 0.5 /\ y' == 0.6).
Proof.
  intros Hvalid Hb.
  assert (Hinc : exists self',
      increase_all_points self = Some self'
      /\ length (points self') = length (points self)
      /\ (forall i pt, points self !! i = Some pt ->
            if adjusted (lock_low_speed self) (selected_indices self) i
            then exists y',
                   points self' !! i = Some (fst pt, y')
                   /\ y' == clamp_output (snd pt + DELTA_Y)
                   /\ (snd pt == 3 -> y' == 3)
            else points self' !! i = Some pt)).
  { destruct (buttons_loop self (fun y => py_min Y_MAX (y + DELTA_Y)) Hvalid)
      as (pts' & Hloop & Hlen & Hlook).
    unfold increase_all_points. rewrite Hloop. cbn [mbind option_bind].
    eexists. split; [reflexivity|]. split; [exact Hlen|].
    intros i pt Hpt. specialize (Hlook i pt Hpt).
    pose proof (proj1 (Forall_lookup _ _) Hb i pt Hpt) as [_ [Hlo Hhi]].
    cbn [points with_points].
    destruct (adjusted _ _ i); [|exact Hlook].
    eexists. split; [exact Hlook|]. split.
    - apply increase_is_clamp, Hlo.
    - intros E. rewrite increase_saturates by lra. reflexivity. }
  split; [exact Hinc|]. split.
  - destruct (buttons_loop self (fun y => py_max Y_MIN (y - DELTA_Y)) Hvalid)
      as (pts' & Hloop & Hlen & Hlook).
    unfold decrease_all_points. rewrite Hloop. cbn [mbind option_bind].
    eexists. split; [reflexivity|]. split; [exact Hlen|].
    intros i pt Hpt. specialize (Hlook i pt Hpt).
    pose proof (proj1 (Forall_lookup _ _) Hb i pt Hpt) as [_ [Hlo Hhi]].
    cbn [points with_points].
    destruct (adjusted _ _ i); [|exact Hlook].
    eexists. split; [exact Hlook|]. apply decrease_is_clamp, Hhi.
  - intros Hpts Hsel.
    destruct Hinc as (self' & Hrun & _ & Hlook).
    destruct (points self) as [|p0 [|[x1 y1] rest]] eqn:Epts;
      try (inversion Hpts as [|? ? ? ? ? Ht]; inversion Ht; fail).
    inversion Hpts as [|? ? ? ? _ Ht]; subst.
    inversion Ht as [|? ? ? ? [Hx1 Hy1] _]; subst.
    cbn [fst snd] in Hx1, Hy1.
    specialize (Hlook 1%nat (x1, y1) eq_refl).
    rewrite Hsel in Hlook. unfold adjusted in Hlook.
    rewrite bool_decide_eq_true_2 in Hlook by (apply elem_of_singleton; reflexivity).
    cbn [Nat.eqb andb negb fst snd] in Hlook.
    destruct Hlook as (y' & Hl & Hy' & _).
    exists self', x1, y'. split; [exact Hrun|]. split; [exact Hl|].
    split; [exact Hx1|].
    rewrite Hy'. unfold clamp_output. rewrite Hy1. reflexivity.
Qed.

(** C7.  With "Lock Low speed (min)" ticked, a drag whose target is
    point 0 changes nothing at all; any drag, Increase or Decrease that
    completes leaves point 0 as it was, for every event, offset and
    selection; the two buttons do complete on every selection of
    existing indices; and a press neither moves a point nor makes
    point 0 the drag target or a newly selected index. *)
Theorem locked_low_point_unchanged (self : CurveEditor) :
  lock_low_speed self = true ->
  (forall event, point_index (drag_data self) = Some 0%nat ->
                 on_drag self event = Some self)
  /\ (forall event self', on_drag self event = Some self' ->
                          points self' !! 0%nat = points self !! 0%nat)
  /\ (forall self', increase_all_points self = Some self' ->
                    points self' !! 0%nat = points self !! 0%nat)
  /\ (forall self', decrease_all_points self = Some self' ->
                    points self' !! 0%nat = points self !! 0%nat)
  /\ (selection_valid (selected_indices self) (points self) ->
      is_Some (increase_all_points self)
      /\ is_Some (decrease_all_points self))
  /\ (forall event self', on_press self event = Some self' ->
        points self' = points self
        /\ (0%nat ∈ selected_indices self' -> 0%nat ∈ selected_indices self)
        /\ (point_index (drag_data self') = Some 0%nat ->
            drag_data self' = drag_data self)).
Proof.
  intros Hlock. split; [|split; [|split; [|split; [|split]]]].
  - intros event Hidx. unfold on_drag. rewrite Hidx, Hlock. reflexivity.
  - intros event self'. unfold on_drag.
    destruct (point_index (drag_data self)) as [[|idx]|];
      rewrite ?Hlock; cbn [Nat.eqb andb]; try (intros [= <-]; reflexivity).
    destruct (clamp_to_neighbours _ _ _ _ _ _ _) as [new_pt|];
      cbn [mbind option_bind]; [|discriminate].
    unfold set_item. destruct (S idx <? length (points self))%nat;
      cbn [mbind option_bind]; [|discriminate].
    intros [= <-]. cbn [points with_points].
    apply list_lookup_insert_ne. discriminate.
  - intros self'. unfold increase_all_points. rewrite Hlock.
    destruct (adjust_loop true _ _ _) as [pts'|] eqn:Hloop;
      cbn [mbind option_bind]; [|discriminate].
    intros [= <-]. cbn [points with_points].
    apply (adjust_loop_locked_frame _ _ _ _ Hloop).
  - intros self'. unfold decrease_all_points. rewrite Hlock.
    destruct (adjust_loop true _ _ _) as [pts'|] eqn:Hloop;
      cbn [mbind option_bind]; [|discriminate].
    intros [= <-]. cbn [points with_points].
    apply (adjust_loop_locked_frame _ _ _ _ Hloop).
  - intros Hvalid. split.
    + destruct (buttons_loop self (fun y => py_min Y_MAX (y + DELTA_Y))
                  Hvalid) as (pts' & Hloop & _).
      unfold increase_all_points. rewrite Hloop. eexists. reflexivity.
    + destruct (buttons_loop self (fun y => py_max Y_MIN (y - DELTA_Y))
                  Hvalid) as (pts' & Hloop & _).
      unfold decrease_all_points. rewrite Hloop. eexists. reflexivity.
  - intros event self'. unfold on_press. rewrite Hlock, andb_true_r.
    case_bool_decide as Hz; [intros [= <-]; repeat split; auto|].
    destruct (find_nearby_point self _ _) as [idx|].
    + assert (Hidx0 : idx <> 0%nat) by congruence.
      destruct (points self !! idx) as [pt|]; cbn [mbind option_bind];
        [|discriminate].
      destruct (to_canvas_coords _ _). intros [= <-].
      cbn [points selected_indices drag_data point_index
           with_drag_data with_selected_indices].
      split; [reflexivity|]. split; [|congruence].
      intros Hin. destruct (negb _); [destruct (decide _)|].
      * apply elem_of_difference in Hin as [Hin _]. exact Hin.
      * apply elem_of_union in Hin as [Hin|Hin]; [exact Hin|].
        apply elem_of_singleton in Hin. congruence.
      * apply elem_of_singleton in Hin. congruence.
    + intros [= <-].
      cbn [points selected_indices drag_data point_index
           with_drag_data with_selected_indices].
      split; [reflexivity|]. split; [set_solver|reflexivity].
Qed.

End Buttons.

(* ===================================================================== *)
(** * Hit testing *)
(* ===================================================================== *)

Section HitTest.

Context {A : Type} (test : A -> bool).

Lemma first_index_from_Some (l : list A) (k i : nat) :
  first_index_from test l k = Some i <->
  (k <= i)%nat
  /\ (exists v, l !! (i - k)%nat = Some v /\ test v = true)
  /\ (forall j w, (j < i - k)%nat -> l !! j = Some w -> test w = false).
Proof.
  revert k. induction l as [|v rest IH]; intros k; cbn [first_index_from].
  - split; [discriminate|]. intros (_ & (v & Hv & _) & _). discriminate.
  - destruct (test v) eqn:Ev.
    + split.
      * intros [= <-]. split; [lia|]. rewrite Nat.sub_diag. split.
        -- exists v. split; [reflexivity|exact Ev].
        -- intros j w Hj. lia.
      * intros (Hk & _ & Hmin).
        destruct (decide (i = k)) as [->|Hne]; [reflexivity|].
        specialize (Hmin 0%nat v ltac:(lia) eq_refl). congruence.
    + rewrite IH. split.
      * intros (Hk & (w & Hw & Ew) & Hmin). split; [lia|]. split.
        -- exists w. split; [|exact Ew].
           replace (i - k)%nat with (S (i - S k)) by lia. exact Hw.
        -- intros [|j] u Hj Hu.
           ++ injection Hu as <-. exact Ev.
           ++ apply (Hmin j u); [lia|exact Hu].
      * intros (Hk & (w & Hw & Ew) & Hmin).
        assert (i <> k).
        { intros ->. rewrite Nat.sub_diag in Hw. injection Hw as <-.
          congruence. }
        split; [lia|]. split.
        -- exists w. split; [|exact Ew].
           replace (i - k)%nat with (S (i - S k)) in Hw by lia. exact Hw.
        -- intros j u Hj Hu. apply (Hmin (S j) u); [lia|exact Hu].
Qed.


End HitTest.

Section Distance.

Local Open Scope R_scope.



End Distance.

Section NearbyPoint.

Variable rendered : Q -> Q -> Q * Q.
Variable radius : Q.
Hypothesis radius_nonneg : (0 <= radius)%Q.
Variables x y : Q.

(** The test applied to each point by the two [find_nearby_point]. *)
Let near (pt : point) : bool :=
  let '(cx, cy) := rendered (fst pt) (snd pt) in
  Qle_bool ((cx - x) ^ 2 + (cy - y) ^ 2)%Q (radius ^ 2)%Q.





End NearbyPoint.

Section FindNearbyPoint.

Local Open Scope Q_scope.


End FindNearbyPoint.

(* ===================================================================== *)
(** * Listing the pointer devices *)
(* ===================================================================== *)

Section Substring.

Local Open Scope string_scope.

Lemma append_String (c : ascii) (s t : string) :
  String c s ++ t = String c (s ++ t).
Proof. reflexivity. Qed.

Lemma prefix_append (sub s : string) :
  String.prefix sub s = true <-> exists post, s = sub ++ post.
Proof.
  revert s. induction sub as [|c sub IH]; intros s; cbn [String.prefix].
  - split; [intros _; exists s; reflexivity|intros _; destruct s; reflexivity].
  - destruct s as [|c' s].
    + split; [discriminate|]. intros [post H]. discriminate.
    + cbn [String.prefix]. destruct (ascii_dec c c') as [->|Hne].
      * rewrite IH. split; intros [post H]; exists post.
        -- rewrite append_String. f_equal. exact H.
        -- rewrite append_String in H. injection H as H. exact H.
      * split; [discriminate|]. intros [post H].
        rewrite append_String in H. congruence.
Qed.

Lemma contains_spec (sub s : string) :
  contains sub s = true <-> exists pre post, s = pre ++ sub ++ post.
Proof.
  induction s as [|c s IH]; cbn [contains]; rewrite orb_true_iff.
  - rewrite prefix_append. split.
    + intros [[post H]|H]; [|discriminate]. exists "", post. exact H.
    + intros (pre & post & H). left. exists post.
      destruct pre; [exact H|discriminate].
  - rewrite prefix_append, IH. split.
    + intros [[post H]|(pre & post & H)].
      * exists "", post. exact H.
      * exists (String c pre), post. rewrite append_String.
        f_equal. exact H.
    + intros (pre & post & H). destruct pre as [|c' pre].
      * left. exists post. exact H.
      * right. exists pre, post. rewrite append_String in H.
        injection H as _ H. exact H.
Qed.

Lemma contains_lower (w d : string) :
  contains w (lower d) = true <-> name_contains w d.
Proof. apply contains_spec. Qed.

Lemma not_contains_lower (w d : string) :
  contains w (lower d) = false <-> ~ name_contains w d.
Proof.
  rewrite <- contains_lower. destruct (contains w (lower d)); split; congruence.
Qed.

End Substring.

Section StableSort.

Context {A : Type} (key : A -> nat).

Lemma insert_by_key_front (x : A) (l : list A) :
  Forall (fun y => (key x <= key y)%nat) l -> insert_by_key key x l = x :: l.
Proof.
  destruct 1 as [|y l Hy _]; cbn [insert_by_key]; [reflexivity|].
  destruct (Nat.leb_spec (key x) (key y)); [reflexivity|lia].
Qed.

Lemma insert_by_key_after (x : A) (a b : list A) :
  Forall (fun y => (key y < key x)%nat) a ->
  insert_by_key key x (a ++ b) = a ++ insert_by_key key x b.
Proof.
  induction 1 as [|y a Hy _ IH]; [reflexivity|].
  cbn [app insert_by_key].
  destruct (Nat.leb_spec (key x) (key y)); [lia|]. f_equal. exact IH.
Qed.

Lemma Forall_filter_key (k : nat) (P : A -> Prop) (l : list A) :
  (forall y, key y = k -> P y) ->
  Forall P (List.filter (fun y => (key y =? k)%nat) l).
Proof.
  intros HP. apply Forall_forall. intros y Hy.
  apply list_elem_of_In, filter_In in Hy as [_ Hk].
  apply HP, Nat.eqb_eq, Hk.
Qed.

End StableSort.

Section Devices.

Import Simulator2.

Lemma device_priority_cases (d : string) :
  device_priority d = 1%nat \/ device_priority d = 2%nat
  \/ device_priority d = 3%nat \/ device_priority d = 100%nat.
Proof.
  unfold device_priority.
  destruct (contains "usb" _); [auto|].
  destruct (contains "mouse" _); [auto|].
  destruct (contains "optical" _); auto.
Qed.

Lemma with_priority_cons (k : nat) (d : string) (l : list string) :
  with_priority k (d :: l)
  = if (device_priority d =? k)%nat
    then d :: with_priority k l else with_priority k l.
Proof. reflexivity. Qed.

Ltac class_bounds :=
  repeat (apply Forall_app; split);
  apply Forall_filter_key; intros ? ->; lia.

(** The stable sort groups the names by priority class. *)
Lemma sort_by_priority_classes (l : list string) :
  sort_by_key device_priority l
  = with_priority 1 l ++ with_priority 2 l
    ++ with_priority 3 l ++ with_priority 100 l.
Proof.
  induction l as [|d l IH]; [reflexivity|].
  change (sort_by_key device_priority (d :: l))
    with (insert_by_key device_priority d (sort_by_key device_priority l)).
  rewrite IH, !with_priority_cons.
  destruct (device_priority_cases d) as [E|[E|[E|E]]]; rewrite E;
    cbn [Nat.eqb].
  - rewrite insert_by_key_front by (rewrite E; class_bounds). reflexivity.
  - rewrite insert_by_key_after by (rewrite E; class_bounds).
    rewrite insert_by_key_front by (rewrite E; class_bounds). reflexivity.
  - rewrite !insert_by_key_after by (rewrite E; class_bounds).
    rewrite insert_by_key_front by (rewrite E; class_bounds). reflexivity.
  - rewrite !insert_by_key_after by (rewrite E; class_bounds).
    rewrite insert_by_key_front by (rewrite E; class_bounds). reflexivity.
Qed.

(** C9.  [get_pointer_devices] keeps exactly the names that contain
    "mouse" or "touchpad" once lower-cased, and returns them grouped by
    priority class, each class in its original order: first the names
    containing "usb", then the remaining ones containing "mouse", then
    the remaining ones containing "optical", then the others. *)
Theorem get_pointer_devices_order (devices : list string) :
  let kept := List.filter is_pointer_name devices in
  get_pointer_devices devices
  = with_priority 1 kept ++ with_priority 2 kept
    ++ with_priority 3 kept ++ with_priority 100 kept
  /\ (forall d, In d kept <->
        In d devices
        /\ (name_contains "mouse" d \/ name_contains "touchpad" d))
  /\ (forall d,
        (device_priority d = 1%nat <-> name_contains "usb" d)
        /\ (device_priority d = 2%nat <->
            ~ name_contains "usb" d /\ name_contains "mouse" d)
        /\ (device_priority d = 3%nat <->
            ~ name_contains "usb" d /\ ~ name_contains "mouse" d
            /\ name_contains "optical" d)
        /\ (device_priority d = 100%nat <->
            ~ name_contains "usb" d /\ ~ name_contains "mouse" d
            /\ ~ name_contains "optical" d)).
Proof.
  intros kept. split; [apply sort_by_priority_classes|]. split.
  - intros d. unfold kept. rewrite filter_In. unfold is_pointer_name.
    rewrite orb_true_iff, !contains_lower. reflexivity.
  - intros d. rewrite <- !not_contains_lower, <- !contains_lower.
    unfold device_priority.
    destruct (contains "usb" (lower d));
      destruct (contains "mouse" (lower d));
      destruct (contains "optical" (lower d));
      repeat split; intros; try discriminate; try tauto;
      repeat match goal with H : _ /\ _ |- _ => destruct H end;
      try discriminate; try congruence.
Qed.

End Devices.

(* ===================================================================== *)
(** * Canvas and function coordinates *)
(* ===================================================================== *)

Section Coordinates.

Local Open Scope Q_scope.

Lemma find_gives_point {B : Type} (test : B -> bool) (l : list B)
    (idx : nat) :
  first_index_from test l 0 = Some idx -> exists v, l !! idx = Some v.
Proof.
  intros H. apply first_index_from_Some in H as (_ & (v & Hv & _) & _).
  rewrite Nat.sub_0_r in Hv. eauto.
Qed.

Lemma roundtrip1 (x y : Q) :
  point_eq (Simulator.to_function_coords
              (fst (Simulator.to_canvas_coords x y))
              (snd (Simulator.to_canvas_coords x y))) (x, y).
Proof.
  unfold point_eq, Simulator.to_function_coords, Simulator.to_canvas_coords,
    Simulator.CANVAS_WIDTH, Simulator.CANVAS_HEIGHT, Simulator.X_MIN,
    Simulator.X_MAX, Simulator.Y_MIN, Simulator.Y_MAX.
  cbn [fst snd]. split; field.
Qed.

Lemma roundtrip1_inv (cx cy : Q) :
  point_eq (Simulator.to_canvas_coords
              (fst (Simulator.to_function_coords cx cy))
              (snd (Simulator.to_function_coords cx cy))) (cx, cy).
Proof.
  unfold point_eq, Simulator.to_function_coords, Simulator.to_canvas_coords,
    Simulator.CANVAS_WIDTH, Simulator.CANVAS_HEIGHT, Simulator.X_MIN,
    Simulator.X_MAX, Simulator.Y_MIN, Simulator.Y_MAX.
  cbn [fst snd]. split; field.
Qed.

Lemma roundtrip2 (x y : Q) :
  point_eq (Simulator2.to_function_coords
              (fst (Simulator2.to_canvas_coords x y))
              (snd (Simulator2.to_canvas_coords x y))) (x, y).
Proof.
  unfold point_eq, Simulator2.to_function_coords,
    Simulator2.to_canvas_coords, Simulator2.CANVAS_WIDTH,
    Simulator2.CANVAS_HEIGHT, Simulator2.MARGIN, Simulator2.X_MIN,
    Simulator2.X_MAX, Simulator2.Y_MIN, Simulator2.Y_MAX.
  cbn [fst snd]. split; field.
Qed.

Lemma roundtrip2_inv (cx cy : Q) :
  point_eq (Simulator2.to_canvas_coords
              (fst (Simulator2.to_function_coords cx cy))
              (snd (Simulator2.to_function_coords cx cy))) (cx, cy).
Proof.
  unfold point_eq, Simulator2.to_function_coords,
    Simulator2.to_canvas_coords, Simulator2.CANVAS_WIDTH,
    Simulator2.CANVAS_HEIGHT, Simulator2.MARGIN, Simulator2.X_MIN,
    Simulator2.X_MAX, Simulator2.Y_MIN, Simulator2.Y_MAX.
  cbn [fst snd]. split; field.
Qed.

End Coordinates.

Section TransformsInverse.

Local Open Scope Q_scope.

(** C10, amended.  In exact arithmetic the two coordinate transforms of
    both editors are inverse to each other, in either order and for all
    arguments. *)
Theorem coordinate_transforms_inverse :
  (forall x y : Q,
      point_eq (Simulator.to_function_coords
                  (fst (Simulator.to_canvas_coords x y))
                  (snd (Simulator.to_canvas_coords x y))) (x, y)
      /\ point_eq (Simulator2.to_function_coords
                     (fst (Simulator2.to_canvas_coords x y))
                     (snd (Simulator2.to_canvas_coords x y))) (x, y))
  /\ (forall cx cy : Q,
      point_eq (Simulator.to_canvas_coords
                  (fst (Simulator.to_function_coords cx cy))
                  (snd (Simulator.to_function_coords cx cy))) (cx, cy)
      /\ point_eq (Simulator2.to_canvas_coords
                     (fst (Simulator2.to_function_coords cx cy))
                     (snd (Simulator2.to_function_coords cx cy))) (cx, cy)).
Proof.
  split.
  - intros x y. split; [apply roundtrip1|apply roundtrip2].
  - intros cx cy. split; [apply roundtrip1_inv|apply roundtrip2_inv].
Qed.

End TransformsInverse.

Section TransformsBinary64.

Local Open Scope float_scope.

(** C10 as stated fails: the program computes in binary64, where the
    round trip is not the identity (in [simulator.py] the canvas
    position (7, 11) comes back as (7, 10.999999999999943)), so a drag
    that does not move the cursor moves the point.  On the curve
    [simulator2.py] starts with, pressing at (250, 403) grabs point 1,
    which is (0.5, 0.5), and a motion event at the same position stores
    (0.5, 0.49999999999999972) in its place. *)
Lemma drag_without_moving_changes_point :
  Binary64.Simulator.to_canvas_coords
    (fst (Binary64.Simulator.to_function_coords 7 11))
    (snd (Binary64.Simulator.to_function_coords 7 11))
  = (7, 0x1.5ffffffffffe0p+3)
  /\ (0x1.5ffffffffffe0p+3 <? 11) = true
  /\ exists self1 self2 : Binary64.Simulator2.CurveEditor,
       Binary64.Simulator2.on_press Binary64.Simulator2.init
         (Binary64.mkEvent 250 403 0) = Some self1
       /\ Binary64.point_index (Binary64.Simulator2.drag_data self1)
          = Some 1%nat
       /\ Binary64.Simulator2.on_drag self1 (Binary64.mkEvent 250 403 0)
          = Some self2
       /\ Binary64.Simulator2.points Binary64.Simulator2.init !! 1%nat
          = Some (0.5, 0.5)
       /\ Binary64.Simulator2.points self2 !! 1%nat
          = Some (0.5, 0x1.ffffffffffffbp-2)
       /\ (0x1.ffffffffffffbp-2 <? 0.5) = true.
Proof.
  split; [vm_compute; reflexivity|]. split; [vm_compute; reflexivity|].
  eexists. eexists.
  split; [vm_compute; reflexivity|].
  split; [reflexivity|].
  split; [vm_compute; reflexivity|].
  split; [reflexivity|].
  split; vm_compute; reflexivity.
Qed.

End TransformsBinary64.

(* ===================================================================== *)
(** * The properties at work on the start-up curve *)
(* ===================================================================== *)

Section Instances.

Local Open Scope Q_scope.

Lemma default_curve_ok : curve_ok [(0.0, 0.0); (0.5, 0.5); (1.0, 1.0)].
Proof.
  split.
  - repeat constructor; cbn; lra.
  - intros [|[|[|i]]] p q Hp Hq; cbn in Hp, Hq; simplify_eq; cbn; lra.
Qed.

Lemma default_selection_valid :
  selection_valid {[1%nat]} [(0.0, 0.0); (0.5, 0.5); (1.0, 1.0)].
Proof.
  intros i Hi. apply elem_of_singleton in Hi. subst i. cbn. lia.
Qed.

Lemma on_drag_keeps_curve_witness :
  let self :=
    Simulator2.with_drag_data Simulator2.init (mkDragData (Some 1%nat) 0 0) in
  let event := mkEvent 1000 (-50) 0 in
  curve_ok (Simulator2.points self)
  /\ drag_index_valid (Simulator2.drag_data self) (Simulator2.points self)
  /\ exists self',
       Simulator2.on_drag self event = Some self'
       /\ curve_ok (Simulator2.points self').
Proof.
  intros self event.
  assert (H1 : curve_ok (Simulator2.points self)) by exact default_curve_ok.
  assert (H2 : drag_index_valid (Simulator2.drag_data self)
                                (Simulator2.points self)).
  { intros idx [= <-]. cbn. lia. }
  split; [exact H1|]. split; [exact H2|].
  exact (proj2 on_drag_keeps_curve self event H1 H2).
Defined.

Lemma adjust_selected_outputs_witness :
  let self := Simulator2.with_selected_indices Simulator2.init {[1%nat]} in
  selection_valid (Simulator2.selected_indices self) (Simulator2.points self)
  /\ Forall in_bounds (Simulator2.points self)
  /\ is_Some (Simulator2.increase_all_points self).
Proof.
  intros self.
  assert (H1 : selection_valid (Simulator2.selected_indices self)
                               (Simulator2.points self))
    by exact default_selection_valid.
  assert (H2 : Forall in_bounds (Simulator2.points self))
    by exact (proj1 default_curve_ok).
  split; [exact H1|]. split; [exact H2|].
  destruct (adjust_selected_outputs self H1 H2) as [(self' & Hrun & _) _].
  exists self'. exact Hrun.
Defined.

Lemma locked_low_point_unchanged_witness :
  let self :=
    Simulator2.with_drag_data Simulator2.init (mkDragData (Some 0%nat) 0 0) in
  Simulator2.lock_low_speed self = true
  /\ Simulator2.on_drag self (mkEvent 300 200 0) = Some self.
Proof.
  intros self. split; [reflexivity|].
  exact (proj1 (locked_low_point_unchanged self eq_refl)
               (mkEvent 300 200 0) eq_refl).
Defined.

Lemma coordinates_zip_truncates_witness :
  length (Mouse.coordinates_of Mouse.x_points Mouse.y_points) = 5%nat.
Proof.
  exact (proj2 (proj2 (proj2 (coordinates_zip_truncates
                                Mouse.x_points Mouse.y_points)))
               5%nat eq_refl eq_refl).
Defined.

Lemma update_curve_from_options_presets_witness :
  Simulator2.use_windows_curve Simulator2.init = false
  /\ Simulator2.enable_nonlinear_boost Simulator2.init = false
  /\ Simulator2.enable_acceleration_cap Simulator2.init = false
  /\ Forall2 point_eq
       (Simulator2.points
          (Simulator2.update_curve_from_options Simulator2.init))
       [(0, 0); (0.5, 0.5); (1, 1)].
Proof.
  repeat (split; [reflexivity|]).
  exact (proj1 (proj2 (proj2 (proj2 update_curve_from_options_presets
                                      Simulator2.init)))
               eq_refl eq_refl eq_refl).
Defined.


Lemma get_pointer_devices_order_witness :
  Simulator2.get_pointer_devices
    ["Power Button"; "PS/2 Generic Mouse"; "SynPS/2 Synaptics TouchPad";
     "Optical touchpad"; "Logitech USB Optical Mouse"]%string
  = ["Logitech USB Optical Mouse"; "PS/2 Generic Mouse"; "Optical touchpad";
     "SynPS/2 Synaptics TouchPad"]%string.
Proof.
  exact (proj1 (get_pointer_devices_order
                  ["Power Button"; "PS/2 Generic Mouse";
                   "SynPS/2 Synaptics TouchPad"; "Optical touchpad";
                   "Logitech USB Optical Mouse"]%string)).
Defined.

End Instances.

(* ===================================================================== *)
(** * Further properties of the decoder and of the plot *)
(* ===================================================================== *)

Section DecoderMore.

Import Mouse.

Lemma range0_step (len : nat) :
  (0 < len)%nat ->
  range0 len 8 = 0%nat :: List.map (fun i => (8 + i)%nat) (range0 (len - 8) 8).
Proof.
  intros Hlen. unfold range0.
  assert (E : ((len + 8 - 1) / 8 = S ((len - 8 + 8 - 1) / 8))%nat).
  { destruct (Nat.le_gt_cases 8 len) as [Hge|Hlt].
    - replace (len + 8 - 1)%nat with ((len - 8 + 8 - 1) + 1 * 8)%nat by lia.
      rewrite Nat.div_add by lia. lia.
    - replace (len - 8)%nat with 0%nat by lia.
      rewrite (Nat.div_small (0 + 8 - 1) 8) by lia.
      symmetry. apply (Nat.div_unique _ 8 1 (len - 1)); lia. }
  rewrite E. cbn [seq List.map]. f_equal.
  rewrite <- seq_shift, !List.map_map.
  apply map_ext. intros k. lia.
Qed.

(** The decoder consumes its input eight bytes at a time. *)
Lemma hex_to_decimal_step (T : list byte) :
  T <> [] ->
  hex_to_decimal T = decode_chunk (take 8 T) :: hex_to_decimal (drop 8 T).
Proof.
  intros HT. unfold hex_to_decimal.
  rewrite range0_step by (destruct T; [congruence|cbn; lia]).
  cbn [List.map]. apply (f_equal2 cons); [reflexivity|].
  rewrite length_drop, List.map_map. apply map_ext. intros i.
  unfold slice. f_equal.
  replace (8 + i + 8 - (8 + i))%nat with (i + 8 - i)%nat by lia.
  rewrite drop_drop. reflexivity.
Qed.

Lemma hex_to_decimal_length_any (T : list byte) :
  length (hex_to_decimal T) = ((length T + 7) / 8)%nat.
Proof.
  unfold hex_to_decimal, range0. rewrite !length_map, length_seq.
  f_equal. lia.
Qed.

Lemma hex_to_decimal_nil_iff (T : list byte) :
  hex_to_decimal T = [] <-> T = [].
Proof.
  split; [|intros ->; reflexivity].
  intros H. destruct T as [|b T]; [reflexivity|].
  rewrite hex_to_decimal_step in H by discriminate. discriminate.
Qed.

(** X1.  Decoding distributes over concatenation after a whole number of
    records: the values of [A ++ B] are those of [A] followed by those of
    [B] whenever [A] has a multiple of 8 bytes. *)
Theorem hex_to_decimal_app (A B : list byte) (n : nat) :
  length A = (8 * n)%nat ->
  hex_to_decimal (A ++ B) = hex_to_decimal A ++ hex_to_decimal B.
Proof.
  revert A. induction n as [|n IH]; intros A HA.
  - destruct A; [reflexivity|discriminate].
  - assert (HA8 : (8 <= length A)%nat) by lia.
    rewrite (hex_to_decimal_step (A ++ B))
      by (destruct A; [cbn in HA8; lia|discriminate]).
    rewrite (hex_to_decimal_step A) by (destruct A; [cbn in HA8; lia|discriminate]).
    rewrite take_app_le, drop_app_le by lia.
    rewrite IH by (rewrite length_drop; lia).
    reflexivity.
Qed.

Lemma hex_to_decimal_app_witness :
  hex_to_decimal (smooth_mouse_x_curve ++ [x00; x40; x01])
  = hex_to_decimal smooth_mouse_x_curve ++ hex_to_decimal [x00; x40; x01].
Proof.
  exact (hex_to_decimal_app smooth_mouse_x_curve [x00; x40; x01] 5 eq_refl).
Defined.

Lemma byte_val_inj (b c : byte) : byte_val b = byte_val c -> b = c.
Proof.
  unfold byte_val. intros H. apply N2Z.inj in H.
  enough (E : Some b = Some c) by (injection E; auto).
  rewrite <- (Byte.of_to_N b), <- (Byte.of_to_N c), H. reflexivity.
Qed.

Lemma from_bytes_little_int32 (b0 b1 b2 b3 : byte) :
  from_bytes_little [b0; b1; b2; b3] true
  = (int16_le b2 b3 * 65536 + uint16_le b0 b1)%Z.
Proof.
  pose proof (byte_val_range b0). pose proof (byte_val_range b1).
  pose proof (byte_val_range b2). pose proof (byte_val_range b3).
  unfold from_bytes_little, int16_le, uint16_le.
  cbn [from_bytes_little_unsigned length Nat.eqb negb andb].
  change (8 * Z.of_nat 4)%Z with 32%Z.
  change (2 ^ (32 - 1))%Z with 2147483648%Z.
  change (2 ^ 32)%Z with 4294967296%Z.
  destruct (Z.leb_spec 2147483648
              (byte_val b0 + 256 * (byte_val b1 + 256 *
                 (byte_val b2 + 256 * (byte_val b3 + 256 * 0)))));
    destruct (Z.ltb_spec (byte_val b2 + 256 * byte_val b3) 32768); lia.
Qed.

Lemma record_value_fixed_point (b0 b1 b2 b3 : byte) :
  (record_value b0 b1 b2 b3
   == inject_Z (from_bytes_little [b0; b1; b2; b3] true) / 65536)%Q.
Proof.
  rewrite from_bytes_little_int32. unfold record_value.
  rewrite inject_Z_plus, inject_Z_mult. field.
Qed.

Lemma from_bytes_little_int32_range (b0 b1 b2 b3 : byte) :
  (- 2147483648 <= from_bytes_little [b0; b1; b2; b3] true < 2147483648)%Z.
Proof.
  rewrite from_bytes_little_int32.
  pose proof (byte_val_range b0). pose proof (byte_val_range b1).
  pose proof (byte_val_range b2). pose proof (byte_val_range b3).
  unfold int16_le, uint16_le.
  destruct (Z.ltb_spec (byte_val b2 + 256 * byte_val b3) 32768); lia.
Qed.

Lemma from_bytes_little_int32_inj (b0 b1 b2 b3 c0 c1 c2 c3 : byte) :
  from_bytes_little [b0; b1; b2; b3] true
  = from_bytes_little [c0; c1; c2; c3] true ->
  b0 = c0 /\ b1 = c1 /\ b2 = c2 /\ b3 = c3.
Proof.
  rewrite !from_bytes_little_int32.
  pose proof (byte_val_range b0). pose proof (byte_val_range b1).
  pose proof (byte_val_range b2). pose proof (byte_val_range b3).
  pose proof (byte_val_range c0). pose proof (byte_val_range c1).
  pose proof (byte_val_range c2). pose proof (byte_val_range c3).
  unfold int16_le, uint16_le. intros E.
  assert (byte_val b0 = byte_val c0 /\ byte_val b1 = byte_val c1
          /\ byte_val b2 = byte_val c2 /\ byte_val b3 = byte_val c3)
    as (E0 & E1 & E2 & E3).
  { destruct (Z.ltb_spec (byte_val b2 + 256 * byte_val b3) 32768);
      destruct (Z.ltb_spec (byte_val c2 + 256 * byte_val c3) 32768); lia. }
  auto using byte_val_inj.
Qed.

(** X2.  Every value decoded from a whole record is a signed 16.16
    fixed-point number: it equals the signed 32-bit little-endian integer
    held in the record's first four bytes divided by 65536, and so lies
    in [-32768, 32768). *)
Theorem hex_to_decimal_fixed_point (T : list byte) (n i : nat) :
  length T = (8 * n)%nat -> (i < n)%nat ->
  exists (b0 b1 b2 b3 : byte) (v : Q),
    T !! (8 * i)%nat = Some b0 /\ T !! (8 * i + 1)%nat = Some b1
    /\ T !! (8 * i + 2)%nat = Some b2 /\ T !! (8 * i + 3)%nat = Some b3
    /\ hex_to_decimal T !! i = Some v
    /\ (v == inject_Z (from_bytes_little [b0; b1; b2; b3] true) / 65536)%Q
    /\ (- 32768 <= v)%Q /\ (v < 32768)%Q.
Proof.
  intros HT Hi.
  destruct (hex_to_decimal_record T n i HT Hi)
    as (b0 & b1 & b2 & b3 & H0 & H1 & H2 & H3 & Hv).
  exists b0, b1, b2, b3, (record_value b0 b1 b2 b3).
  repeat (split; [assumption|]).
  pose proof (record_value_fixed_point b0 b1 b2 b3) as E.
  pose proof (from_bytes_little_int32_range b0 b1 b2 b3) as [Hlo Hhi].
  split; [exact E|]. rewrite E.
  set (k := from_bytes_little [b0; b1; b2; b3] true) in *.
  assert (Hlo' : (inject_Z (-2147483648) <= inject_Z k)%Q)
    by (rewrite <- Zle_Qle; exact Hlo).
  assert (Hhi' : (inject_Z k < inject_Z 2147483648)%Q)
    by (rewrite <- Zlt_Qlt; exact Hhi).
  split.
  - apply Qle_shift_div_l; [reflexivity|].
    eapply Qle_trans; [|exact Hlo']. discriminate.
  - apply Qlt_shift_div_r; [reflexivity|].
    eapply Qlt_le_trans; [exact Hhi'|]. discriminate.
Qed.

Lemma hex_to_decimal_fixed_point_witness :
  exists (b0 b1 b2 b3 : byte) (v : Q),
    smooth_mouse_y_curve !! (8 * 4)%nat = Some b0
    /\ smooth_mouse_y_curve !! (8 * 4 + 1)%nat = Some b1
    /\ smooth_mouse_y_curve !! (8 * 4 + 2)%nat = Some b2
    /\ smooth_mouse_y_curve !! (8 * 4 + 3)%nat = Some b3
    /\ hex_to_decimal smooth_mouse_y_curve !! 4%nat = Some v
    /\ (v == inject_Z (from_bytes_little [b0; b1; b2; b3] true) / 65536)%Q
    /\ (- 32768 <= v)%Q /\ (v < 32768)%Q.
Proof.
  apply (hex_to_decimal_fixed_point smooth_mouse_y_curve 5 4);
    [reflexivity|lia].
Defined.

(** X3.  Nothing but the padding is lost: two whole tables whose values
    at index [i] are equal agree on the four bytes [8i .. 8i+3]. *)
Theorem hex_to_decimal_injective (T T' : list byte) (n m i : nat) (v v' : Q) :
  length T = (8 * n)%nat -> length T' = (8 * m)%nat ->
  hex_to_decimal T !! i = Some v -> hex_to_decimal T' !! i = Some v' ->
  (v == v')%Q ->
  forall k, (k < 4)%nat -> T !! (8 * i + k)%nat = T' !! (8 * i + k)%nat.
Proof.
  intros HT HT' Hv Hv' E k Hk.
  assert (Hi : (i < n)%nat).
  { apply lookup_lt_Some in Hv.
    rewrite (hex_to_decimal_length T n HT) in Hv. exact Hv. }
  assert (Hi' : (i < m)%nat).
  { apply lookup_lt_Some in Hv'.
    rewrite (hex_to_decimal_length T' m HT') in Hv'. exact Hv'. }
  destruct (hex_to_decimal_record T n i HT Hi)
    as (b0 & b1 & b2 & b3 & H0 & H1 & H2 & H3 & Hr).
  destruct (hex_to_decimal_record T' m i HT' Hi')
    as (c0 & c1 & c2 & c3 & G0 & G1 & G2 & G3 & Hr').
  rewrite Hv in Hr. rewrite Hv' in Hr'.
  injection Hr as ->. injection Hr' as ->.
  rewrite !record_value_fixed_point in E.
  assert (Ek : from_bytes_little [b0; b1; b2; b3] true
               = from_bytes_little [c0; c1; c2; c3] true).
  { apply inject_Z_injective.
    apply (Qmult_inj_r _ _ (/ 65536)%Q); [discriminate|exact E]. }
  apply from_bytes_little_int32_inj in Ek as (-> & -> & -> & ->).
  destruct k as [|[|[|[|k]]]]; try lia;
    rewrite ?Nat.add_0_r; congruence.
Qed.

Lemma hex_to_decimal_injective_witness :
  smooth_mouse_x_curve !! (8 * 0 + 2)%nat
  = smooth_mouse_y_curve !! (8 * 0 + 2)%nat.
Proof.
  eapply (fun v v' Hx Hy E =>
            hex_to_decimal_injective smooth_mouse_x_curve
              smooth_mouse_y_curve 5 5 0 v v' eq_refl eq_refl Hx Hy E
              2 ltac:(lia)); reflexivity.
Defined.

End DecoderMore.

Section Plot.

Import Mouse.
Variable fmt2f : Q -> string.

Lemma graph_segments_cons2 (p1 p2 : Q * Q) (rest : list (Q * Q)) :
  graph_segments fmt2f (p1 :: p2 :: rest)
  = create_line (offset_x + fst p1 * scale_x)%Q
                (offset_y - snd p1 * scale_y)%Q
                (offset_x + fst p2 * scale_x)%Q
                (offset_y - snd p2 * scale_y)%Q
                "blue" (Some 2%Z) []
    :: graph_label fmt2f p1 :: graph_segments fmt2f (p2 :: rest).
Proof. reflexivity. Qed.

Lemma line_ends_cons (item : CanvasItem) (items : list CanvasItem) :
  line_ends (item :: items) = line_ends [item] ++ line_ends items.
Proof. unfold line_ends. cbn [flat_map]. rewrite app_nil_r. reflexivity. Qed.

Lemma text_positions_cons (item : CanvasItem) (items : list CanvasItem) :
  text_positions (item :: items)
  = text_positions [item] ++ text_positions items.
Proof.
  unfold text_positions. cbn [flat_map]. rewrite app_nil_r. reflexivity.
Qed.

Lemma oval_boxes_cons (item : CanvasItem) (items : list CanvasItem) :
  oval_boxes (item :: items) = oval_boxes [item] ++ oval_boxes items.
Proof. unfold oval_boxes. cbn [flat_map]. rewrite app_nil_r. reflexivity. Qed.

Lemma graph_segments_line_ends (points : list (Q * Q)) :
  line_ends (graph_segments fmt2f points)
  = zip (List.map graph_position points)
        (List.map graph_position (tail points)).
Proof.
  induction points as [|p1 [|p2 rest] IH]; try reflexivity.
  rewrite graph_segments_cons2, line_ends_cons,
    (line_ends_cons (graph_label fmt2f p1)), IH.
  reflexivity.
Qed.

Lemma graph_segments_text_positions (points : list (Q * Q)) :
  text_positions (graph_segments fmt2f points)
  = List.map graph_position (removelast points).
Proof.
  induction points as [|p1 [|p2 rest] IH]; try reflexivity.
  rewrite graph_segments_cons2, text_positions_cons,
    (text_positions_cons (graph_label fmt2f p1)), IH.
  reflexivity.
Qed.

Lemma graph_segments_no_ovals (points : list (Q * Q)) :
  oval_boxes (graph_segments fmt2f points) = [].
Proof.
  induction points as [|p1 [|p2 rest] IH]; try reflexivity.
  rewrite graph_segments_cons2, oval_boxes_cons,
    (oval_boxes_cons (graph_label fmt2f p1)), IH.
  reflexivity.
Qed.

Lemma line_ends_app (a b : list CanvasItem) :
  line_ends (a ++ b) = line_ends a ++ line_ends b.
Proof. apply flat_map_app. Qed.

Lemma text_positions_app (a b : list CanvasItem) :
  text_positions (a ++ b) = text_positions a ++ text_positions b.
Proof. apply flat_map_app. Qed.

Lemma removelast_last {B : Type} (l : list B) (x : B) :
  last l = Some x -> removelast l ++ [x] = l.
Proof.
  induction l as [|y [|z l] IH]; intros H; try discriminate.
  - injection H as ->. reflexivity.
  - cbn [removelast app]. f_equal. apply IH. exact H.
Qed.

Lemma draw_graph_items (points : list (Q * Q)) :
  points <> [] ->
  exists items,
    draw_graph fmt2f points = Returned items
    /\ line_ends items
       = zip (List.map graph_position points)
             (List.map graph_position (tail points))
    /\ text_positions items = List.map graph_position points
    /\ oval_boxes items = [].
Proof.
  intros Hne. unfold draw_graph.
  destruct (last points) as [p_last|] eqn:Hlast;
    [|apply last_None in Hlast; contradiction].
  eexists. split; [reflexivity|]. split; [|split].
  - rewrite line_ends_app, graph_segments_line_ends.
    cbn [line_ends flat_map graph_label app]. apply app_nil_r.
  - rewrite text_positions_app, graph_segments_text_positions.
    cbn [text_positions flat_map graph_label app].
    change [(offset_x + fst p_last * scale_x,
             offset_y - snd p_last * scale_y)%Q]
      with (List.map graph_position [p_last]).
    rewrite <- map_app, (removelast_last _ _ Hlast). reflexivity.
  - unfold oval_boxes at 1. rewrite flat_map_app.
    change (flat_map _ (graph_segments fmt2f points))
      with (oval_boxes (graph_segments fmt2f points)).
    rewrite graph_segments_no_ovals. reflexivity.
Qed.

(** X4.  [draw_graph] on an empty list raises [IndexError] (from
    [points[-1]]); on a non-empty list it draws one segment per adjacent
    pair, from the position of point [i] to that of point [i + 1], and
    one label per point at the point's position, the position of [(x, y)]
    being [(50 + 10 x, 450 - 10 y)]: [2 n - 1] items for [n] points,
    none of them an oval. *)
Theorem draw_graph_outcome (points : list (Q * Q)) :
  (points = [] -> draw_graph fmt2f points = Raised IndexError)
  /\ (points <> [] ->
      exists items,
        draw_graph fmt2f points = Returned items
        /\ line_ends items
           = zip (List.map graph_position points)
                 (List.map graph_position (tail points))
        /\ text_positions items = List.map graph_position points
        /\ oval_boxes items = []
        /\ length items = (2 * length points - 1)%nat).
Proof.
  split; [intros ->; reflexivity|]. intros Hne.
  destruct (draw_graph_items points Hne) as (items & Hret & Hl & Ht & Ho).
  exists items. repeat (split; [assumption|]).
  unfold draw_graph in Hret.
  destruct (last points) as [p_last|]; [|discriminate].
  injection Hret as <-. rewrite length_app. cbn [length].
  clear Hl Ht Ho p_last.
  assert (Hseg : forall pts : list (Q * Q),
             length (graph_segments fmt2f pts)
             = (2 * (length pts - 1))%nat).
  { intros pts. induction pts as [|p1 [|p2 rest] IH]; try reflexivity.
    rewrite graph_segments_cons2. cbn [length] in *. rewrite IH. lia. }
  rewrite Hseg. destruct points; [contradiction|cbn [length]; lia].
Qed.

Lemma zip_nil_iff {B C : Type} (xs : list B) (ys : list C) :
  zip xs ys = [] <-> xs = [] \/ ys = [].
Proof.
  destruct xs, ys; cbn; split; auto; try discriminate.
  intros [?|?]; discriminate.
Qed.

(** X5.  Plotting two byte tables raises [IndexError] exactly when one of
    the tables is empty; otherwise it completes and labels as many points
    as the table with fewer started records has records. *)
Theorem plot_outcome (x_curve y_curve : list byte) :
  (plot fmt2f x_curve y_curve = Raised IndexError
   <-> x_curve = [] \/ y_curve = [])
  /\ (x_curve <> [] -> y_curve <> [] ->
      exists items,
        plot fmt2f x_curve y_curve = Returned items
        /\ length (text_positions items)
           = Nat.min ((length x_curve + 7) / 8) ((length y_curve + 7) / 8)
        /\ length (line_ends items) = pred (length (text_positions items))).
Proof.
  unfold plot.
  set (pts := zip (hex_to_decimal x_curve) (hex_to_decimal y_curve)).
  assert (Hnil : pts = [] <-> x_curve = [] \/ y_curve = []).
  { unfold pts. rewrite zip_nil_iff, !hex_to_decimal_nil_iff. reflexivity. }
  assert (Hempty : pts = [] -> draw_graph fmt2f pts = Raised IndexError)
    by (intros ->; reflexivity).
  pose proof (draw_graph_items pts) as Hfull. split.
  - split.
    + intros Hraise. apply Hnil.
      destruct pts as [|p rest] eqn:E; [reflexivity|].
      destruct (Hfull ltac:(discriminate)) as (items & Hret & _).
      congruence.
    + intros H. apply Hempty, Hnil, H.
  - intros Hx Hy.
    destruct (Hfull ltac:(rewrite Hnil; tauto))
      as (items & Hret & Hlines & Htexts & _).
    exists items. split; [exact Hret|]. split.
    + rewrite Htexts, length_map. unfold pts.
      rewrite zip_length, !hex_to_decimal_length_any. reflexivity.
    + rewrite Hlines, Htexts, zip_length, !length_map.
      destruct pts as [|p rest]; cbn [tail length]; lia.
Qed.

End Plot.

Section PlotInstances.

Import Mouse.

Lemma draw_graph_outcome_witness :
  exists items,
    draw_graph (fun _ => EmptyString) coordinates = Returned items
    /\ length (text_positions items) = 5%nat.
Proof.
  destruct (proj2 (draw_graph_outcome (fun _ => EmptyString) coordinates)
                  ltac:(discriminate))
    as (items & Hret & _ & Htexts & _).
  exists items. split; [exact Hret|]. rewrite Htexts. reflexivity.
Defined.

Lemma plot_outcome_witness :
  exists items,
    plot (fun _ => EmptyString) smooth_mouse_x_curve smooth_mouse_y_curve
    = Returned items.
Proof.
  destruct (proj2 (plot_outcome (fun _ => EmptyString)
                     smooth_mouse_x_curve smooth_mouse_y_curve)
                  ltac:(discriminate) ltac:(discriminate))
    as (items & Hret & _).
  exists items. exact Hret.
Defined.

End PlotInstances.

(* ===================================================================== *)
(** * The drawing area *)
(* ===================================================================== *)

Section DrawingArea.

Local Open Scope Q_scope.

Lemma canvas_coords_1 (x y : Q) :
  fst (Simulator.to_canvas_coords x y) == 500 * x
  /\ snd (Simulator.to_canvas_coords x y) == 500 - 500 * y / 3.
Proof.
  unfold Simulator.to_canvas_coords, Simulator.CANVAS_WIDTH,
    Simulator.CANVAS_HEIGHT, Simulator.X_MIN, Simulator.X_MAX,
    Simulator.Y_MIN, Simulator.Y_MAX.
  cbn [fst snd]. split; field.
Qed.

Lemma canvas_coords_2 (x y : Q) :
  fst (Simulator2.to_canvas_coords x y) == 20 + 460 * x
  /\ snd (Simulator2.to_canvas_coords x y) == 480 - 460 * y / 3.
Proof.
  unfold Simulator2.to_canvas_coords, Simulator2.CANVAS_WIDTH,
    Simulator2.CANVAS_HEIGHT, Simulator2.MARGIN, Simulator2.X_MIN,
    Simulator2.X_MAX, Simulator2.Y_MIN, Simulator2.Y_MAX.
  cbn [fst snd]. split; field.
Qed.

(** X6.  Every point within the declared bounds is rendered inside the
    drawing area: the whole 500 x 500 canvas in [simulator.py], the
    canvas less a margin of 20 in [simulator2.py].  Rendering keeps the
    order of the points: a larger input is never rendered further left
    and a larger output never further down. *)
Theorem in_bounds_rendered_inside (pt pt' : point) :
  (in_bounds pt ->
   (0 <= fst (Simulator.to_canvas_coords (fst pt) (snd pt)) <= 500
    /\ 0 <= snd (Simulator.to_canvas_coords (fst pt) (snd pt)) <= 500)
   /\ (20 <= fst (Simulator2.to_canvas_coords (fst pt) (snd pt)) <= 480
       /\ 20 <= snd (Simulator2.to_canvas_coords (fst pt) (snd pt))
          <= 480))
  /\ (fst pt <= fst pt' ->
      fst (Simulator.to_canvas_coords (fst pt) (snd pt))
      <= fst (Simulator.to_canvas_coords (fst pt') (snd pt'))
      /\ fst (Simulator2.to_canvas_coords (fst pt) (snd pt))
         <= fst (Simulator2.to_canvas_coords (fst pt') (snd pt')))
  /\ (snd pt <= snd pt' ->
      snd (Simulator.to_canvas_coords (fst pt') (snd pt'))
      <= snd (Simulator.to_canvas_coords (fst pt) (snd pt))
      /\ snd (Simulator2.to_canvas_coords (fst pt') (snd pt'))
         <= snd (Simulator2.to_canvas_coords (fst pt) (snd pt))).
Proof.
  destruct pt as [x y], pt' as [x' y']. unfold in_bounds. cbn [fst snd].
  destruct (canvas_coords_1 x y) as [E1 E2].
  destruct (canvas_coords_2 x y) as [F1 F2].
  destruct (canvas_coords_1 x' y') as [E1' E2'].
  destruct (canvas_coords_2 x' y') as [F1' F2'].
  rewrite E1, E2, F1, F2, E1', E2', F1', F2'.
  assert (D : forall v : Q, v / 3 == v * (1 # 3)) by (intros v; field).
  rewrite !D.
  repeat split; intros; repeat match goal with
                               | H : _ /\ _ |- _ => destruct H
                               end; lra.
Qed.

End DrawingArea.

Section Grid.

Local Open Scope Q_scope.

(** X7.  On a fresh canvas both editors draw 22 grid lines that mark the
    tenths of the two ranges.  In [simulator2.py] line [i] runs from the
    rendered position of (i/10, 3) to that of (i/10, 0) and line
    [11 + i] from that of (0, 3 - 3i/10) to that of (1, 3 - 3i/10);
    [simulator.py] draws the same two lines as numbers [2i] and
    [2i + 1]. *)
Theorem draw_grid_marks_tenths (self : Simulator2.CurveEditor) (i : nat) :
  (i <= 10)%nat ->
  let t := inject_Z (Z.of_nat i) / 10 in
  length (line_ends (Simulator2.draw_grid self [])) = 22%nat
  /\ length (line_ends (Simulator.draw_grid [])) = 22%nat
  /\ (exists a b c d,
        line_ends (Simulator2.draw_grid self []) !! i = Some (a, b)
        /\ line_ends (Simulator2.draw_grid self []) !! (11 + i)%nat
           = Some (c, d)
        /\ point_eq a (Simulator2.to_canvas_coords t 3)
        /\ point_eq b (Simulator2.to_canvas_coords t 0)
        /\ point_eq c (Simulator2.to_canvas_coords 0 (3 - 3 * t))
        /\ point_eq d (Simulator2.to_canvas_coords 1 (3 - 3 * t)))
  /\ (exists a b c d,
        line_ends (Simulator.draw_grid []) !! (2 * i)%nat = Some (a, b)
        /\ line_ends (Simulator.draw_grid []) !! (2 * i + 1)%nat
           = Some (c, d)
        /\ point_eq a (Simulator.to_canvas_coords t 3)
        /\ point_eq b (Simulator.to_canvas_coords t 0)
        /\ point_eq c (Simulator.to_canvas_coords 0 (3 - 3 * t))
        /\ point_eq d (Simulator.to_canvas_coords 1 (3 - 3 * t))).
Proof.
  intros Hi t. split; [reflexivity|]. split; [reflexivity|]. subst t.
  do 11 (destruct i as [|i];
         [split; (eexists _, _, _, _;
                  split; [reflexivity|]; split; [reflexivity|];
                  repeat split; reflexivity)|]).
  lia.
Qed.

Lemma draw_grid_marks_tenths_witness :
  exists a b,
    line_ends (Simulator2.draw_grid Simulator2.init []) !! 5%nat
    = Some (a, b)
    /\ point_eq a (Simulator2.to_canvas_coords (inject_Z 5 / 10) 3)
    /\ point_eq b (Simulator2.to_canvas_coords (inject_Z 5 / 10) 0).
Proof.
  destruct (draw_grid_marks_tenths Simulator2.init 5 ltac:(lia))
    as (_ & _ & (a & b & c & d & Ha & _ & Hpa & Hpb & _) & _).
  exists a, b. split; [exact Ha|]. split; [exact Hpa|exact Hpb].
Defined.

End Grid.

(* ===================================================================== *)
(** * What [draw_curve] and [draw_grid] leave on the canvas *)
(* ===================================================================== *)

Section CanvasBookkeeping.

Lemma canvas_delete_app (tag : string) (a b : list CanvasItem) :
  canvas_delete tag (a ++ b) = canvas_delete tag a ++ canvas_delete tag b.
Proof. apply List.filter_app. Qed.

Lemma canvas_delete_tagged (tag : string) (items : list CanvasItem) :
  Forall (fun item => has_tag tag item = true) items ->
  canvas_delete tag items = [].
Proof.
  induction 1 as [|item items Ht _ IH]; [reflexivity|].
  unfold canvas_delete in *. cbn [List.filter]. rewrite Ht. exact IH.
Qed.

Lemma canvas_delete_untagged (tag : string) (items : list CanvasItem) :
  Forall (fun item => has_tag tag item = false) items ->
  canvas_delete tag items = items.
Proof.
  induction 1 as [|item items Ht _ IH]; [reflexivity|].
  unfold canvas_delete in *. cbn [List.filter]. rewrite Ht.
  cbn [negb]. f_equal. exact IH.
Qed.

Lemma canvas_delete_clean (tag : string) (canvas : list CanvasItem) :
  Forall (fun item => has_tag tag item = false) (canvas_delete tag canvas).
Proof.
  apply Forall_forall. intros item Hin.
  apply list_elem_of_In, filter_In in Hin as [_ Hn].
  destruct (has_tag tag item); [discriminate|reflexivity].
Qed.

Lemma filter_tag_tagged (tag : string) (items : list CanvasItem) :
  Forall (fun item => has_tag tag item = true) items ->
  List.filter (has_tag tag) items = items.
Proof.
  induction 1 as [|item items Ht _ IH]; [reflexivity|].
  cbn [List.filter]. rewrite Ht. f_equal. exact IH.
Qed.

Lemma filter_tag_untagged (tag : string) (items : list CanvasItem) :
  Forall (fun item => has_tag tag item = false) items ->
  List.filter (has_tag tag) items = [].
Proof.
  induction 1 as [|item items Ht _ IH]; [reflexivity|].
  cbn [List.filter]. rewrite Ht. exact IH.
Qed.

Lemma Forall_imap {B C : Type} (P : C -> Prop) (f : nat -> B -> C)
    (l : list B) :
  (forall i x, P (f i x)) -> Forall P (imap f l).
Proof.
  revert f. induction l as [|x l IH]; intros f Hf; [constructor|].
  cbn [imap]. constructor; [apply Hf|]. apply IH. intros i y. apply Hf.
Qed.

Lemma curve_items_tagged_1 (pts : list point) :
  Forall (fun item => has_tag "curve" item = true)
         (Simulator.curve_lines pts ++ imap Simulator.curve_oval pts).
Proof.
  apply Forall_app. split.
  - induction pts as [|p1 [|p2 rest] IH]; try constructor; [reflexivity|].
    exact IH.
  - apply Forall_imap. intros i x. reflexivity.
Qed.

Lemma curve_items_tagged_2 (sel : gset nat) (pts : list point) :
  Forall (fun item => has_tag "curve" item = true)
         (Simulator2.curve_lines pts
          ++ imap (Simulator2.curve_oval sel) pts).
Proof.
  apply Forall_app. split.
  - induction pts as [|p1 [|p2 rest] IH]; try constructor; [reflexivity|].
    exact IH.
  - apply Forall_imap. intros i x. unfold Simulator2.curve_oval.
    destruct (decide (i ∈ sel)); reflexivity.
Qed.

Lemma curve_items_not_grid (sel : gset nat) (pts : list point) :
  Forall (fun item => has_tag "grid" item = false)
         (Simulator2.curve_lines pts
          ++ imap (Simulator2.curve_oval sel) pts).
Proof.
  apply Forall_app. split.
  - induction pts as [|p1 [|p2 rest] IH]; try constructor; [reflexivity|].
    exact IH.
  - apply Forall_imap. intros i x. unfold Simulator2.curve_oval.
    destruct (decide (i ∈ sel)); reflexivity.
Qed.

Lemma draw_grid_split (self : Simulator2.CurveEditor)
    (canvas : list CanvasItem) :
  Simulator2.draw_grid self canvas
  = canvas_delete "grid" canvas ++ Simulator2.draw_grid self [].
Proof. reflexivity. Qed.

Lemma grid_items_tagged (self : Simulator2.CurveEditor) :
  Forall (fun item => has_tag "grid" item = true)
         (Simulator2.draw_grid self [])
  /\ Forall (fun item => has_tag "curve" item = false)
            (Simulator2.draw_grid self []).
Proof.
  unfold Simulator2.draw_grid.
  cbn [canvas_delete List.filter List.map seq app].
  split; repeat constructor.
Qed.

Lemma Forall_canvas_delete (P : CanvasItem -> Prop) (tag : string)
    (items : list CanvasItem) :
  Forall P items -> Forall P (canvas_delete tag items).
Proof.
  intros H. apply Forall_forall. intros item Hin.
  apply list_elem_of_In, filter_In in Hin as [Hin _].
  apply list_elem_of_In in Hin. revert item Hin. apply Forall_forall, H.
Qed.

(** X8.  Redrawing never piles up stale items.  [draw_curve] leaves on
    the canvas, among the items tagged "curve", exactly the lines and
    ovals of the current points, and leaves every other item in place;
    drawing one curve after another gives the same canvas as drawing the
    second alone (both editors).  In [simulator2.py] the same holds for
    [draw_grid] and the tag "grid", and drawing the curve keeps the
    grid. *)
Theorem draw_curve_replaces_curve (canvas : list CanvasItem) :
  (forall self self' : Simulator.CurveEditor,
      Simulator.draw_curve self' (Simulator.draw_curve self canvas)
      = Simulator.draw_curve self' canvas
      /\ List.filter (has_tag "curve") (Simulator.draw_curve self canvas)
         = Simulator.curve_lines (Simulator.points self)
           ++ imap Simulator.curve_oval (Simulator.points self)
      /\ canvas_delete "curve" (Simulator.draw_curve self canvas)
         = canvas_delete "curve" canvas)
  /\ (forall self self' : Simulator2.CurveEditor,
      Simulator2.draw_curve self' (Simulator2.draw_curve self canvas)
      = Simulator2.draw_curve self' canvas
      /\ List.filter (has_tag "curve") (Simulator2.draw_curve self canvas)
         = Simulator2.curve_lines (Simulator2.points self)
           ++ imap (Simulator2.curve_oval (Simulator2.selected_indices self))
                   (Simulator2.points self)
      /\ canvas_delete "curve" (Simulator2.draw_curve self canvas)
         = canvas_delete "curve" canvas
      /\ Simulator2.draw_grid self' (Simulator2.draw_grid self canvas)
         = Simulator2.draw_grid self' canvas
      /\ List.filter (has_tag "grid")
           (Simulator2.draw_curve self' (Simulator2.draw_grid self canvas))
         = List.filter (has_tag "grid") (Simulator2.draw_grid self canvas)).
Proof.
  split.
  - intros self self'.
    pose proof (curve_items_tagged_1 (Simulator.points self)) as Ht.
    pose proof (canvas_delete_clean "curve" canvas) as Hc.
    unfold Simulator.draw_curve. split; [|split].
    + rewrite canvas_delete_app, (canvas_delete_tagged _ _ Ht), app_nil_r.
      rewrite (canvas_delete_untagged _ _ Hc). reflexivity.
    + rewrite List.filter_app, (filter_tag_untagged _ _ Hc).
      rewrite (filter_tag_tagged _ _ Ht). reflexivity.
    + rewrite canvas_delete_app, (canvas_delete_tagged _ _ Ht), app_nil_r.
      apply (canvas_delete_untagged _ _ Hc).
  - intros self self'.
    pose proof (curve_items_tagged_2 (Simulator2.selected_indices self)
                  (Simulator2.points self)) as Ht.
    pose proof (canvas_delete_clean "curve" canvas) as Hc.
    pose proof (canvas_delete_clean "grid" canvas) as Hg.
    unfold Simulator2.draw_curve. split; [|split; [|split; [|split]]].
    + rewrite canvas_delete_app, (canvas_delete_tagged _ _ Ht), app_nil_r.
      rewrite (canvas_delete_untagged _ _ Hc). reflexivity.
    + rewrite List.filter_app, (filter_tag_untagged _ _ Hc).
      rewrite (filter_tag_tagged _ _ Ht). reflexivity.
    + rewrite canvas_delete_app, (canvas_delete_tagged _ _ Ht), app_nil_r.
      apply (canvas_delete_untagged _ _ Hc).
    + destruct (grid_items_tagged self) as [Hgt _].
      rewrite (draw_grid_split self' (Simulator2.draw_grid self canvas)).
      rewrite (draw_grid_split self canvas), canvas_delete_app.
      rewrite (canvas_delete_tagged _ _ Hgt), app_nil_r.
      rewrite (canvas_delete_untagged _ _ Hg). reflexivity.
    + destruct (grid_items_tagged self) as [_ Hgc].
      rewrite (draw_grid_split self canvas).
      rewrite List.filter_app.
      rewrite (filter_tag_untagged "grid" _
                 (curve_items_not_grid (Simulator2.selected_indices self')
                    (Simulator2.points self'))).
      rewrite app_nil_r, canvas_delete_app, !List.filter_app.
      rewrite (canvas_delete_untagged "curve" _ Hgc).
      rewrite (filter_tag_untagged "grid" _
                 (Forall_canvas_delete _ "curve" _ Hg)).
      rewrite (filter_tag_untagged "grid" _ Hg). reflexivity.
Qed.

End CanvasBookkeeping.

Section CurveGeometry.

Local Open Scope Q_scope.
Import Simulator2.

Lemma curve_lines_cons2 (p1 p2 : point) (rest : list point) :
  curve_lines (p1 :: p2 :: rest)
  = create_line (fst (rendered p1)) (snd (rendered p1))
                (fst (rendered p2)) (snd (rendered p2))
                "blue" (Some 2%Z) ["curve"%string]
    :: curve_lines (p2 :: rest).
Proof. reflexivity. Qed.

Lemma curve_lines_line_ends (pts : list point) :
  line_ends (curve_lines pts)
  = zip (List.map rendered pts) (List.map rendered (tail pts)).
Proof.
  induction pts as [|p1 [|p2 rest] IH]; try reflexivity.
  rewrite curve_lines_cons2, line_ends_cons, IH. reflexivity.
Qed.

Lemma curve_lines_no_ovals (pts : list point) :
  oval_boxes (curve_lines pts) = [] /\ oval_outlines (curve_lines pts) = [].
Proof.
  induction pts as [|p1 [|p2 rest] [IH1 IH2]]; try (split; reflexivity).
  rewrite curve_lines_cons2. split; [exact IH1|exact IH2].
Qed.

Lemma ovals_of_imap (f : nat -> point -> CanvasItem)
    (box : point -> (Q * Q) * (Q * Q)) (outline : nat -> string * option Z)
    (pts : list point) :
  (forall i pt, oval_boxes [f i pt] = [box pt]) ->
  (forall i pt, oval_outlines [f i pt] = [outline i]) ->
  (forall i pt, line_ends [f i pt] = []) ->
  oval_boxes (imap f pts) = List.map box pts
  /\ oval_outlines (imap f pts) = imap (fun i _ => outline i) pts
  /\ line_ends (imap f pts) = [].
Proof.
  revert f outline.
  induction pts as [|pt pts IH]; intros f outline Hb Ho Hl;
    [repeat split; reflexivity|].
  destruct (IH (f ∘ S) (outline ∘ S)) as (IH1 & IH2 & IH3).
  { intros i p. apply Hb. } { intros i p. apply Ho. } { intros i p. apply Hl. }
  cbn [imap List.map]. split; [|split].
  - unfold oval_boxes in *. cbn [flat_map].
    specialize (Hb 0%nat pt). cbn [flat_map] in Hb.
    rewrite app_nil_r in Hb. rewrite Hb, IH1. reflexivity.
  - unfold oval_outlines in *. cbn [flat_map].
    specialize (Ho 0%nat pt). cbn [flat_map] in Ho.
    rewrite app_nil_r in Ho. rewrite Ho, IH2. reflexivity.
  - unfold line_ends in *. cbn [flat_map].
    specialize (Hl 0%nat pt). cbn [flat_map] in Hl.
    rewrite app_nil_r in Hl. rewrite Hl, IH3. reflexivity.
Qed.

Lemma curve_ovals (sel : gset nat) (pts : list point) :
  oval_boxes (imap (curve_oval sel) pts) = List.map oval_box pts
  /\ oval_outlines (imap (curve_oval sel) pts)
     = imap (fun i _ => oval_outline sel i) pts
  /\ line_ends (imap (curve_oval sel) pts) = [].
Proof.
  apply ovals_of_imap; intros i pt; unfold curve_oval, oval_outline;
    destruct (decide (i ∈ sel)); reflexivity.
Qed.

Lemma square_sum_bound (a b : Q) :
  a * a + b * b <= 6 * 6 -> (-6 <= a /\ a <= 6) /\ (-6 <= b /\ b <= 6).
Proof.
  intros H.
  assert (Ha : 0 <= a * a) by nra.
  assert (Hb : 0 <= b * b) by nra.
  assert (Hbound : forall c, c * c <= 6 * 6 -> -6 <= c /\ c <= 6).
  { intros c Hc. split.
    - destruct (Qlt_le_dec c (-6)) as [Hlt|Hge]; [|exact Hge].
      exfalso.
      assert (0 < (-6 - c) * (6 - c)) by (apply Qmult_lt_0_compat; lra).
      lra.
    - destruct (Qlt_le_dec 6 c) as [Hlt|Hge]; [|exact Hge].
      exfalso.
      assert (0 < (c - 6) * (c + 6)) by (apply Qmult_lt_0_compat; lra).
      lra. }
  split; apply Hbound; lra.
Qed.

Lemma near_inside_box (x y : Q) (pt : point) :
  near x y pt = true ->
  fst (rendered pt) - POINT_RADIUS <= x <= fst (rendered pt) + POINT_RADIUS
  /\ snd (rendered pt) - POINT_RADIUS <= y
     <= snd (rendered pt) + POINT_RADIUS.
Proof.
  unfold near, rendered.
  destruct (to_canvas_coords (fst pt) (snd pt)) as [cx cy].
  cbn [fst snd]. unfold POINT_RADIUS. intros H.
  apply Qle_bool_iff in H.
  change ((cx - x) ^ 2) with ((cx - x) * (cx - x)) in H.
  change ((cy - y) ^ 2) with ((cy - y) * (cy - y)) in H.
  change (6 ^ 2) with (6 * 6) in H.
  apply square_sum_bound in H as [[? ?] [? ?]].
  repeat split; lra.
Qed.

(** X9.  On a fresh canvas [draw_curve] of [simulator2.py] draws the
    polyline through the rendered points (segment [i] joins points [i]
    and [i + 1]) and one oval per point: oval [i] fills the square of
    half-side POINT_RADIUS centred on the rendered position of point
    [i], outlined green with width 3 when [i] is selected and black with
    width 1 otherwise.  Every position at which [find_nearby_point]
    returns [i] lies inside the square of oval [i]. *)
Theorem draw_curve_geometry (self : CurveEditor) :
  line_ends (draw_curve self [])
  = zip (List.map rendered (points self))
        (List.map rendered (tail (points self)))
  /\ oval_boxes (draw_curve self []) = List.map oval_box (points self)
  /\ (forall i pt, points self !! i = Some pt ->
        oval_outlines (draw_curve self []) !! i
        = Some (oval_outline (selected_indices self) i))
  /\ (forall x y i,
        find_nearby_point self x y = Some i ->
        exists pt lo hi,
          points self !! i = Some pt
          /\ oval_boxes (draw_curve self []) !! i = Some (lo, hi)
          /\ fst lo <= x <= fst hi /\ snd lo <= y <= snd hi).
Proof.
  destruct (curve_ovals (selected_indices self) (points self))
    as (Hboxes & Houtlines & Hnolines).
  destruct (curve_lines_no_ovals (points self)) as [Hnb Hno].
  assert (Eb : oval_boxes (draw_curve self [])
               = List.map oval_box (points self)).
  { unfold draw_curve. cbn [canvas_delete List.filter app].
    unfold oval_boxes at 1. rewrite flat_map_app.
    fold (oval_boxes (curve_lines (points self))).
    fold (oval_boxes (imap (curve_oval (selected_indices self))
                           (points self))).
    rewrite Hnb, Hboxes. reflexivity. }
  split; [|split; [exact Eb|split]].
  - unfold draw_curve. cbn [canvas_delete List.filter app].
    rewrite line_ends_app, Hnolines, app_nil_r.
    apply curve_lines_line_ends.
  - intros i pt Hpt. unfold draw_curve.
    cbn [canvas_delete List.filter app].
    unfold oval_outlines at 1. rewrite flat_map_app.
    fold (oval_outlines (curve_lines (points self))).
    fold (oval_outlines (imap (curve_oval (selected_indices self))
                              (points self))).
    rewrite Hno, Houtlines. cbn [app].
    rewrite list_lookup_imap, Hpt. reflexivity.
  - intros x y i Hfind. unfold find_nearby_point in Hfind.
    apply first_index_from_Some in Hfind as (_ & (pt & Hpt & Hnear) & _).
    rewrite Nat.sub_0_r in Hpt.
    exists pt, (fst (oval_box pt)), (snd (oval_box pt)).
    split; [exact Hpt|]. split.
    + rewrite Eb, list_lookup_fmap, Hpt. reflexivity.
    + apply near_inside_box, Hnear.
Qed.

End CurveGeometry.
(* ===================================================================== *)
(** * Applying the curve through xinput *)
(* ===================================================================== *)

Section Xinput.

Variable run : list (list string) -> list string -> run_result.
Variable fmt2f : Q -> string.

Ltac run_cases :=
  repeat match goal with
         | |- context [run ?h ?c] =>
             let E := fresh "Erun" in destruct (run h c) eqn:E
         end.

Ltac quiet_means_done :=
  let Hp := fresh in let He := fresh in
  intros Hp He; first [discriminate Hp|discriminate He|reflexivity].

Ltac escapes_only_on_other :=
  let Hno := fresh in
  intros Hno;
  first [reflexivity
        |exfalso;
         match goal with
         | E : run ?h ?c = OtherError |- _ => exact (Hno h c E)
         end].

Ltac supported_shown :=
  let Hlen := fresh in
  intros Hlen;
  first [exfalso; cbn [length] in Hlen; lia
        |eexists; repeat split; eassumption].

(** Every command issued before the last one completed. *)
Ltac earlier_completed :=
  let j := fresh "j" in let c := fresh "c" in
  let Hj := fresh "Hj" in let Hc := fresh "Hc" in
  intros j c Hj Hc; cbn [length] in Hj;
  destruct j as [|[|[|j]]]; try (exfalso; lia);
  cbn in Hc; injection Hc as <-; cbn [firstn];
  eexists; eassumption.

(** What the last command issued did decides what is printed and
    whether an exception escapes. *)
Ltac last_decides :=
  let c := fresh "c" in let Hc := fresh "Hc" in
  intros c Hc; cbn in Hc; injection Hc as <-; cbn [firstn Nat.sub];
  match goal with
  | E : run ?h ?c = _ |- context [run ?h ?c] => rewrite E
  end;
  cbn [List.last];
  first [split; [reflexivity|reflexivity]
        |split; [reflexivity|split; reflexivity]
        |split; [reflexivity|left; split; reflexivity]
        |split; [reflexivity|right; split; [reflexivity|];
                 split; [|reflexivity];
                 first [left; assumption|right; assumption]]].

Ltac leaf_2 :=
  cbn [issued printed escaped length];
  split; [lia|];
  split; [reflexivity|];
  split; [earlier_completed|];
  split; [last_decides|];
  split; [supported_shown|];
  split; [quiet_means_done|];
  split; [cbn [length]; lia|escapes_only_on_other].

Ltac leaf_1 :=
  cbn [issued printed escaped length];
  split; [lia|];
  split; [reflexivity|];
  split; [earlier_completed|];
  split; [last_decides|];
  split; [quiet_means_done|];
  split; [cbn [length]; lia|escapes_only_on_other].

(** An exception leaves [auto_apply_xinput] only on Linux and only when
    a command fails with something other than [CalledProcessError]. *)
Lemma escaped_needs_OtherError_2 (platform_system : string)
    (str_e : list string -> string) (device_name : string)
    (self : Simulator2.CurveEditor) :
  escaped (Simulator2.auto_apply_xinput platform_system run fmt2f str_e
             device_name self) = true ->
  platform_system = "Linux"%string /\ exists h c, run h c = OtherError.
Proof.
  unfold Simulator2.auto_apply_xinput.
  destruct (String.eqb_spec platform_system "Linux") as [->|Hne];
    cbn [negb]; [|discriminate].
  intros Hesc. split; [reflexivity|]. revert Hesc.
  destruct (run [] ["xinput"; "list-props"; device_name]%string)
    as [props| |] eqn:Elist; cbn [escaped]; try discriminate; eauto.
  destruct (negb _ || negb _); cbn [escaped]; [discriminate|].
  cbn [run_checked app]. run_cases; cbn [escaped]; try discriminate; eauto.
Qed.

Lemma escaped_needs_OtherError_1 (platform_system : string)
    (self : Simulator.CurveEditor) :
  escaped (Simulator.auto_apply_xinput platform_system run fmt2f self)
  = true ->
  platform_system = "Linux"%string /\ exists h c, run h c = OtherError.
Proof.
  unfold Simulator.auto_apply_xinput.
  destruct (String.eqb_spec platform_system "Linux") as [->|Hne];
    cbn [negb]; [|discriminate].
  intros Hesc. split; [reflexivity|]. revert Hesc.
  cbn [run_checked app]. run_cases; cbn [escaped]; try discriminate; eauto.
Qed.

(** X10.  [auto_apply_xinput] of [simulator2.py] runs nothing off Linux.
    On Linux it runs a prefix of four commands, the query of the
    device's properties and three [set-prop]s, in that order, and stops
    at the first that does not complete: every command before the last
    one issued completed, and when the last one completed either all
    four were run or it was the query and its output lacks a required
    property.  What the last command did decides the rest: a message is
    printed when it raised [CalledProcessError] or the properties are
    missing, and the exception escapes when it raised anything else.
    The first [set-prop] passes one value per control point. *)
Theorem auto_apply_xinput_2 (platform_system : string)
    (str_e : list string -> string) (device_name : string)
    (self : Simulator2.CurveEditor) :
  let sh := Simulator2.auto_apply_xinput platform_system run fmt2f str_e
              device_name self in
  let cmds := Simulator2.xinput_commands fmt2f device_name self in
  let k := length (issued sh) in
  (platform_system <> "Linux"%string -> sh = quiet)
  /\ (platform_system = "Linux"%string ->
      (1 <= k <= 4)%nat
      /\ issued sh = take k cmds
      /\ (forall j c, (S j < k)%nat -> cmds !! j = Some c ->
            exists out, run (take j cmds) c = Completed out)
      /\ (forall c, cmds !! (k - 1)%nat = Some c ->
            match run (take (k - 1) cmds) c with
            | Completed out =>
                escaped sh = false
                /\ ((k = 4%nat /\ printed sh = [])
                    \/ (k = 1%nat
                        /\ (contains "libinput Accel Custom Motion Points"
                              out = false
                            \/ contains "libinput Accel Profile Enabled"
                                 out = false)
                        /\ printed sh
                           = ["Error: The required properties are not supported by the device."%string]))
            | CalledProcessError =>
                escaped sh = false
                /\ printed sh
                   = [("Error: Could not apply xinput settings. "
                       ++ str_e c)%string]
            | OtherError => escaped sh = true /\ printed sh = []
            end)
      /\ ((2 <= k)%nat ->
          exists props,
            run [] ["xinput"; "list-props"; device_name]%string
            = Completed props
            /\ contains "libinput Accel Custom Motion Points" props = true
            /\ contains "libinput Accel Profile Enabled" props = true)
      /\ (printed sh = [] -> escaped sh = false -> issued sh = cmds)
      /\ (length (printed sh) <= 1)%nat
      /\ ((forall h c, run h c <> OtherError) -> escaped sh = false))
  /\ (exists values,
        cmds !! 1%nat
        = Some (["xinput"; "set-prop"; device_name;
                 "libinput Accel Custom Motion Points"]%string ++ values)
        /\ length values = length (Simulator2.points self)).
Proof.
  intros sh cmds k. split; [|split].
  - intros Hne. subst sh. unfold Simulator2.auto_apply_xinput.
    apply String.eqb_neq in Hne. rewrite Hne. reflexivity.
  - intros ->. subst k sh cmds.
    unfold Simulator2.auto_apply_xinput, Simulator2.xinput_commands.
    change (("Linux" =? "Linux")%string) with true. cbn [negb].
    destruct (run [] ["xinput"; "list-props"; device_name]%string)
      as [props| |] eqn:Elist.
    + destruct (contains "libinput Accel Custom Motion Points" props)
        eqn:Ea;
        destruct (contains "libinput Accel Profile Enabled" props) eqn:Eb;
        cbn [negb orb]; try leaf_2.
      cbn [run_checked app]. run_cases; leaf_2.
    + leaf_2.
    + leaf_2.
  - subst cmds. unfold Simulator2.xinput_commands. eexists.
    split; [reflexivity|]. apply length_map.
Qed.

(** X11.  [auto_apply_xinput] of [simulator.py] runs nothing off Linux.
    On Linux it runs, without any query, a prefix of three [set-prop]
    commands on the fixed device name and stops at the first that does
    not complete: every command before the last one issued completed,
    and when the last one completed all three were run.  A message is
    printed when the last one raised [CalledProcessError], and the
    exception escapes when it raised anything else.  The second command
    writes the single value "1.0" to the very property the first one
    has just set to the curve's outputs. *)
Theorem auto_apply_xinput_1 (platform_system : string)
    (self : Simulator.CurveEditor) :
  let sh := Simulator.auto_apply_xinput platform_system run fmt2f self in
  let cmds := Simulator.xinput_commands fmt2f self in
  let k := length (issued sh) in
  (platform_system <> "Linux"%string -> sh = quiet)
  /\ (platform_system = "Linux"%string ->
      (1 <= k <= 3)%nat
      /\ issued sh = take k cmds
      /\ (forall j c, (S j < k)%nat -> cmds !! j = Some c ->
            exists out, run (take j cmds) c = Completed out)
      /\ (forall c, cmds !! (k - 1)%nat = Some c ->
            match run (take (k - 1) cmds) c with
            | Completed _ =>
                escaped sh = false /\ k = 3%nat /\ printed sh = []
            | CalledProcessError =>
                escaped sh = false
                /\ printed sh
                   = ["Error: Could not apply xinput settings. Check your device name and property support."%string]
            | OtherError => escaped sh = true /\ printed sh = []
            end)
      /\ (printed sh = [] -> escaped sh = false -> issued sh = cmds)
      /\ (length (printed sh) <= 1)%nat
      /\ ((forall h c, run h c <> OtherError) -> escaped sh = false))
  /\ (exists (property : list string) (values : list string),
        length property = 4%nat
        /\ cmds !! 0%nat = Some (property ++ values)
        /\ cmds !! 1%nat = Some (property ++ ["1.0"%string])
        /\ length values = length (Simulator.points self)).
Proof.
  intros sh cmds k. split; [|split].
  - intros Hne. subst sh. unfold Simulator.auto_apply_xinput.
    apply String.eqb_neq in Hne. rewrite Hne. reflexivity.
  - intros ->. subst k sh cmds.
    unfold Simulator.auto_apply_xinput, Simulator.xinput_commands.
    change (("Linux" =? "Linux")%string) with true. cbn [negb].
    cbn [run_checked app].
    run_cases; leaf_1.
  - subst cmds. unfold Simulator.xinput_commands.
    eexists _, _. split; [|split; [reflexivity|split; [reflexivity|]]].
    + reflexivity.
    + apply length_map.
Qed.

End Xinput.

(* ===================================================================== *)
(** * The mouse handlers *)
(* ===================================================================== *)

Section DragValue.

Local Open Scope Q_scope.

Lemma py_clamp_is_clamp (lo hi lo' hi' v : Q) :
  lo == lo' -> hi == hi' ->
  py_max lo (py_min hi v) == Qmax lo' (Qmin hi' v).
Proof.
  intros El Eh.
  destruct (Q.min_spec hi' v) as [[? F]|[? F]]; rewrite F;
    [destruct (Q.max_spec lo' hi') as [[? G]|[? G]]
    |destruct (Q.max_spec lo' v) as [[? G]|[? G]]];
    rewrite G;
    destruct (py_max_cases lo (py_min hi v)) as [[H1 ->]|[H1 ->]];
    destruct (py_min_cases hi v) as [[H2 E]|[H2 E]];
    rewrite ?E in *; lra.
Qed.

(** The value computed by the four clamping steps of [on_drag]. *)
Lemma clamp_to_neighbours_value (xmin xmax ymin ymax : Q)
    (pts : list point) (idx : nat) (v : Q * Q) :
  xmin == 0 -> xmax == 1 -> ymin == 0 -> ymax == 3 ->
  curve_ok pts -> (idx < length pts)%nat ->
  exists pt,
    clamp_to_neighbours xmin xmax ymin ymax pts idx v = Some pt
    /\ fst pt == Qmax (lower_neighbour pts idx)
                      (Qmin (upper_neighbour pts idx) (fst v))
    /\ snd pt == Qmax 0 (Qmin 3 (snd v))
    /\ 0 <= lower_neighbour pts idx
    /\ lower_neighbour pts idx <= upper_neighbour pts idx
    /\ upper_neighbour pts idx <= 1.
Proof.
  intros Exmin Exmax Eymin Eymax [Hb Hm] Hidx.
  destruct (lookup_lt_is_Some_2 pts idx Hidx) as [cur Hcur].
  pose proof (proj1 (Forall_lookup _ _) Hb _ _ Hcur) as [[Hc0 Hc1] _].
  unfold clamp_to_neighbours, lower_neighbour, upper_neighbour.
  pose proof (py_clamp_is_clamp xmin xmax 0 1 (fst v) Exmin Exmax) as Hx.
  pose proof (py_clamp_is_clamp ymin ymax 0 3 (snd v) Eymin Eymax) as Hy.
  set (x0 := py_max xmin (py_min xmax (fst v))) in *.
  set (y0 := py_max ymin (py_min ymax (snd v))) in *.
  (* the neighbour before *)
  assert (H1 : exists x1 lo,
             (if (0 <? idx)%nat
              then prev ← pts !! (idx - 1)%nat;
                   Some (if Qltb x0 (fst prev) then fst prev else x0)
              else Some x0) = Some x1
             /\ (if (0 <? idx)%nat
                 then from_option fst 0 (pts !! (idx - 1)%nat) else 0) = lo
             /\ x1 == Qmax lo (Qmin 1 (fst v))
             /\ 0 <= lo <= fst cur).
  { destruct (Nat.ltb_spec 0 idx) as [Hpos|Hz].
    - destruct (lookup_lt_is_Some_2 pts (idx - 1)%nat ltac:(lia))
        as [prev Hprev].
      rewrite Hprev. cbn [mbind option_bind from_option].
      pose proof (proj1 (Forall_lookup _ _) Hb _ _ Hprev) as [[? ?] _].
      assert (fst prev <= fst cur).
      { apply (Hm (idx - 1)%nat prev cur Hprev).
        replace (S (idx - 1)) with idx by lia. exact Hcur. }
      eexists _, _. split; [reflexivity|]. split; [reflexivity|].
      split; [|lra].
      destruct (Q.max_spec 0 (Qmin 1 (fst v))) as [[? E]|[? E]];
        rewrite E in Hx;
        destruct (Q.max_spec (fst prev) (Qmin 1 (fst v))) as [[? E']|[? E']];
        rewrite E';
        destruct (Qltb x0 (fst prev)) eqn:El;
        [apply Qltb_true in El|apply Qltb_false in El
        |apply Qltb_true in El|apply Qltb_false in El
        |apply Qltb_true in El|apply Qltb_false in El
        |apply Qltb_true in El|apply Qltb_false in El]; lra.
    - exists x0, 0. split; [reflexivity|]. split; [reflexivity|].
      split; [exact Hx|lra]. }
  destruct H1 as (x1 & lo & -> & -> & Hx1 & Hlo).
  cbn [mbind option_bind].
  (* the neighbour after *)
  destruct (Nat.ltb_spec idx (length pts - 1)) as [Hlast|Hlast].
  - destruct (lookup_lt_is_Some_2 pts (idx + 1)%nat ltac:(lia))
      as [next Hnext].
    rewrite Hnext. cbn [mbind option_bind from_option].
    pose proof (proj1 (Forall_lookup _ _) Hb _ _ Hnext) as [[? ?] _].
    assert (fst cur <= fst next).
    { apply (Hm idx cur next Hcur). rewrite <- Nat.add_1_r. exact Hnext. }
    eexists. split; [reflexivity|]. cbn [fst snd].
    split; [|split; [exact Hy|repeat split; lra]].
    destruct (Q.max_spec lo (Qmin 1 (fst v))) as [[? E]|[? E]];
      rewrite E in Hx1;
      destruct (Q.min_spec 1 (fst v)) as [[? F]|[? F]];
      rewrite F in *;
      destruct (Q.min_spec (fst next) (fst v)) as [[? G]|[? G]];
      rewrite G;
      destruct (Q.max_spec lo (fst next)) as [[? K]|[? K]];
      destruct (Q.max_spec lo (fst v)) as [[? L]|[? L]];
      rewrite ?K, ?L;
      destruct (Qltb (fst next) x1) eqn:El;
      try (apply Qltb_true in El); try (apply Qltb_false in El); lra.
  - assert (Enone : pts !! (idx + 1)%nat = None)
      by (apply lookup_ge_None; lia).
    rewrite Enone. cbn [from_option].
    eexists. split; [reflexivity|]. cbn [fst snd].
    split; [exact Hx1|]. split; [exact Hy|]. repeat split; lra.
Qed.

End DragValue.

Section Handlers.

Local Open Scope Q_scope.

Lemma clamp_inside (lo hi v : Q) :
  lo <= v <= hi -> Qmax lo (Qmin hi v) == v.
Proof.
  intros [Hl Hh]. rewrite (Q.min_r hi v) by exact Hh.
  apply Q.max_r, Hl.
Qed.

(** X12.  What a drag does, in both editors.  On a well-formed curve,
    with a drag in progress on an existing, movable point [idx], the
    handler replaces that one point and nothing else: the new output is
    the proposed output clamped to [0, 3] and the new input is the
    proposed input clamped to the interval between the neighbours'
    inputs (0 and 1 standing in for a missing neighbour); a proposal
    inside both intervals is stored as it is.  The proposal is what
    [to_function_coords] makes of the cursor position plus the grab
    offset. *)
Theorem on_drag_moves_one_point :
  (forall (self : Simulator.CurveEditor) (event : Event) (idx : nat),
      curve_ok (Simulator.points self) ->
      point_index (Simulator.drag_data self) = Some idx ->
      (idx < length (Simulator.points self))%nat ->
      let cursor := (ev_x event + offset_x (Simulator.drag_data self),
                     ev_y event + offset_y (Simulator.drag_data self)) in
      let v := Simulator.to_function_coords (fst cursor) (snd cursor) in
      let lo := lower_neighbour (Simulator.points self) idx in
      let hi := upper_neighbour (Simulator.points self) idx in
      exists pt',
        Simulator.on_drag self event
        = Some (Simulator.with_points self
                  (<[idx := pt']> (Simulator.points self)))
        /\ fst pt' == Qmax lo (Qmin hi (fst v))
        /\ snd pt' == Qmax 0 (Qmin 3 (snd v))
        /\ (lo <= fst v <= hi -> 0 <= snd v <= 3 -> point_eq pt' v))
  /\ (forall (self : Simulator2.CurveEditor) (event : Event) (idx : nat),
      curve_ok (Simulator2.points self) ->
      point_index (Simulator2.drag_data self) = Some idx ->
      (idx < length (Simulator2.points self))%nat ->
      (idx =? 0)%nat && Simulator2.lock_low_speed self = false ->
      let cursor := (ev_x event + offset_x (Simulator2.drag_data self),
                     ev_y event + offset_y (Simulator2.drag_data self)) in
      let v := Simulator2.to_function_coords (fst cursor) (snd cursor) in
      let lo := lower_neighbour (Simulator2.points self) idx in
      let hi := upper_neighbour (Simulator2.points self) idx in
      exists pt',
        Simulator2.on_drag self event
        = Some (Simulator2.with_points self
                  (<[idx := pt']> (Simulator2.points self)))
        /\ fst pt' == Qmax lo (Qmin hi (fst v))
        /\ snd pt' == Qmax 0 (Qmin 3 (snd v))
        /\ (lo <= fst v <= hi -> 0 <= snd v <= 3 -> point_eq pt' v)).
Proof.
  split.
  - intros self event idx Hok Hidx Hlt. cbv zeta. cbn [fst snd].
    set (v := Simulator.to_function_coords
                (ev_x event + offset_x (Simulator.drag_data self))
                (ev_y event + offset_y (Simulator.drag_data self))).
    destruct (clamp_to_neighbours_value Simulator.X_MIN Simulator.X_MAX
                Simulator.Y_MIN Simulator.Y_MAX (Simulator.points self)
                idx v)
      as (pt' & Hclamp & Hx & Hy & _); try reflexivity; try assumption.
    exists pt'. unfold Simulator.on_drag. rewrite Hidx.
    fold v. rewrite Hclamp.
    cbn [mbind option_bind]. rewrite set_item_in_range by exact Hlt.
    cbn [mbind option_bind].
    split; [reflexivity|]. split; [exact Hx|]. split; [exact Hy|].
    intros Hin Hout. split.
    + rewrite Hx. apply clamp_inside, Hin.
    + rewrite Hy. apply clamp_inside, Hout.
  - intros self event idx Hok Hidx Hlt Hfree. cbv zeta. cbn [fst snd].
    set (v := Simulator2.to_function_coords
                (ev_x event + offset_x (Simulator2.drag_data self))
                (ev_y event + offset_y (Simulator2.drag_data self))).
    destruct (clamp_to_neighbours_value Simulator2.X_MIN Simulator2.X_MAX
                Simulator2.Y_MIN Simulator2.Y_MAX (Simulator2.points self)
                idx v)
      as (pt' & Hclamp & Hx & Hy & _); try reflexivity; try assumption.
    exists pt'. unfold Simulator2.on_drag. rewrite Hidx, Hfree.
    fold v. rewrite Hclamp.
    cbn [mbind option_bind]. rewrite set_item_in_range by exact Hlt.
    cbn [mbind option_bind].
    split; [reflexivity|]. split; [exact Hx|]. split; [exact Hy|].
    intros Hin Hout. split.
    + rewrite Hx. apply clamp_inside, Hin.
    + rewrite Hy. apply clamp_inside, Hout.
Qed.

(** X13.  A drag whose stored index is no longer an index of the point
    list raises [IndexError] in both editors (in [simulator2.py] unless
    the index is the locked 0, which is skipped first). *)
Theorem on_drag_stale_index :
  (forall (self : Simulator.CurveEditor) (event : Event) (idx : nat),
      point_index (Simulator.drag_data self) = Some idx ->
      (length (Simulator.points self) <= idx)%nat ->
      Simulator.on_drag self event = None)
  /\ (forall (self : Simulator2.CurveEditor) (event : Event) (idx : nat),
      point_index (Simulator2.drag_data self) = Some idx ->
      (length (Simulator2.points self) <= idx)%nat ->
      (idx =? 0)%nat && Simulator2.lock_low_speed self = false ->
      Simulator2.on_drag self event = None).
Proof.
  split.
  - intros self event idx Hidx Hge. unfold Simulator.on_drag.
    rewrite Hidx.
    destruct (clamp_to_neighbours _ _ _ _ _ _ _); [|reflexivity].
    cbn [mbind option_bind]. unfold set_item.
    destruct (Nat.ltb_spec idx (length (Simulator.points self)));
      [lia|reflexivity].
  - intros self event idx Hidx Hge Hfree. unfold Simulator2.on_drag.
    rewrite Hidx, Hfree.
    destruct (clamp_to_neighbours _ _ _ _ _ _ _); [|reflexivity].
    cbn [mbind option_bind]. unfold set_item.
    destruct (Nat.ltb_spec idx (length (Simulator2.points self)));
      [lia|reflexivity].
Qed.

(** X14.  Releasing the button ends the drag: after [on_release] every
    sequence of motion events leaves the state exactly as the release
    left it, and the release itself changes neither the points nor, in
    [simulator2.py], the selection. *)
Theorem on_release_ends_drag :
  (forall (self : Simulator.CurveEditor) (event : Event)
          (motions : list Event),
      foldl (fun st e => st ≫= fun s => Simulator.on_drag s e)
            (Some (Simulator.on_release self event)) motions
      = Some (Simulator.on_release self event)
      /\ Simulator.points (Simulator.on_release self event)
         = Simulator.points self)
  /\ (forall (self : Simulator2.CurveEditor) (event : Event)
             (motions : list Event),
      foldl (fun st e => st ≫= fun s => Simulator2.on_drag s e)
            (Some (Simulator2.on_release self event)) motions
      = Some (Simulator2.on_release self event)
      /\ Simulator2.points (Simulator2.on_release self event)
         = Simulator2.points self
      /\ Simulator2.selected_indices (Simulator2.on_release self event)
         = Simulator2.selected_indices self).
Proof.
  split; intros self event motions.
  - split; [|reflexivity].
    induction motions as [|e motions IH]; [reflexivity|exact IH].
  - split; [|split; reflexivity].
    induction motions as [|e motions IH]; [reflexivity|exact IH].
Qed.

End Handlers.

Section PressAndButtons.

Local Open Scope Q_scope.
Import Simulator2.

Lemma shift_is_odd (state : Z) :
  negb (Z.land state 1 =? 0)%Z = Z.odd state.
Proof.
  change 1%Z with (Z.ones 1) at 1. rewrite Z.land_ones by lia.
  change (2 ^ 1)%Z with 2%Z. rewrite Zmod_odd.
  destruct (Z.odd state); reflexivity.
Qed.

Lemma find_nearby_point_in_range (self : CurveEditor) (x y : Q) (i : nat) :
  find_nearby_point self x y = Some i -> (i < length (points self))%nat.
Proof.
  intros H. destruct (find_gives_point _ _ _ H) as [pt Hpt].
  apply (lookup_lt_Some _ _ _ Hpt).
Qed.

(** X15.  A press never raises [IndexError] and never moves a point or
    changes a check box.  A press on the locked point 0 changes nothing
    and redraws nothing.  A press away from every point clears the
    selection.  Any other press makes the point under the cursor the
    drag target and, without Shift (bit 0 of the event state), the only
    selected index; with Shift it toggles that index in the selection.
    A selection of existing indices stays one.  Unless it hit the locked
    point the handler ends in a redraw, and an exception leaves it only
    out of the xinput call of that redraw, with the state already
    updated: on Linux, when a command fails with something other than
    [CalledProcessError]. *)
Theorem on_press_selects (self : CurveEditor) (event : Event) :
  let hit := find_nearby_point self (ev_x event) (ev_y event) in
  let sel := selected_indices self in
  exists self',
    on_press self event = Some self'
    /\ points self' = points self
    /\ (use_windows_curve self', enable_nonlinear_boost self',
        enable_acceleration_cap self', human_labels self',
        lock_low_speed self')
       = (use_windows_curve self, enable_nonlinear_boost self,
          enable_acceleration_cap self, human_labels self,
          lock_low_speed self)
    /\ (hit = Some 0%nat -> lock_low_speed self = true -> self' = self)
    /\ (hit = None ->
        selected_indices self' = ∅ /\ drag_data self' = drag_data self)
    /\ (forall i, hit = Some i ->
          (i =? 0)%nat && lock_low_speed self = false ->
          (i < length (points self))%nat
          /\ point_index (drag_data self') = Some i
          /\ (Z.odd (ev_state event) = false ->
              selected_indices self' = {[i]})
          /\ (Z.odd (ev_state event) = true ->
              forall j, j ∈ selected_indices self' <->
                        (j <> i /\ j ∈ sel) \/ (j = i /\ i ∉ sel)))
    /\ (selection_valid sel (points self) ->
        selection_valid (selected_indices self') (points self'))
    /\ (forall (platform_system : string)
               (run : list (list string) -> list string -> run_result)
               (fmt2f : Q -> string) (str_e : list string -> string)
               (device_name : string),
          exists sh,
            callback platform_system run fmt2f str_e device_name self
                     (ButtonPress1 event) = Some (self', sh)
            /\ (hit = Some 0%nat -> lock_low_speed self = true ->
                sh = quiet)
            /\ (hit <> Some 0%nat \/ lock_low_speed self = false ->
                sh = auto_apply_xinput platform_system run fmt2f str_e
                       device_name self')
            /\ (escaped sh = true ->
                platform_system = "Linux"%string
                /\ exists h c, run h c = OtherError)).
Proof.
  intros hit sel.
  enough (Hstate : exists self',
    on_press self event = Some self'
    /\ points self' = points self
    /\ (use_windows_curve self', enable_nonlinear_boost self',
        enable_acceleration_cap self', human_labels self',
        lock_low_speed self')
       = (use_windows_curve self, enable_nonlinear_boost self,
          enable_acceleration_cap self, human_labels self,
          lock_low_speed self)
    /\ (hit = Some 0%nat -> lock_low_speed self = true -> self' = self)
    /\ (hit = None ->
        selected_indices self' = ∅ /\ drag_data self' = drag_data self)
    /\ (forall i, hit = Some i ->
          (i =? 0)%nat && lock_low_speed self = false ->
          (i < length (points self))%nat
          /\ point_index (drag_data self') = Some i
          /\ (Z.odd (ev_state event) = false ->
              selected_indices self' = {[i]})
          /\ (Z.odd (ev_state event) = true ->
              forall j, j ∈ selected_indices self' <->
                        (j <> i /\ j ∈ sel) \/ (j = i /\ i ∉ sel)))
    /\ (selection_valid sel (points self) ->
        selection_valid (selected_indices self') (points self'))).
  { destruct Hstate as (self' & Hrun & H1 & H2 & H3 & H4 & H5 & H6).
    exists self'. repeat (split; [assumption|]).
    intros platform_system run fmt2f str_e device_name.
    unfold callback. cbn [dispatch redraws]. rewrite Hrun.
    cbn [mbind option_bind]. fold hit.
    eexists. split; [reflexivity|]. split; [|split].
    - intros -> ->. rewrite bool_decide_eq_true_2 by reflexivity.
      reflexivity.
    - intros [Hmiss| ->]; [|rewrite andb_false_r; reflexivity].
      rewrite bool_decide_eq_false_2 by exact Hmiss. reflexivity.
    - destruct (negb _); [|discriminate].
      apply escaped_needs_OtherError_2. }
  subst sel. unfold on_press. fold hit. rewrite shift_is_odd.
  destruct hit as [i|] eqn:Hhit.
  - pose proof (find_nearby_point_in_range self _ _ i Hhit) as Hlt.
    destruct (lookup_lt_is_Some_2 _ _ Hlt) as [pt Hpt].
    destruct (decide (i = 0%nat /\ lock_low_speed self = true))
      as [[-> Hlock]|Hfree].
    + assert (Hb : bool_decide (Some 0%nat = Some 0%nat)
                   && lock_low_speed self = true).
      { rewrite Hlock, bool_decide_eq_true_2 by reflexivity. reflexivity. }
      rewrite Hb. exists self.
      split; [reflexivity|]. split; [reflexivity|]. split; [reflexivity|].
      split; [reflexivity|]. split; [discriminate|]. split; [|auto].
      intros j [= <-] Hf. cbn [Nat.eqb andb] in Hf.
      rewrite Hlock in Hf. discriminate.
    + assert (Hb : bool_decide (Some i = Some 0%nat) && lock_low_speed self
                   = false).
      { destruct (lock_low_speed self); [|apply andb_false_r].
        rewrite bool_decide_eq_false_2; [reflexivity|].
        intros [= ->]. apply Hfree. auto. }
      rewrite Hb, Hpt. cbn [mbind option_bind].
      destruct (to_canvas_coords (fst pt) (snd pt)) as [cx cy].
      eexists. split; [reflexivity|].
      cbn [points selected_indices drag_data point_index
           use_windows_curve enable_nonlinear_boost enable_acceleration_cap
           human_labels lock_low_speed with_drag_data with_selected_indices].
      split; [reflexivity|]. split; [reflexivity|].
      split; [intros [= ->] Hl; exfalso; apply Hfree; auto|].
      split; [discriminate|]. split.
      * intros j [= <-] _. split; [exact Hlt|]. split; [reflexivity|].
        split; intros ->; [reflexivity|].
        intros k. destruct (decide (k = i)) as [->|Hki];
          destruct (decide (i ∈ selected_indices self));
          rewrite ?elem_of_difference, ?elem_of_union, ?elem_of_singleton;
          tauto.
      * intros Hvalid k Hk.
        destruct (Z.odd (ev_state event)); [destruct (decide (i ∈ selected_indices self))|].
        -- apply elem_of_difference in Hk as [Hk _]. apply Hvalid, Hk.
        -- apply elem_of_union in Hk as [Hk|Hk]; [apply Hvalid, Hk|].
           apply elem_of_singleton in Hk. subst k. exact Hlt.
        -- apply elem_of_singleton in Hk. subst k. exact Hlt.
  - cbn [andb]. rewrite bool_decide_eq_false_2 by discriminate.
    cbn [andb]. eexists. split; [reflexivity|].
    cbn [points selected_indices drag_data
         use_windows_curve enable_nonlinear_boost enable_acceleration_cap
         human_labels lock_low_speed with_selected_indices].
    repeat split; try discriminate.
Qed.

End PressAndButtons.

Section PressTwice.

Local Open Scope Q_scope.
Import Simulator2.

Lemma on_press_shift_unlocked (self : CurveEditor) (event : Event)
    (i : nat) :
  find_nearby_point self (ev_x event) (ev_y event) = Some i ->
  (i =? 0)%nat && lock_low_speed self = false ->
  Z.odd (ev_state event) = true ->
  exists d,
    on_press self event
    = Some (with_drag_data
              (with_selected_indices self
                 (if decide (i ∈ selected_indices self)
                  then selected_indices self ∖ {[i]}
                  else selected_indices self ∪ {[i]}))
              d)
    /\ point_index d = Some i.
Proof.
  intros Hfind Hfree Hshift. unfold on_press.
  rewrite Hfind, shift_is_odd, Hshift.
  assert (Hb : bool_decide (Some i = Some 0%nat) && lock_low_speed self
               = false).
  { destruct i as [|i].
    - cbn [Nat.eqb andb] in Hfree. rewrite Hfree. apply andb_false_r.
    - rewrite bool_decide_eq_false_2 by discriminate. reflexivity. }
  rewrite Hb.
  destruct (find_gives_point _ _ _ Hfind) as [pt Hpt].
  rewrite Hpt. cbn [mbind option_bind].
  destruct (to_canvas_coords (fst pt) (snd pt)) as [cx cy].
  eexists. split; reflexivity.
Qed.

(** X16.  Shift-clicking the same movable point twice restores the
    selection: the second press undoes the toggle of the first, and the
    points are untouched. *)
Theorem on_press_shift_twice (self : CurveEditor) (event : Event)
    (i : nat) :
  find_nearby_point self (ev_x event) (ev_y event) = Some i ->
  (i =? 0)%nat && lock_low_speed self = false ->
  Z.odd (ev_state event) = true ->
  exists self1 self2,
    on_press self event = Some self1
    /\ on_press self1 event = Some self2
    /\ (i ∈ selected_indices self1 <-> i ∉ selected_indices self)
    /\ selected_indices self2 = selected_indices self
    /\ points self2 = points self.
Proof.
  intros Hfind Hfree Hshift.
  destruct (on_press_shift_unlocked self event i Hfind Hfree Hshift)
    as (d1 & Hp1 & _).
  set (sel1 := if decide (i ∈ selected_indices self)
               then selected_indices self ∖ {[i]}
               else selected_indices self ∪ {[i]}) in *.
  set (self1 := with_drag_data (with_selected_indices self sel1) d1) in *.
  destruct (on_press_shift_unlocked self1 event i Hfind Hfree Hshift)
    as (d2 & Hp2 & _).
  eexists self1, _. split; [exact Hp1|]. split; [exact Hp2|].
  cbn [selected_indices points with_drag_data with_selected_indices self1].
  assert (Htoggle : i ∈ sel1 <-> i ∉ selected_indices self).
  { subst sel1. destruct (decide (i ∈ selected_indices self));
      rewrite ?elem_of_difference, ?elem_of_union, ?elem_of_singleton;
      tauto. }
  assert (Hother : forall k, k <> i ->
                     (k ∈ sel1 <-> k ∈ selected_indices self)).
  { intros k Hk. subst sel1. destruct (decide (i ∈ selected_indices self));
      rewrite ?elem_of_difference, ?elem_of_union, ?elem_of_singleton;
      tauto. }
  split; [exact Htoggle|]. split; [|reflexivity].
  apply set_eq. intros k.
  destruct (decide (i ∈ sel1)) as [Hin|Hnin];
    rewrite ?elem_of_difference, ?elem_of_union, ?elem_of_singleton;
    (destruct (decide (k = i)) as [->|Hki];
     [tauto|specialize (Hother k Hki); tauto]).
Qed.

End PressTwice.

(* ===================================================================== *)
(** * Every state the editors can reach *)
(* ===================================================================== *)

Section Reachable.

Local Open Scope Q_scope.

Ltac concrete_curve_ok :=
  split;
  [repeat constructor; cbn; lra
  |let i := fresh "i" in let p := fresh "p" in let q := fresh "q" in
   let Hp := fresh "Hp" in let Hq := fresh "Hq" in
   intros i p q Hp Hq;
   do 5 (try (destruct i as [|i])); cbn in Hp, Hq; simplify_eq;
   cbn; lra].

Lemma preset_ok_1 (self : Simulator.CurveEditor) :
  let self' := Simulator.update_curve_from_options self in
  curve_ok (Simulator.points self')
  /\ length (Simulator.points self')
     = (if Simulator.use_windows_curve self' then 4 else 3)%nat
  /\ Simulator.drag_data self' = Simulator.drag_data self.
Proof.
  destruct self as [w b c pts d]. unfold Simulator.update_curve_from_options.
  cbn [Simulator.use_windows_curve Simulator.enable_nonlinear_boost
       Simulator.enable_acceleration_cap].
  destruct w, b, c; cbn; (split; [concrete_curve_ok|split; reflexivity]).
Qed.

Lemma preset_ok_2 (self : Simulator2.CurveEditor) :
  let self' := Simulator2.update_curve_from_options self in
  curve_ok (Simulator2.points self')
  /\ length (Simulator2.points self')
     = (if Simulator2.use_windows_curve self' then 4 else 3)%nat
  /\ Simulator2.selected_indices self' = ∅.
Proof.
  destruct self as [w b c h l sel pts d].
  unfold Simulator2.update_curve_from_options.
  cbn [Simulator2.use_windows_curve Simulator2.enable_nonlinear_boost
       Simulator2.enable_acceleration_cap Simulator2.with_selected_indices].
  destruct w, b, c; cbn; (split; [concrete_curve_ok|split; reflexivity]).
Qed.

(** A completed drag keeps the curve well formed and its length. *)
Lemma drag_result (xmin xmax ymin ymax : Q) (pts pts' : list point)
    (idx : nat) (v : Q * Q) :
  xmin == 0 -> xmax == 1 -> ymin == 0 -> ymax == 3 ->
  curve_ok pts ->
  (new_pt ← clamp_to_neighbours xmin xmax ymin ymax pts idx v;
   set_item pts idx new_pt) = Some pts' ->
  curve_ok pts' /\ length pts' = length pts.
Proof.
  intros Exmin Exmax Eymin Eymax Hok Hrun.
  assert (Hidx : (idx < length pts)%nat).
  { destruct (clamp_to_neighbours _ _ _ _ _ _ _) as [pt|];
      cbn [mbind option_bind] in Hrun; [|discriminate].
    unfold set_item in Hrun.
    destruct (Nat.ltb_spec idx (length pts)); [assumption|discriminate]. }
  destruct (drag_body_keeps_curve xmin xmax ymin ymax pts idx v
              Exmin Exmax Eymin Eymax Hok Hidx) as (pts'' & Hrun' & Hok' & Hlen).
  rewrite Hrun in Hrun'. injection Hrun' as <-. split; assumption.
Qed.

(** The Increase / Decrease loop keeps the curve well formed when the
    new outputs stay in range. *)
Lemma adjusted_curve_ok (lock : bool) (sel : gset nat) (f : Q -> Q)
    (pts pts' : list point) :
  (forall y, 0 <= y <= 3 -> 0 <= f y <= 3) ->
  curve_ok pts -> length pts' = length pts ->
  (forall i pt, pts !! i = Some pt ->
     pts' !! i = Some (if Simulator2.adjusted lock sel i
                       then (fst pt, f (snd pt)) else pt)) ->
  curve_ok pts'.
Proof.
  intros Hf [Hb Hm] Hlen Hlook.
  assert (Hback : forall i pt', pts' !! i = Some pt' ->
            exists pt, pts !! i = Some pt /\ fst pt' = fst pt
                       /\ 0 <= snd pt' <= 3).
  { intros i pt' Hpt'.
    destruct (lookup_lt_is_Some_2 pts i) as [pt Hpt].
    { rewrite <- Hlen. apply (lookup_lt_Some _ _ _ Hpt'). }
    exists pt. split; [exact Hpt|].
    pose proof (proj1 (Forall_lookup _ _) Hb i pt Hpt) as [_ Hy].
    rewrite (Hlook i pt Hpt) in Hpt'. injection Hpt' as <-.
    destruct (Simulator2.adjusted lock sel i); cbn [fst snd];
      split; auto. }
  split.
  - apply Forall_lookup. intros i pt' Hpt'.
    destruct (Hback i pt' Hpt') as (pt & Hpt & Ex & Hy).
    pose proof (proj1 (Forall_lookup _ _) Hb i pt Hpt) as [Hx _].
    split; [rewrite Ex; exact Hx|exact Hy].
  - intros i p' q' Hp' Hq'.
    destruct (Hback i p' Hp') as (p & Hp & Ep & _).
    destruct (Hback (S i) q' Hq') as (q & Hq & Eq & _).
    rewrite Ep, Eq. apply (Hm i p q Hp Hq).
Qed.

Lemma increase_in_range (y : Q) :
  0 <= y <= 3 ->
  0 <= py_min Simulator2.Y_MAX (y + Simulator2.DELTA_Y) <= 3.
Proof.
  intros [Hlo Hhi].
  destruct (py_min_cases Simulator2.Y_MAX (y + Simulator2.DELTA_Y))
    as [[Hc ->]|[Hc ->]];
    unfold Simulator2.Y_MAX, Simulator2.DELTA_Y in *; lra.
Qed.

Lemma decrease_in_range (y : Q) :
  0 <= y <= 3 ->
  0 <= py_max Simulator2.Y_MIN (y - Simulator2.DELTA_Y) <= 3.
Proof.
  intros [Hlo Hhi].
  destruct (py_max_cases Simulator2.Y_MIN (y - Simulator2.DELTA_Y))
    as [[Hc ->]|[Hc ->]];
    unfold Simulator2.Y_MIN, Simulator2.DELTA_Y in *; lra.
Qed.

Lemma dispatch_keeps_well_formed_2 (self self' : Simulator2.CurveEditor)
    (u : Simulator2.UIEvent) :
  well_formed_2 self -> Simulator2.dispatch self u = Some self' ->
  well_formed_2 self'.
Proof.
  intros (Hok & Hsel & Hlen) Hstep. unfold well_formed_2.
  destruct u as [| | | | | | |event|event|event]; cbn [Simulator2.dispatch] in Hstep.
  - injection Hstep as <-.
    match goal with
    | |- context [Simulator2.update_curve_from_options ?s] =>
        destruct (preset_ok_2 s) as (H1 & H2 & H3)
    end.
    split; [exact H1|]. split; [|exact H2].
    rewrite H3. intros i Hi. exfalso. apply (not_elem_of_empty i Hi).
  - injection Hstep as <-.
    match goal with
    | |- context [Simulator2.update_curve_from_options ?s] =>
        destruct (preset_ok_2 s) as (H1 & H2 & H3)
    end.
    split; [exact H1|]. split; [|exact H2].
    rewrite H3. intros i Hi. exfalso. apply (not_elem_of_empty i Hi).
  - injection Hstep as <-.
    match goal with
    | |- context [Simulator2.update_curve_from_options ?s] =>
        destruct (preset_ok_2 s) as (H1 & H2 & H3)
    end.
    split; [exact H1|]. split; [|exact H2].
    rewrite H3. intros i Hi. exfalso. apply (not_elem_of_empty i Hi).
  - injection Hstep as <-. auto.
  - injection Hstep as <-. auto.
  - unfold Simulator2.increase_all_points in Hstep.
    destruct (buttons_loop self
                (fun y => py_min Simulator2.Y_MAX (y + Simulator2.DELTA_Y))
                Hsel) as (pts' & Hloop & Hlen' & Hlook).
    rewrite Hloop in Hstep. injection Hstep as <-.
    cbn [Simulator2.points Simulator2.selected_indices
         Simulator2.use_windows_curve Simulator2.with_points].
    split; [|split].
    + apply (adjusted_curve_ok _ _ _ _ _ increase_in_range Hok Hlen' Hlook).
    + intros i Hi. rewrite Hlen'. apply Hsel, Hi.
    + rewrite Hlen'. exact Hlen.
  - unfold Simulator2.decrease_all_points in Hstep.
    destruct (buttons_loop self
                (fun y => py_max Simulator2.Y_MIN (y - Simulator2.DELTA_Y))
                Hsel) as (pts' & Hloop & Hlen' & Hlook).
    rewrite Hloop in Hstep. injection Hstep as <-.
    cbn [Simulator2.points Simulator2.selected_indices
         Simulator2.use_windows_curve Simulator2.with_points].
    split; [|split].
    + apply (adjusted_curve_ok _ _ _ _ _ decrease_in_range Hok Hlen' Hlook).
    + intros i Hi. rewrite Hlen'. apply Hsel, Hi.
    + rewrite Hlen'. exact Hlen.
  - revert Hstep. unfold Simulator2.on_press.
    destruct (bool_decide _ && Simulator2.lock_low_speed self);
      [intros [= <-]; auto|].
    destruct (Simulator2.find_nearby_point self _ _) as [i|] eqn:Hfind.
    + pose proof (find_nearby_point_in_range self _ _ i Hfind) as Hlt.
      destruct (Simulator2.points self !! i) as [pt|];
        cbn [mbind option_bind]; [|discriminate].
      destruct (Simulator2.to_canvas_coords _ _). intros [= <-].
      cbn [Simulator2.points Simulator2.selected_indices
           Simulator2.use_windows_curve Simulator2.with_drag_data
           Simulator2.with_selected_indices].
      split; [exact Hok|]. split; [|exact Hlen].
      intros k Hk.
      destruct (negb _);
        [destruct (decide (i ∈ Simulator2.selected_indices self))|].
      * apply elem_of_difference in Hk as [Hk _]. apply Hsel, Hk.
      * apply elem_of_union in Hk as [Hk|Hk]; [apply Hsel, Hk|].
        apply elem_of_singleton in Hk. subst k. exact Hlt.
      * apply elem_of_singleton in Hk. subst k. exact Hlt.
    + intros [= <-].
      cbn [Simulator2.points Simulator2.selected_indices
           Simulator2.use_windows_curve Simulator2.with_selected_indices].
      split; [exact Hok|]. split; [|exact Hlen].
      intros k Hk. exfalso. apply (not_elem_of_empty k Hk).
  - revert Hstep. unfold Simulator2.on_drag.
    destruct (point_index (Simulator2.drag_data self)) as [idx|];
      [|intros [= <-]; auto].
    destruct ((idx =? 0)%nat && Simulator2.lock_low_speed self);
      [intros [= <-]; auto|].
    destruct (clamp_to_neighbours _ _ _ _ _ idx _) as [new_pt|] eqn:Hc;
      cbn [mbind option_bind]; [|discriminate].
    destruct (set_item _ idx new_pt) as [pts'|] eqn:Hs;
      cbn [mbind option_bind]; [|discriminate].
    intros [= <-].
    match type of Hc with
    | clamp_to_neighbours ?a ?b ?c ?d ?p ?i ?v = _ =>
        destruct (drag_result a b c d p pts' i v) as [Hok' Hlen'];
        try reflexivity; try assumption
    end.
    { rewrite Hc. exact Hs. }
    cbn [Simulator2.points Simulator2.selected_indices
         Simulator2.use_windows_curve Simulator2.with_points].
    split; [exact Hok'|]. split.
    + intros k Hk. rewrite Hlen'. apply Hsel, Hk.
    + rewrite Hlen'. exact Hlen.
  - injection Hstep as <-. auto.
Qed.

End Reachable.

Section ReachableStates.

Local Open Scope Q_scope.

Lemma on_press_total_1 (self : Simulator.CurveEditor) (event : Event) :
  exists self',
    Simulator.on_press self event = Some self'
    /\ Simulator.points self' = Simulator.points self
    /\ Simulator.use_windows_curve self' = Simulator.use_windows_curve self.
Proof.
  unfold Simulator.on_press.
  destruct (Simulator.find_nearby_point self _ _) as [i|] eqn:Hfind.
  - destruct (find_gives_point _ _ _ Hfind) as [pt Hpt].
    rewrite Hpt. cbn [mbind option_bind].
    destruct (Simulator.to_canvas_coords _ _).
    eexists. split; [reflexivity|]. split; reflexivity.
  - exists self. split; [reflexivity|]. split; reflexivity.
Qed.

Lemma on_press_total_2 (self : Simulator2.CurveEditor) (event : Event) :
  is_Some (Simulator2.on_press self event).
Proof.
  unfold Simulator2.on_press.
  destruct (bool_decide _ && Simulator2.lock_low_speed self); [eauto|].
  destruct (Simulator2.find_nearby_point self _ _) as [i|] eqn:Hfind;
    [|eauto].
  destruct (find_gives_point _ _ _ Hfind) as [pt Hpt].
  rewrite Hpt. cbn [mbind option_bind].
  destruct (Simulator2.to_canvas_coords _ _). eauto.
Qed.

Lemma dispatch_keeps_well_formed_1 (self self' : Simulator.CurveEditor)
    (u : Simulator.UIEvent) :
  well_formed_1 self -> Simulator.dispatch self u = Some self' ->
  well_formed_1 self'.
Proof.
  intros (Hok & Hlen) Hstep. unfold well_formed_1.
  destruct u as [| | |event|event|event];
    cbn [Simulator.dispatch] in Hstep.
  - injection Hstep as <-.
    match goal with
    | |- context [Simulator.update_curve_from_options ?s] =>
        destruct (preset_ok_1 s) as (H1 & H2 & _)
    end.
    split; assumption.
  - injection Hstep as <-.
    match goal with
    | |- context [Simulator.update_curve_from_options ?s] =>
        destruct (preset_ok_1 s) as (H1 & H2 & _)
    end.
    split; assumption.
  - injection Hstep as <-.
    match goal with
    | |- context [Simulator.update_curve_from_options ?s] =>
        destruct (preset_ok_1 s) as (H1 & H2 & _)
    end.
    split; assumption.
  - destruct (on_press_total_1 self event) as (s & Hs & Hp & Hw).
    rewrite Hs in Hstep. injection Hstep as <-.
    rewrite Hp, Hw. split; assumption.
  - revert Hstep. unfold Simulator.on_drag.
    destruct (point_index (Simulator.drag_data self)) as [idx|];
      [|intros [= <-]; split; assumption].
    destruct (clamp_to_neighbours _ _ _ _ _ idx _) as [new_pt|] eqn:Hc;
      cbn [mbind option_bind]; [|discriminate].
    destruct (set_item _ idx new_pt) as [pts'|] eqn:Hs;
      cbn [mbind option_bind]; [|discriminate].
    intros [= <-].
    match type of Hc with
    | clamp_to_neighbours ?a ?b ?c ?d ?p ?i ?v = _ =>
        destruct (drag_result a b c d p pts' i v) as [Hok' Hlen'];
        try reflexivity; try assumption
    end.
    { rewrite Hc. exact Hs. }
    cbn [Simulator.points Simulator.use_windows_curve Simulator.with_points].
    split; [exact Hok'|]. rewrite Hlen'. exact Hlen.
  - injection Hstep as <-. split; assumption.
Qed.

(** A handler's drag can only fail on a stale index. *)
Lemma drag_body_fails {B : Type} (xmin xmax ymin ymax : Q)
    (pts : list point) (idx : nat) (v : Q * Q)
    (k : list point -> option B) :
  xmin == 0 -> xmax == 1 -> ymin == 0 -> ymax == 3 ->
  curve_ok pts ->
  (new_pt ← clamp_to_neighbours xmin xmax ymin ymax pts idx v;
   pts' ← set_item pts idx new_pt; k pts') = None ->
  (forall pts', is_Some (k pts')) ->
  (length pts <= idx)%nat.
Proof.
  intros Exmin Exmax Eymin Eymax Hok Hrun Hk.
  destruct (Nat.le_gt_cases (length pts) idx) as [Hge|Hlt]; [exact Hge|].
  exfalso.
  destruct (clamp_to_neighbours_fits xmin xmax ymin ymax pts idx v
              Exmin Exmax Eymin Eymax Hok Hlt) as (pt & Hc & _).
  rewrite Hc in Hrun. cbn [mbind option_bind] in Hrun.
  rewrite set_item_in_range in Hrun by exact Hlt.
  cbn [mbind option_bind] in Hrun.
  destruct (Hk (<[idx := pt]> pts)) as [r Hr]. congruence.
Qed.

Lemma reachable_invariant_1 (self : Simulator.CurveEditor) :
  Simulator.reachable self -> well_formed_1 self.
Proof.
  induction 1 as [|s s' u _ IH Hstep].
  - destruct (preset_ok_1
                (Simulator.mkCurveEditor false false false
                   [(0.0, 0.0); (0.5, 0.5); (1.0, 1.0)]
                   (mkDragData None 0 0))) as (H1 & H2 & _).
    split; assumption.
  - apply (dispatch_keeps_well_formed_1 s s' u IH Hstep).
Qed.

Lemma reachable_invariant_2 (self : Simulator2.CurveEditor) :
  Simulator2.reachable self -> well_formed_2 self.
Proof.
  induction 1 as [|s s' u _ IH Hstep].
  - destruct (preset_ok_2
                (Simulator2.mkCurveEditor false false false true true ∅
                   [(0.0, 0.0); (0.5, 0.5); (1.0, 1.0)]
                   (mkDragData None 0 0))) as (H1 & H2 & H3).
    split; [exact H1|]. split; [|exact H2].
    intros i Hi. exfalso. apply (not_elem_of_empty i Hi).
  - apply (dispatch_keeps_well_formed_2 s s' u IH Hstep).
Qed.

(** A handler raises [IndexError] only on a motion event whose stored
    drag index is stale. *)
Lemma dispatch_fails_1 (self : Simulator.CurveEditor)
    (u : Simulator.UIEvent) :
  well_formed_1 self -> Simulator.dispatch self u = None ->
  exists event idx,
    u = Simulator.B1Motion event
    /\ point_index (Simulator.drag_data self) = Some idx
    /\ (length (Simulator.points self) <= idx)%nat.
Proof.
  intros [Hok Hlen].
  destruct u as [| | |event|event|event]; intros Hnone;
    cbn [Simulator.dispatch] in Hnone; try discriminate.
  - destruct (on_press_total_1 self event) as (s & Hs & _). congruence.
  - exists event. unfold Simulator.on_drag in Hnone.
    destruct (point_index (Simulator.drag_data self)) as [idx|];
      [|discriminate].
    exists idx. split; [reflexivity|]. split; [reflexivity|].
    apply (drag_body_fails Simulator.X_MIN Simulator.X_MAX Simulator.Y_MIN Simulator.Y_MAX
             _ _ _ (fun pts => Some (Simulator.with_points self pts))
             ltac:(reflexivity) ltac:(reflexivity) ltac:(reflexivity)
             ltac:(reflexivity) Hok Hnone).
    intros pts'. eauto.
Qed.

Lemma dispatch_fails_2 (self : Simulator2.CurveEditor)
    (u : Simulator2.UIEvent) :
  well_formed_2 self -> Simulator2.dispatch self u = None ->
  exists event idx,
    u = Simulator2.B1Motion event
    /\ point_index (Simulator2.drag_data self) = Some idx
    /\ (length (Simulator2.points self) <= idx)%nat.
Proof.
  intros (Hok & Hsel & Hlen).
  destruct u as [| | | | | | |event|event|event]; intros Hnone;
    cbn [Simulator2.dispatch] in Hnone; try discriminate.
  - destruct (buttons_loop self
                (fun y => py_min Simulator2.Y_MAX (y + Simulator2.DELTA_Y))
                Hsel) as (pts' & Hloop & _).
    unfold Simulator2.increase_all_points in Hnone.
    rewrite Hloop in Hnone. discriminate.
  - destruct (buttons_loop self
                (fun y => py_max Simulator2.Y_MIN (y - Simulator2.DELTA_Y))
                Hsel) as (pts' & Hloop & _).
    unfold Simulator2.decrease_all_points in Hnone.
    rewrite Hloop in Hnone. discriminate.
  - destruct (on_press_total_2 self event) as [s Hs]. congruence.
  - exists event. unfold Simulator2.on_drag in Hnone.
    destruct (point_index (Simulator2.drag_data self)) as [idx|];
      [|discriminate].
    destruct ((idx =? 0)%nat && Simulator2.lock_low_speed self);
      [discriminate|].
    exists idx. split; [reflexivity|]. split; [reflexivity|].
    apply (drag_body_fails Simulator2.X_MIN Simulator2.X_MAX Simulator2.Y_MIN Simulator2.Y_MAX
             _ _ _ (fun pts => Some (Simulator2.with_points self pts))
             ltac:(reflexivity) ltac:(reflexivity) ltac:(reflexivity)
             ltac:(reflexivity) Hok Hnone).
    intros pts'. eauto.
Qed.

(** X18.  Every state [simulator.py] can reach once it has started has
    a well-formed curve (inputs non-decreasing, all coordinates within
    bounds) of four points under the Windows-like preset and three
    otherwise.  In such a
    state a callback raises [IndexError] only when it is a motion event
    and the stored drag index is no longer an index of the curve.  Every
    other callback leaves a reachable state.  The check boxes and a
    motion event with a drag in progress end in a redraw, which applies
    the new curve through xinput; a press, a release and a motion event
    without a drag run nothing.  No exception leaves a callback unless
    that xinput call lets one escape: on Linux, when a command fails
    with something other than [CalledProcessError]. *)
Theorem reachable_well_formed_1 (platform_system : string)
    (run : list (list string) -> list string -> run_result)
    (fmt2f : Q -> string) (self : Simulator.CurveEditor) :
  Simulator.reachable self ->
  well_formed_1 self
  /\ (forall u,
        Simulator.callback platform_system run fmt2f self u = None ->
        exists event idx,
          u = Simulator.B1Motion event
          /\ point_index (Simulator.drag_data self) = Some idx
          /\ (length (Simulator.points self) <= idx)%nat)
  /\ (forall u self' sh,
        Simulator.callback platform_system run fmt2f self u
        = Some (self', sh) ->
        Simulator.reachable self'
        /\ sh = match u with
                | Simulator.ButtonPress1 _ | Simulator.ButtonRelease1 _ =>
                    quiet
                | Simulator.B1Motion _ =>
                    match point_index (Simulator.drag_data self) with
                    | None => quiet
                    | Some _ =>
                        Simulator.auto_apply_xinput platform_system run
                          fmt2f self'
                    end
                | _ =>
                    Simulator.auto_apply_xinput platform_system run fmt2f
                      self'
                end
        /\ (escaped sh = true ->
            platform_system = "Linux"%string
            /\ exists h c, run h c = OtherError)).
Proof.
  intros Hreach.
  pose proof (reachable_invariant_1 self Hreach) as Hwf.
  split; [exact Hwf|]. split.
  - intros u Hnone. apply (dispatch_fails_1 self u Hwf).
    unfold Simulator.callback in Hnone.
    destruct (Simulator.dispatch self u); [discriminate|reflexivity].
  - intros u self' sh Hrun. unfold Simulator.callback in Hrun.
    destruct (Simulator.dispatch self u) as [s|] eqn:Hstep;
      [|discriminate].
    cbn [mbind option_bind] in Hrun. injection Hrun as <- <-.
    split; [exact (Simulator.reachable_step self s u Hreach Hstep)|].
    split.
    + destruct u; cbn [Simulator.redraws]; try reflexivity.
      destruct (point_index (Simulator.drag_data self)); reflexivity.
    + destruct (Simulator.redraws self u); [|discriminate].
      apply (escaped_needs_OtherError_1 run fmt2f platform_system s).
Qed.

(** X19.  Every state [simulator2.py] can reach once it has started
    (which takes a listed pointer device) has a well-formed curve of
    four points under the Windows-like preset and three otherwise, and a
    selection holding only indices of the curve.  In such a state
    a callback raises [IndexError] only when it is a motion event and
    the stored drag index is no longer an index of the curve (Increase
    and Decrease never index outside the curve).  Every other callback
    leaves a reachable state.  The three curve check boxes, the two
    buttons, a press and a motion event with a drag in progress end in a
    redraw, which applies the new curve through xinput, except a press
    or a motion on the locked point 0; the other two check boxes, a
    release and a motion event without a drag run nothing.  No
    exception leaves a callback unless that xinput call lets one
    escape: on Linux, when a command fails with something other than
    [CalledProcessError]. *)
Theorem reachable_well_formed_2 (platform_system : string)
    (run : list (list string) -> list string -> run_result)
    (fmt2f : Q -> string) (str_e : list string -> string)
    (device_name : string) (self : Simulator2.CurveEditor) :
  Simulator2.reachable self ->
  well_formed_2 self
  /\ (forall u,
        Simulator2.callback platform_system run fmt2f str_e device_name
          self u = None ->
        exists event idx,
          u = Simulator2.B1Motion event
          /\ point_index (Simulator2.drag_data self) = Some idx
          /\ (length (Simulator2.points self) <= idx)%nat)
  /\ (forall u self' sh,
        Simulator2.callback platform_system run fmt2f str_e device_name
          self u = Some (self', sh) ->
        Simulator2.reachable self'
        /\ sh = match u with
                | Simulator2.ToggleHumanLabels
                | Simulator2.ToggleLockLowSpeed
                | Simulator2.ButtonRelease1 _ => quiet
                | Simulator2.ButtonPress1 event =>
                    if bool_decide
                         (Simulator2.find_nearby_point self (ev_x event)
                            (ev_y event) = Some 0%nat)
                       && Simulator2.lock_low_speed self
                    then quiet
                    else Simulator2.auto_apply_xinput platform_system run
                           fmt2f str_e device_name self'
                | Simulator2.B1Motion _ =>
                    match point_index (Simulator2.drag_data self) with
                    | None => quiet
                    | Some idx =>
                        if (idx =? 0)%nat && Simulator2.lock_low_speed self
                        then quiet
                        else Simulator2.auto_apply_xinput platform_system
                               run fmt2f str_e device_name self'
                    end
                | _ =>
                    Simulator2.auto_apply_xinput platform_system run fmt2f
                      str_e device_name self'
                end
        /\ (escaped sh = true ->
            platform_system = "Linux"%string
            /\ exists h c, run h c = OtherError)).
Proof.
  intros Hreach.
  pose proof (reachable_invariant_2 self Hreach) as Hwf.
  split; [exact Hwf|]. split.
  - intros u Hnone. apply (dispatch_fails_2 self u Hwf).
    unfold Simulator2.callback in Hnone.
    destruct (Simulator2.dispatch self u); [discriminate|reflexivity].
  - intros u self' sh Hrun. unfold Simulator2.callback in Hrun.
    destruct (Simulator2.dispatch self u) as [s|] eqn:Hstep;
      [|discriminate].
    cbn [mbind option_bind] in Hrun. injection Hrun as <- <-.
    split; [exact (Simulator2.reachable_step self s u Hreach Hstep)|].
    split.
    + destruct u; cbn [Simulator2.redraws]; try reflexivity.
      * destruct (bool_decide _ && Simulator2.lock_low_speed self);
          reflexivity.
      * destruct (point_index (Simulator2.drag_data self)) as [idx|];
          [|reflexivity].
        destruct ((idx =? 0)%nat && Simulator2.lock_low_speed self);
          reflexivity.
    + destruct (Simulator2.redraws self u); [|discriminate].
      apply (escaped_needs_OtherError_2 run fmt2f platform_system str_e
               device_name s).
Qed.

End ReachableStates.

(* ===================================================================== *)
(** * The device list *)
(* ===================================================================== *)

Section DeviceList.

Import Simulator2.

Lemma filter_all {B : Type} (f : B -> bool) (l : list B) :
  (forall x, In x l -> f x = true) -> List.filter f l = l.
Proof.
  induction l as [|x l IH]; intros H; [reflexivity|].
  cbn [List.filter]. rewrite (H x (or_introl eq_refl)).
  f_equal. apply IH. intros y Hy. apply H. right. exact Hy.
Qed.

Lemma filter_none {B : Type} (f : B -> bool) (l : list B) :
  (forall x, In x l -> f x = false) -> List.filter f l = [].
Proof.
  induction l as [|x l IH]; intros H; [reflexivity|].
  cbn [List.filter]. rewrite (H x (or_introl eq_refl)).
  apply IH. intros y Hy. apply H. right. exact Hy.
Qed.

Lemma filter_nil_inv {B : Type} (f : B -> bool) (l : list B) (x : B) :
  List.filter f l = [] -> In x l -> f x = false.
Proof.
  intros Hnil Hin. destruct (f x) eqn:E; [|reflexivity].
  assert (Hx : In x (List.filter f l)) by (apply filter_In; auto).
  rewrite Hnil in Hx. destruct Hx.
Qed.

(** The first element kept by a filter, and what precedes it. *)
Lemma filter_head_split {B : Type} (f : B -> bool) (l : list B) (d : B)
    (rest : list B) :
  List.filter f l = d :: rest ->
  exists before after,
    l = before ++ d :: after
    /\ f d = true
    /\ (forall x, In x before -> f x = false).
Proof.
  induction l as [|x l IH]; [discriminate|].
  cbn [List.filter]. destruct (f x) eqn:E.
  - intros [= -> <-]. exists [], l. repeat split; auto.
    intros y [].
  - intros H. destruct (IH H) as (before & after & -> & Hd & Hb).
    exists (x :: before), after. repeat split; auto.
    intros y [<-|Hy]; auto.
Qed.

Lemma with_priority_twice (j k : nat) (l : list string) :
  with_priority k (with_priority j l)
  = if (j =? k)%nat then with_priority j l else [].
Proof.
  unfold with_priority. destruct (Nat.eqb_spec j k) as [->|Hne].
  - apply filter_all. intros x Hx. apply filter_In in Hx as [_ Hx].
    exact Hx.
  - apply filter_none. intros x Hx. apply filter_In in Hx as [_ Hx].
    apply Nat.eqb_eq in Hx. apply Nat.eqb_neq. lia.
Qed.

Lemma with_priority_app (k : nat) (a b : list string) :
  with_priority k (a ++ b) = with_priority k a ++ with_priority k b.
Proof. apply List.filter_app. Qed.

Lemma with_priority_pointer (k : nat) (devices : list string) :
  with_priority k (List.filter is_pointer_name devices)
  = List.filter (fun d => (device_priority d =? k)%nat && is_pointer_name d)
                devices.
Proof.
  unfold with_priority.
  induction devices as [|d devices IH]; [reflexivity|].
  cbn [List.filter]. destruct (is_pointer_name d); cbn [List.filter].
  - rewrite andb_true_r. destruct (device_priority d =? k)%nat;
      rewrite IH; reflexivity.
  - rewrite andb_false_r. exact IH.
Qed.

(** X20.  Listing is idempotent: a list that [get_pointer_devices]
    returned is returned unchanged when passed through it again. *)
Theorem get_pointer_devices_idempotent (devices : list string) :
  get_pointer_devices (get_pointer_devices devices)
  = get_pointer_devices devices.
Proof.
  unfold get_pointer_devices.
  set (kept := List.filter is_pointer_name devices).
  rewrite (sort_by_priority_classes kept).
  set (sorted := with_priority 1 kept ++ with_priority 2 kept
                 ++ with_priority 3 kept ++ with_priority 100 kept).
  assert (Hkeep : List.filter is_pointer_name sorted = sorted).
  { apply filter_all. intros d Hd. subst sorted.
    repeat (apply in_app_or in Hd as [Hd|Hd]);
      apply filter_In in Hd as [Hd _];
      apply filter_In in Hd as [_ Hd]; exact Hd. }
  rewrite Hkeep, (sort_by_priority_classes sorted). subst sorted.
  rewrite !with_priority_app, !with_priority_twice. cbn [Nat.eqb].
  rewrite !app_nil_r. reflexivity.
Qed.

Lemma in_filter_pointer (devices : list string) (k : nat) (x : string) :
  In x devices -> is_pointer_name x = true -> device_priority x = k ->
  In x (with_priority k (List.filter is_pointer_name devices)).
Proof.
  intros Hin Hp Hk. unfold with_priority.
  apply filter_In. split; [apply filter_In; auto|].
  apply Nat.eqb_eq, Hk.
Qed.

(** The name put in [device_name_var] when some listed name is a pointer
    name: a listed pointer name of the best priority present, and the
    first such name in the listing. *)
Lemma preselected_first_best (devices : list string) :
  ((forall d, In d devices -> is_pointer_name d = false) ->
   get_pointer_devices devices = [])
  /\ (forall d0, In d0 devices -> is_pointer_name d0 = true ->
      exists before after,
        devices = before ++ initial_device_name devices :: after
        /\ is_pointer_name (initial_device_name devices) = true
        /\ (forall x, In x devices -> is_pointer_name x = true ->
              (device_priority (initial_device_name devices)
               <= device_priority x)%nat)
        /\ (forall x, In x before -> is_pointer_name x = true ->
              (device_priority (initial_device_name devices)
               < device_priority x)%nat)).
Proof.
  unfold initial_device_name, get_pointer_devices.
  rewrite (sort_by_priority_classes (List.filter is_pointer_name devices)).
  split.
  - intros Hnone.
    rewrite (filter_none is_pointer_name devices Hnone). reflexivity.
  - intros d0 Hin0 Hp0.
    set (kept := List.filter is_pointer_name devices).
    assert (Hclass : forall k d rest,
              with_priority k kept = d :: rest ->
              (forall x, In x devices -> is_pointer_name x = true ->
                         (k <= device_priority x)%nat) ->
              exists before after,
                devices = before ++ d :: after
                /\ is_pointer_name d = true
                /\ (forall x, In x devices -> is_pointer_name x = true ->
                              (device_priority d <= device_priority x)%nat)
                /\ (forall x, In x before -> is_pointer_name x = true ->
                              (device_priority d < device_priority x)%nat)).
    { intros k d rest Hk Hmin. unfold kept in Hk.
      rewrite with_priority_pointer in Hk.
      destruct (filter_head_split _ _ _ _ Hk)
        as (before & after & Hdev & Hd & Hbefore).
      apply andb_true_iff in Hd as [Hdk Hdp]. apply Nat.eqb_eq in Hdk.
      exists before, after. split; [exact Hdev|]. split; [exact Hdp|].
      rewrite Hdk. split; [exact Hmin|].
      intros x Hx Hxp.
      assert (Hxin : In x devices)
        by (rewrite Hdev; apply in_or_app; left; exact Hx).
      specialize (Hmin x Hxin Hxp). specialize (Hbefore x Hx).
      rewrite Hxp, andb_true_r in Hbefore.
      apply Nat.eqb_neq in Hbefore. lia. }
    assert (Hempty : forall k, with_priority k kept = [] ->
              forall x, In x devices -> is_pointer_name x = true ->
                        device_priority x <> k).
    { intros k Hk x Hx Hxp Hxk.
      pose proof (in_filter_pointer devices k x Hx Hxp Hxk) as Hin.
      fold kept in Hin. rewrite Hk in Hin. destruct Hin. }
    destruct (with_priority 1 kept) as [|d1 r1] eqn:E1.
    2: { apply (Hclass 1%nat d1 r1 E1). intros x _ _.
         destruct (device_priority_cases x) as [E|[E|[E|E]]]; lia. }
    destruct (with_priority 2 kept) as [|d2 r2] eqn:E2.
    2: { apply (Hclass 2%nat d2 r2 E2). intros x Hx Hxp.
         pose proof (Hempty 1%nat E1 x Hx Hxp).
         destruct (device_priority_cases x) as [E|[E|[E|E]]]; lia. }
    destruct (with_priority 3 kept) as [|d3 r3] eqn:E3.
    2: { apply (Hclass 3%nat d3 r3 E3). intros x Hx Hxp.
         pose proof (Hempty 1%nat E1 x Hx Hxp).
         pose proof (Hempty 2%nat E2 x Hx Hxp).
         destruct (device_priority_cases x) as [E|[E|[E|E]]]; lia. }
    destruct (with_priority 100 kept) as [|d4 r4] eqn:E4.
    2: { apply (Hclass 100%nat d4 r4 E4). intros x Hx Hxp.
         pose proof (Hempty 1%nat E1 x Hx Hxp).
         pose proof (Hempty 2%nat E2 x Hx Hxp).
         pose proof (Hempty 3%nat E3 x Hx Hxp).
         destruct (device_priority_cases x) as [E|[E|[E|E]]]; lia. }
    exfalso.
    pose proof (Hempty 1%nat E1 d0 Hin0 Hp0).
    pose proof (Hempty 2%nat E2 d0 Hin0 Hp0).
    pose proof (Hempty 3%nat E3 d0 Hin0 Hp0).
    pose proof (Hempty 100%nat E4 d0 Hin0 Hp0).
    destruct (device_priority_cases d0) as [E|[E|[E|E]]]; lia.
Qed.

(** X21.  The device menu at start-up.  When the listing fails, or no
    listed name is a pointer name, [device_name_var] is set to
    "No pointer device found" and building the menu raises [TypeError]:
    [__init__] does not complete.  Otherwise the menu is built from the
    pointer names, its
    first entry is the name preselected, and that name is a listed
    pointer name of the best priority present and the first such name
    in the listing: every pointer name listed before it has a strictly
    worse priority. *)
Theorem initial_device_name_best (devices : list string) :
  device_menu (available_devices None) = Raised TypeError
  /\ ((forall d, In d devices -> is_pointer_name d = false) ->
      initial_device_name devices = "No pointer device found"%string
      /\ device_menu (available_devices (Some devices))
         = Raised TypeError)
  /\ (forall d0, In d0 devices -> is_pointer_name d0 = true ->
      exists before after values,
        available_devices (Some devices)
        = initial_device_name devices :: values
        /\ device_menu (available_devices (Some devices))
           = Returned (initial_device_name devices :: values)
        /\ devices = before ++ initial_device_name devices :: after
        /\ is_pointer_name (initial_device_name devices) = true
        /\ (forall x, In x devices -> is_pointer_name x = true ->
              (device_priority (initial_device_name devices)
               <= device_priority x)%nat)
        /\ (forall x, In x before -> is_pointer_name x = true ->
              (device_priority (initial_device_name devices)
               < device_priority x)%nat)).
Proof.
  destruct (preselected_first_best devices) as [Hnone Hsome].
  cbn [available_devices]. split; [reflexivity|]. split.
  - intros Hno. unfold initial_device_name.
    rewrite (Hnone Hno). split; reflexivity.
  - intros d0 Hin0 Hp0.
    destruct (Hsome d0 Hin0 Hp0) as (before & after & Hdev & Hp & Hbest).
    exists before, after.
    unfold initial_device_name in *.
    destruct (get_pointer_devices devices) as [|d values].
    + discriminate Hp.
    + exists values. repeat (split; [first [reflexivity|assumption]|]).
      exact Hbest.
Qed.

End DeviceList.

(* ===================================================================== *)
(** * The further properties at work on the start-up curve *)
(* ===================================================================== *)

Section MoreInstances.

Local Open Scope Q_scope.

Lemma on_drag_moves_one_point_witness :
  let self :=
    Simulator2.with_drag_data Simulator2.init (mkDragData (Some 1%nat) 0 0) in
  exists pt',
    Simulator2.on_drag self (mkEvent 250 250 0)
    = Some (Simulator2.with_points self
              (<[1%nat := pt']> (Simulator2.points self)))
    /\ snd pt' == 1.5.
Proof.
  intros self.
  destruct (proj2 on_drag_moves_one_point self (mkEvent 250 250 0) 1%nat
              default_curve_ok eq_refl ltac:(cbn; lia) eq_refl)
    as (pt' & Hrun & _ & Hy & _).
  exists pt'. split; [exact Hrun|]. rewrite Hy. reflexivity.
Defined.

Lemma on_drag_stale_index_witness :
  Simulator2.on_drag
    (Simulator2.with_drag_data Simulator2.init (mkDragData (Some 3%nat) 0 0))
    (mkEvent 250 250 0)
  = None.
Proof.
  apply (proj2 on_drag_stale_index
           (Simulator2.with_drag_data Simulator2.init
              (mkDragData (Some 3%nat) 0 0))
           (mkEvent 250 250 0) 3%nat eq_refl);
    [cbn; lia|reflexivity].
Defined.

Lemma on_press_shift_twice_witness :
  exists self1 self2,
    Simulator2.on_press Simulator2.init (mkEvent 250 403 1) = Some self1
    /\ Simulator2.on_press self1 (mkEvent 250 403 1) = Some self2
    /\ Simulator2.selected_indices self2
       = Simulator2.selected_indices Simulator2.init.
Proof.
  destruct (on_press_shift_twice Simulator2.init (mkEvent 250 403 1) 1%nat
              eq_refl eq_refl eq_refl)
    as (self1 & self2 & H1 & H2 & _ & Hsel & _).
  exists self1, self2. split; [exact H1|]. split; [exact H2|exact Hsel].
Defined.

Lemma reachable_well_formed_1_witness :
  well_formed_1
    (Simulator.update_curve_from_options
       (Simulator.mkCurveEditor true false false
          (Simulator.points Simulator.init)
          (Simulator.drag_data Simulator.init))).
Proof.
  apply (reachable_well_formed_1 "Linux"
           (fun _ _ => CalledProcessError) (fun _ => "0.00"%string) _
           (Simulator.reachable_step Simulator.init _
              Simulator.ToggleWindowsCurve Simulator.reachable_init
              eq_refl)).
Defined.

Lemma reachable_well_formed_2_witness :
  exists self,
    Simulator2.dispatch Simulator2.init Simulator2.ToggleWindowsCurve
    = Some self
    /\ well_formed_2 self.
Proof.
  eexists. split; [reflexivity|].
  apply (reachable_well_formed_2 "Linux"
           (fun _ _ => CalledProcessError) (fun _ => "0.00"%string)
           (fun _ => EmptyString) "mouse" _
           (Simulator2.reachable_step Simulator2.init _
              Simulator2.ToggleWindowsCurve Simulator2.reachable_init
              eq_refl)).
Defined.

Lemma initial_device_name_best_witness :
  exists before after,
    ["Power Button"; "PS/2 Generic Mouse"; "Logitech USB Optical Mouse"]%string
    = before
      ++ Simulator2.initial_device_name
           ["Power Button"; "PS/2 Generic Mouse";
            "Logitech USB Optical Mouse"]%string
      :: after.
Proof.
  destruct (proj2 (proj2 (initial_device_name_best
                     ["Power Button"; "PS/2 Generic Mouse";
                      "Logitech USB Optical Mouse"]%string))
                  "PS/2 Generic Mouse"%string
                  (or_intror (or_introl eq_refl)) eq_refl)
    as (before & after & values & _ & _ & H & _).
  exists before, after. exact H.
Defined.

Lemma auto_apply_xinput_2_witness :
  let run := fun (_ : list (list string)) (_ : list string) =>
    Completed "libinput Accel Custom Motion Points (1): libinput Accel Profile Enabled (2)" in
  issued (Simulator2.auto_apply_xinput "Linux" run (fun _ => "0.00"%string)
            (fun _ => EmptyString) "mouse" Simulator2.init)
  = Simulator2.xinput_commands (fun _ => "0.00"%string) "mouse"
      Simulator2.init.
Proof.
  intros run.
  destruct (proj1 (proj2 (auto_apply_xinput_2 run (fun _ => "0.00"%string)
                            "Linux" (fun _ => EmptyString) "mouse"
                            Simulator2.init)) eq_refl)
    as (_ & _ & _ & _ & _ & Hall & _).
  apply Hall; reflexivity.
Defined.

Lemma auto_apply_xinput_1_witness :
  let run := fun (_ : list (list string)) (_ : list string) =>
    CalledProcessError in
  let sh := Simulator.auto_apply_xinput "Linux" run
              (fun _ => "0.00"%string) Simulator.init in
  (1 <= length (issued sh) <= 3)%nat
  /\ issued sh
     = take (length (issued sh))
            (Simulator.xinput_commands (fun _ => "0.00"%string)
               Simulator.init).
Proof.
  intros run sh.
  destruct (proj1 (proj2 (auto_apply_xinput_1 run
                            (fun _ => "0.00"%string) "Linux"
                            Simulator.init)) eq_refl)
    as (Hk & Hprefix & _).
  split; [exact Hk|exact Hprefix].
Defined.

End MoreInstances.

Section ValuesLabel.

Variable fmt2f : Q -> string.

Lemma point_names_length_1 (pts : list point) :
  length (Simulator.point_names pts) = length pts.
Proof.
  unfold Simulator.point_names.
  destruct (Nat.eqb_spec (length pts) 3) as [->|_]; [reflexivity|].
  destruct (Nat.eqb_spec (length pts) 4) as [->|_]; [reflexivity|].
  rewrite length_map, length_seq. reflexivity.
Qed.

Lemma point_names_length_2 (pts : list point) :
  length (Simulator2.point_names pts) = length pts.
Proof.
  unfold Simulator2.point_names.
  destruct (Nat.eqb_spec (length pts) 3) as [->|_]; [reflexivity|].
  destruct (Nat.eqb_spec (length pts) 4) as [->|_]; [reflexivity|].
  rewrite length_map, length_seq. reflexivity.
Qed.

(** X22.  The values label lists every control point: whatever the
    number of points, [update_values_label] builds one row per point
    (the pairing of names with points drops nothing), and in every
    reachable state the rows carry the three or the four fixed names of
    the active preset, never the generic "Point i". *)
Theorem values_label_lists_every_point :
  (forall pts : list point,
      length (Simulator.values_rows fmt2f pts) = length pts
      /\ length (Simulator2.values_rows fmt2f pts) = length pts)
  /\ (forall self : Simulator.CurveEditor,
        Simulator.reachable self ->
        Simulator.point_names (Simulator.points self)
        = if Simulator.use_windows_curve self
          then ["Low speed (min)"; "Early accel"; "Advanced accel";
                "High speed (max)"]%string
          else ["Low speed (min)"; "Mid speed"; "High speed (max)"]%string)
  /\ (forall self : Simulator2.CurveEditor,
        Simulator2.reachable self ->
        Simulator2.point_names (Simulator2.points self)
        = if Simulator2.use_windows_curve self
          then ["Low speed (min)"; "Early accel"; "Advanced accel";
                "High speed (max)"]%string
          else ["Low speed (min)"; "Mid speed"; "High speed (max)"]%string).
Proof.
  split; [|split].
  - intros pts. unfold Simulator.values_rows, Simulator2.values_rows.
    rewrite !length_map, !zip_length.
    rewrite point_names_length_1, point_names_length_2, Nat.min_id.
    split; reflexivity.
  - intros self Hreach.
    pose proof (reachable_invariant_1 self Hreach) as Hwf.
    destruct Hwf as [_ Hlen]. unfold Simulator.point_names.
    rewrite Hlen. destruct (Simulator.use_windows_curve self); reflexivity.
  - intros self Hreach.
    pose proof (reachable_invariant_2 self Hreach) as Hwf.
    destruct Hwf as (_ & _ & Hlen). unfold Simulator2.point_names.
    rewrite Hlen. destruct (Simulator2.use_windows_curve self); reflexivity.
Qed.

End ValuesLabel.
(* ===================================================================== *)
(** * The round trip of a pixel in binary64 *)
(* ===================================================================== *)

Section PixelRoundTrip.

Local Open Scope float_scope.

Lemma checked_up_to (k : nat) (f : nat -> bool) :
  forallb f (seq 0 (S k)) = true ->
  forall n, (n <= k)%nat -> f n = true.
Proof.
  intros Hall n Hn.
  apply (proj1 (forallb_forall f (seq 0 (S k))) Hall).
  apply in_seq. lia.
Qed.

Lemma pixels_kept : forallb Binary64.pixel_kept (seq 0 501) = true.
Proof. vm_compute. reflexivity. Qed.

(** X23.  In binary64 the round trip canvas to function to canvas moves
    no pixel of the canvas (integer coordinates 0 to 500) by more than
    2^-44, in either editor; along x in [simulator.py] it is exact.  It
    is not exact everywhere: in [simulator.py] the row 11 comes back as
    a value strictly below 11. *)
Theorem pixel_round_trip_binary64 (n m : nat) :
  (n <= 500)%nat -> (m <= 500)%nat ->
  let cx := Binary64.pixel n in
  let cy := Binary64.pixel m in
  (fst (Binary64.Simulator.canvas_round_trip cx cy) =? cx) = true
  /\ (abs (snd (Binary64.Simulator.canvas_round_trip cx cy) - cy)
      <=? 0x1p-44) = true
  /\ (abs (fst (Binary64.Simulator2.canvas_round_trip cx cy) - cx)
      <=? 0x1p-44) = true
  /\ (abs (snd (Binary64.Simulator2.canvas_round_trip cx cy) - cy)
      <=? 0x1p-44) = true
  /\ (snd (Binary64.Simulator.canvas_round_trip 7 11) <? 11) = true.
Proof.
  intros Hn Hm cx cy. subst cx cy.
  pose proof (checked_up_to 500 Binary64.pixel_kept pixels_kept n Hn) as Hx.
  pose proof (checked_up_to 500 Binary64.pixel_kept pixels_kept m Hm) as Hy.
  unfold Binary64.pixel_kept in Hx, Hy.
  apply andb_true_iff in Hx as [Hx Hx4].
  apply andb_true_iff in Hx as [Hx Hx3].
  apply andb_true_iff in Hx as [Hx1 Hx2].
  apply andb_true_iff in Hy as [Hy Hy4].
  apply andb_true_iff in Hy as [Hy Hy3].
  apply andb_true_iff in Hy as [Hy1 Hy2].
  split; [exact Hx1|]. split; [exact Hy2|].
  split; [exact Hx3|]. split; [exact Hy4|].
  vm_compute. reflexivity.
Qed.

Lemma pixel_round_trip_binary64_witness :
  (abs (snd (Binary64.Simulator.canvas_round_trip
               (Binary64.pixel 7) (Binary64.pixel 11))
        - Binary64.pixel 11)
   <=? 0x1p-44) = true.
Proof.
  exact (proj1 (proj2 (pixel_round_trip_binary64 7 11
                         ltac:(lia) ltac:(lia)))).
Defined.

End PixelRoundTrip.
